(** * fss-parse-word: the conversion engine of [src/word_converter.py]

    A shallow embedding of the file-safety layer ([FileSafetyManager]) and of
    the two translators ([WordToMarkdownConverter], [MarkdownToWordConverter])
    together with the properties the specification states about them.

    Python [str] values are sequences of Unicode code points; [bytes] values
    are sequences of bytes.  The file system, standard input and standard
    output are threaded explicitly through a state-and-exception monad. *)

From Stdlib Require Import ZArith NArith List String Ascii Lia DecimalNat.
From stdpp Require Import base option list gmap.
From Equations Require Import Equations.

Local Open Scope Z_scope.

(** ** Python strings *)

(** A [str] is a list of code points. *)
Notation char := N (only parsing).
Notation str := (list N) (only parsing).
Notation bytes := (list Byte.byte) (only parsing).

(** An ASCII literal of the source, as a [str]. *)
Definition lit (s : string) : str := N_of_ascii <$> list_ascii_of_string s.

(** [str(n)] for a non-negative integer: its decimal digits. *)
Fixpoint digits (d : Decimal.uint) : str :=
  match d with
  | Decimal.Nil => []
  | Decimal.D0 d => 48%N :: digits d
  | Decimal.D1 d => 49%N :: digits d
  | Decimal.D2 d => 50%N :: digits d
  | Decimal.D3 d => 51%N :: digits d
  | Decimal.D4 d => 52%N :: digits d
  | Decimal.D5 d => 53%N :: digits d
  | Decimal.D6 d => 54%N :: digits d
  | Decimal.D7 d => 55%N :: digits d
  | Decimal.D8 d => 56%N :: digits d
  | Decimal.D9 d => 57%N :: digits d
  end.

Definition str_of_nat (n : nat) : str := digits (Nat.to_uint n).

Definition str_eqb (a b : str) : bool := bool_decide (a = b).

(** [s.startswith(p)] *)
Fixpoint startswith (p s : str) : bool :=
  match p, s with
  | [], _ => true
  | _ :: _, [] => false
  | a :: p', b :: s' => (a =? b)%N && startswith p' s'
  end.

(** [s.endswith(p)] *)
Definition endswith (p s : str) : bool := startswith (rev p) (rev s).

(** [c in s] for a single character. *)
Definition contains_char (c : char) (s : str) : bool := existsb (N.eqb c) s.

(** [all(c == x for c in s)] *)
Definition all_char (x : char) (s : str) : bool := forallb (N.eqb x) s.

(** [s.find(needle, start)]: index of the first occurrence at or after
    [start], [-1] when there is none. *)
Fixpoint find_from (needle s : str) (pos : nat) : Z :=
  if startswith needle s then Z.of_nat pos
  else match s with
       | [] => -1
       | _ :: s' => find_from needle s' (S pos)
       end.

Definition find (needle s : str) (start : nat) : Z :=
  if (length s <? start)%nat then -1 else find_from needle (drop start s) start.

(** [s.rfind(c)] for a single character: index of its last occurrence,
    [-1] when there is none. *)
Fixpoint rfind_char (c : char) (s : str) : Z :=
  match s with
  | [] => -1
  | x :: s' =>
      let r := rfind_char c s' in
      if 0 <=? r then r + 1
      else if (x =? c)%N then 0 else -1
  end.

(** The line feed, as a one-character literal. *)
Definition newline : string := String (ascii_of_nat 10) EmptyString.

(** [sep.join(xs)] *)
Fixpoint join (sep : str) (xs : list str) : str :=
  match xs with
  | [] => []
  | [x] => x
  | x :: rest => x ++ sep ++ join sep rest
  end.

(** [s.split(sep)] for a single-character separator. *)
Fixpoint split_char (sep : char) (s : str) : list str :=
  match s with
  | [] => [[]]
  | c :: s' =>
      if (c =? sep)%N then [] :: split_char sep s'
      else match split_char sep s' with
           | [] => [[c]]
           | w :: ws => (c :: w) :: ws
           end
  end.

(** [c.isspace()], which is also the class [\s] of a [str] pattern. *)
Definition isspace (c : char) : bool :=
  ((9 <=? c) && (c <=? 13) || (28 <=? c) && (c <=? 32)
   || (c =? 133) || (c =? 160) || (c =? 5760)
   || (8192 <=? c) && (c <=? 8202)
   || (c =? 8232) || (c =? 8233) || (c =? 8239) || (c =? 8287)
   || (c =? 12288))%N.

(** [s.lstrip()], [s.rstrip()], [s.strip()] *)
Fixpoint lstrip (s : str) : str :=
  match s with
  | c :: s' => if isspace c then lstrip s' else s
  | [] => []
  end.

Definition rstrip (s : str) : str := rev (lstrip (rev s)).
Definition strip (s : str) : str := rstrip (lstrip s).

(** [s.lstrip(chars)] for a single character. *)
Fixpoint lstrip_char (x : char) (s : str) : str :=
  match s with
  | c :: s' => if (c =? x)%N then lstrip_char x s' else s
  | [] => []
  end.

(** [s.lower()].  Only the letters A to Z are mapped: the one place that
    lower-cases compares the result with ['y'] and ['yes'], and no other
    character lower-cases to one of [y], [e], [s]. *)
Definition lower_char (c : char) : char :=
  if ((65 <=? c) && (c <=? 90))%N then (c + 32)%N else c.
Definition lower (s : str) : str := lower_char <$> s.

(** ** Exceptions and outcomes *)

Inductive exn : Type :=
| ValueError (msg : str)
| TypeError (msg : str)
| AttributeError (msg : str)
| IndexError (msg : str)
| FileNotFoundError
| EOFError
| UnicodeDecodeError.

(** [str(e)] *)
Definition str_of_exn (e : exn) : str :=
  match e with
  | ValueError msg | TypeError msg | AttributeError msg | IndexError msg => msg
  | FileNotFoundError => lit "No such file or directory"
  | EOFError => lit "EOF when reading a line"
  | UnicodeDecodeError => lit "invalid start byte"
  end.

(** The result of running a piece of the program.  [Diverge] marks a loop
    that has not finished within the iteration bound of the model. *)
Inductive outcome (A : Type) : Type :=
| Ret (a : A)
| Raise (e : exn)
| Diverge.
Arguments Ret {A} a.
Arguments Raise {A} e.
Arguments Diverge {A}.

Global Instance outcome_ret : MRet outcome := λ A, @Ret A.
Global Instance outcome_bind : MBind outcome := λ A B f m,
  match m with
  | Ret a => f a
  | Raise e => Raise e
  | Diverge => Diverge
  end.

(** ** Paths (pathlib, POSIX flavour) *)

Module Path.

(** A path is its anchor and its components. *)
Record t : Type := mk { root : bool; parts : list str }.

Global Instance t_eq_dec : EqDecision t.
Proof. solve_decision. Defined.

Global Instance t_countable : Countable t.
Proof.
  refine (inj_countable' (λ p, (root p, parts p)) (λ x, mk x.1 x.2) _).
  by intros [].
Defined.

(** [str(path)] *)
Definition to_str (p : t) : str :=
  if root p then lit "/" ++ join (lit "/") (parts p)
  else match parts p with
       | [] => lit "."
       | _ => join (lit "/") (parts p)
       end.

(** [path.name]: the final component, empty when there is none. *)
Definition name (p : t) : str := List.last (parts p) [].

(** [path.suffix] *)
Definition suffix (p : t) : str :=
  let name := name p in
  let i := rfind_char 46 name in
  if (0 <? i) && (i <? Z.of_nat (length name) - 1) then drop (Z.to_nat i) name
  else [].

(** [path.stem] *)
Definition stem (p : t) : str :=
  let name := name p in
  let i := rfind_char 46 name in
  if (0 <? i) && (i <? Z.of_nat (length name) - 1) then take (Z.to_nat i) name
  else name.

(** [path.with_suffix(suffix)] *)
Definition with_suffix (p : t) (suffix' : str) : outcome t :=
  if contains_char 47 suffix' then Raise (ValueError (lit "Invalid suffix"))
  else if (negb (str_eqb suffix' []) && negb (startswith (lit ".") suffix'))
          || str_eqb suffix' (lit ".")
  then Raise (ValueError (lit "Invalid suffix"))
  else
    let name := name p in
    if str_eqb name [] then Raise (ValueError (lit "empty name"))
    else
      let old_suffix := suffix p in
      let name' :=
        if str_eqb old_suffix [] then name ++ suffix'
        else take (length name - length old_suffix) name ++ suffix' in
      Ret (mk (root p) (removelast (parts p) ++ [name'])).

End Path.

(** ** The world: files, standard input, standard output *)

Record world : Type := World {
  files : gmap Path.t bytes;   (* regular files and their content *)
  stdin : list str;            (* lines still to be read by [input] *)
  stdout : list str            (* what has been printed, oldest first *)
}.

(** Computations that read and change a state of type [S] and may raise. *)
Definition ST (S A : Type) : Type := S → outcome A * S.

Definition ret {S A} (a : A) : ST S A := λ s, (Ret a, s).

Definition bind {S A B} (m : ST S A) (f : A → ST S B) : ST S B := λ s,
  match m s with
  | (Ret a, s') => f a s'
  | (Raise e, s') => (Raise e, s')
  | (Diverge, s') => (Diverge, s')
  end.

(** Lifting a computation that does not touch the state. *)
Definition lift {S A} (o : outcome A) : ST S A := λ s, (o, s).

(** [try: body except Exception as e: handler(e)] *)
Definition try_except {S A} (body : ST S A) (handler : exn → ST S A) : ST S A :=
  λ s, match body s with
       | (Raise e, s') => handler e s'
       | r => r
       end.

(** Computations on the world. *)
Notation M := (ST world) (only parsing).

Declare Scope io_scope.
Delimit Scope io_scope with io.
Bind Scope io_scope with ST.
Notation "x <- m ;; k" := (bind m (λ x, k))
  (at level 100, m at next level, right associativity) : io_scope.
Notation "m ;;; k" := (bind m (λ _, k))
  (at level 100, right associativity) : io_scope.
Local Open Scope io_scope.

(** [path.exists()] *)
Definition path_exists (p : Path.t) : M bool :=
  λ w, (Ret (bool_decide (is_Some (files w !! p))), w).

(** [open(path, 'rb')]: the handle is the bytes still to be read. *)
Definition open_rb (p : Path.t) : M bytes :=
  λ w, match files w !! p with
       | Some content => (Ret content, w)
       | None => (Raise FileNotFoundError, w)
       end.

(** [print(line)] *)
Definition print (line : str) : M unit :=
  λ w, (Ret tt, World (files w) (stdin w) (stdout w ++ [line])).

(** [input(prompt)]: writes the prompt, reads one line. *)
Definition input (prompt : str) : M str :=
  λ w, match stdin w with
       | line :: rest => (Ret line, World (files w) rest (stdout w ++ [prompt]))
       | [] => (Raise EOFError, World (files w) [] (stdout w ++ [prompt]))
       end.

(** [shutil.copy2(src, dst)]: raises when the source cannot be read. *)
Definition copy2 (src dst : Path.t) : M unit :=
  λ w, match files w !! src with
       | Some content =>
           (Ret tt, World (<[dst := content]> (files w)) (stdin w) (stdout w))
       | None => (Raise FileNotFoundError, w)
       end.

(** ** hashlib *)

(** The incremental SHA-256 object of [hashlib]: feeding the data in pieces
    is the same as feeding it at once. *)
Class Hashlib : Type := {
  hasher : Type;
  sha256 : hasher;
  update : hasher → bytes → hasher;
  hexdigest : hasher → str;
  update_nil : ∀ h, update h [] = h;
  update_app : ∀ h a b, update (update h a) b = update h (a ++ b)
}.

(** The digest of a whole byte string. *)
Definition sha256_hex `{Hashlib} (data : bytes) : str :=
  hexdigest (update sha256 data).

(** ** SafetyConfig *)

Module SafetyConfig.

Record t : Type := mk {
  require_confirmation : bool;
  create_backup : bool;
  check_hash : bool;
  prevent_overwrite : bool;
  backup_suffix : str
}.

Definition default : t := mk true true true true (lit ".backup").

End SafetyConfig.

(** ** FileSafetyManager *)

(** A value together with the fact that it is the value of [a]. *)
Definition inspect {A} (a : A) : {b | a = b} := exist _ a eq_refl.

Section FileSafetyManager.

Context `{Hashlib}.
Variable config : SafetyConfig.t.

(** [for byte_block in iter(lambda: f.read(4096), b''): h.update(byte_block)]:
    [f.read(4096)] returns the next block of at most 4096 bytes and advances
    the handle; the loop stops at the first empty block. *)
Equations hash_blocks (h : hasher) (f : bytes) : hasher by wf (length f) lt :=
  hash_blocks h f with inspect (take 4096 f) := {
    | exist _ [] _ => h
    | exist _ (b :: bs) _ => hash_blocks (update h (b :: bs)) (drop 4096 f)
  }.
Next Obligation.
  destruct f as [|x f]; [done|]. rewrite length_drop. simpl. lia.
Qed.

Definition calculate_file_hash (file_path : Path.t) : M str :=
  ex <- path_exists file_path;;
  if negb ex then ret []
  else
    f <- open_rb file_path;;
    ret (hexdigest (hash_blocks sha256 f)).

Definition detect_conversion_collision (source_file target_file : Path.t) : M bool :=
  ex <- path_exists target_file;;
  if negb ex then ret false
  else if str_eqb (Path.stem source_file) (Path.stem target_file) then
    source_hash <- calculate_file_hash source_file;;
    target_hash <- calculate_file_hash target_file;;
    ret (negb (str_eqb source_hash target_hash))
  else ret false.

(** The name tried by [create_backup] at a given [counter]; [None] is the
    name tried before the loop. *)
Definition backup_name (file_path : Path.t) (counter : option nat) : outcome Path.t :=
  Path.with_suffix file_path
    (Path.suffix file_path ++ SafetyConfig.backup_suffix config ++
     match counter with
     | None => []
     | Some c => lit "." ++ str_of_nat c
     end).

(** [while backup_path.exists(): backup_path = ...; counter += 1], at most
    [fuel] iterations. *)
Fixpoint backup_loop (fuel : nat) (file_path backup_path : Path.t) (counter : nat)
  : M Path.t :=
  ex <- path_exists backup_path;;
  if ex then
    match fuel with
    | O => lift Diverge
    | S fuel' =>
        backup_path' <- lift (backup_name file_path (Some counter));;
        backup_loop fuel' file_path backup_path' (S counter)
    end
  else ret backup_path.

(** The loop of [create_backup] has no bound of its own; the model runs it
    for one iteration more than there are files, which is enough
    ([first_free_exists] and [backup_loop_finds] below). *)
Definition create_backup (file_path : Path.t) : M (option Path.t) :=
  ex <- path_exists file_path;;
  if negb ex then ret None
  else
    backup_path <- lift (backup_name file_path None);;
    fuel <- (λ w, (Ret (S (size (files w))), w));;
    backup_path <- backup_loop fuel file_path backup_path 1;;
    try_except (A := option Path.t)
      (copy2 file_path backup_path;;; ret (Some backup_path))
      (λ e, print ([9888; 65039]%N ++ lit "  Warning: Could not create backup: "
                   ++ str_of_exn e);;;
            ret None).

Definition confirm_overwrite (file_path : Path.t) : M bool :=
  if negb (SafetyConfig.require_confirmation config) then ret true
  else
    response <- input ([9888; 65039]%N ++ lit "  File '" ++ Path.to_str file_path
                       ++ lit "' exists. Overwrite? [y/N]: ");;
    let response := strip (lower response) in
    ret (str_eqb response (lit "y") || str_eqb response (lit "yes")).

Definition safe_write_check (source_file target_file : Path.t) : M (bool * str) :=
  collision <- detect_conversion_collision source_file target_file;;
  if collision then
    ret (false, lit "Collision detected: " ++ Path.to_str target_file
                 ++ lit " exists with different content")
  else
    ex <- path_exists target_file;;
    if ex then
      confirmed <- (if SafetyConfig.prevent_overwrite config
                   then confirm_overwrite target_file else ret true);;
      if negb confirmed then ret (false, lit "User cancelled overwrite")
      else
        (if SafetyConfig.create_backup config then
           backup_path <- create_backup target_file;;
           match backup_path with
           | Some b => print ([9989]%N ++ lit " Backup created: " ++ Path.to_str b)
           | None => ret tt
           end
         else ret tt);;;
        ret (true, lit "Safe to proceed")
    else ret (true, lit "Safe to proceed").

End FileSafetyManager.

(** *** Notions used to state the properties of the safety layer *)

(** The fingerprint of a path in a given world: the digest of its content,
    the empty string when there is no such file. *)
Definition fingerprint `{Hashlib} (w : world) (p : Path.t) : str :=
  match files w !! p with
  | Some content => sha256_hex content
  | None => []
  end.

(** The [k]-th backup name of [file.ext]: [file.ext.backup] for [k = 0],
    then [file.ext.backup.1], [file.ext.backup.2], ... *)
Definition backup_candidate (p : Path.t) (k : nat) : Path.t :=
  Path.mk (Path.root p)
    (removelast (Path.parts p) ++
     [Path.name p ++ lit ".backup" ++
      match k with
      | O => []
      | S _ => lit "." ++ str_of_nat k
      end]).

(** A path that can name a file: its final component is not empty and
    holds no separator. *)
Definition names_a_file (p : Path.t) : Prop :=
  Path.name p ≠ [] ∧ contains_char 47 (Path.name p) = false.

(** An implementation of the [hashlib] interface whose digest is the
    hexadecimal dump of the data; it makes the statements below concrete. *)
Definition hex_digit (n : N) : char :=
  (if n <? 10 then 48 + n else 87 + n)%N.

Definition hex_dump (data : bytes) : str :=
  flat_map (λ b, [hex_digit (Byte.to_N b / 16); hex_digit (Byte.to_N b mod 16)]) data.

Program Definition dump_hashlib : Hashlib := {|
  hasher := bytes;
  sha256 := [];
  update := λ h data, h ++ data;
  hexdigest := hex_dump
|}.
Next Obligation. intros. apply app_nil_r. Qed.
Next Obligation. intros. symmetry. apply app_assoc. Qed.


(** A small world for concrete instances of the statements: a Markdown
    source, the Word file of the same stem with other content, and a backup
    of that Word file made earlier. *)
Definition sample_md : Path.t := Path.mk false [lit "report.md"].
Definition sample_docx : Path.t := Path.mk false [lit "report.docx"].
Definition sample_md_bytes : bytes :=
  [Byte.x23; Byte.x20; Byte.x48; Byte.x69; Byte.x21].
Definition sample_docx_bytes : bytes :=
  [Byte.x50; Byte.x4b; Byte.x03; Byte.x04].

Definition sample_world : world :=
  World (<[ sample_md := sample_md_bytes ]>
         (<[ sample_docx := sample_docx_bytes ]>
          {[ Path.mk false [lit "report.docx.backup"] := sample_docx_bytes ]}))
        [] [].

(** ** More of [str] *)

(** [needle in s] *)
Definition contains (needle s : str) : bool := 0 <=? find needle s 0.

(** [s.replace(a, b)] for single characters. *)
Definition replace_char (a b : char) (s : str) : str :=
  (λ c, if (c =? a)%N then b else c) <$> s.

(** [s.count(c)] for a single character. *)
Definition count_char (c : char) (s : str) : nat := length (filter (λ x, x = c) s).

(** [c * n] *)
Definition repeat_char (c : char) (n : nat) : str := replicate n c.

(** The zero digits of the decimal-digit blocks (general category Nd):
    each block is ten consecutive code points. *)
Definition decimal_zeros : list N :=
  [48; 1632; 1776; 1984; 2406; 2534; 2662; 2790; 2918; 3046; 3174; 3302;
   3430; 3558; 3664; 3792; 3872; 4160; 4240; 6112; 6160; 6470; 6608; 6784;
   6800; 6992; 7088; 7232; 7248; 42528; 43216; 43264; 43472; 43504; 43600;
   44016; 65296; 66720; 68912; 69734; 69872; 69942; 70096; 70384; 70736;
   70864; 71248; 71360; 71472; 71904; 72016; 72784; 73040; 73120; 73552;
   92768; 92864; 93008; 120782; 120792; 120802; 120812; 120822; 123200;
   123632; 124144; 125264; 130032]%N.

(** The value of a decimal digit; [None] for any other character.  This is
    the class [\d] of a [str] pattern, and what [int] accepts as a digit. *)
Definition decimal_value (c : char) : option N :=
  (λ z, c - z)%N <$> List.find (λ z, (z <=? c) && (c <? z + 10))%N decimal_zeros.

Definition isdecimal (c : char) : bool := bool_decide (is_Some (decimal_value c)).

(** [re.findall(r'\d+', s)[0]] when there is a match: the first maximal run of
    digits. *)
Fixpoint take_while (f : char → bool) (s : str) : str :=
  match s with
  | c :: s' => if f c then c :: take_while f s' else []
  | [] => []
  end.

Fixpoint drop_while (f : char → bool) (s : str) : str :=
  match s with
  | c :: s' => if f c then drop_while f s' else s
  | [] => []
  end.

Definition first_digits (s : str) : option str :=
  match drop_while (λ c, negb (isdecimal c)) s with
  | [] => None
  | rest => Some (take_while isdecimal rest)
  end.

(** [int(s)] for a string of decimal digits. *)
Definition int_of_digits (s : str) : N :=
  fold_left (λ acc c, 10 * acc + default 0 (decimal_value c))%N s 0%N.

(** ** Python values *)

(** Dictionary keys. *)
Inductive pykey : Type :=
| KNone
| KBool (b : bool)
| KInt (z : Z)
| KStr (s : str).

Global Instance pykey_eq_dec : EqDecision pykey.
Proof. solve_decision. Defined.

(** Values as [json.loads] and [yaml.safe_load] build them.  A dictionary is
    its items in insertion order; [PObject] stands for a value of any other
    kind (a float, a date, ...), together with its truth value. *)
Inductive pyval : Type :=
| PNone
| PBool (b : bool)
| PInt (z : Z)
| PStr (s : str)
| PList (items : list pyval)
| PDict (items : list (pykey * pyval))
| PObject (truth : bool) (repr : str).

(** [bool(v)] *)
Definition truthy (v : pyval) : bool :=
  match v with
  | PNone => false
  | PBool b => b
  | PInt z => negb (z =? 0)
  | PStr s => negb (str_eqb s [])
  | PList items => match items with [] => false | _ => true end
  | PDict items => match items with [] => false | _ => true end
  | PObject truth _ => truth
  end.

(** [True == 1] and [False == 0] as keys. *)
Definition key_norm (k : pykey) : pykey :=
  match k with
  | KBool b => KInt (if b then 1 else 0)
  | _ => k
  end.

Definition key_eqb (a b : pykey) : bool := bool_decide (key_norm a = key_norm b).

(** [d[k] = v]: an existing key keeps its place. *)
Fixpoint dict_set (k : pykey) (v : pyval) (d : list (pykey * pyval))
  : list (pykey * pyval) :=
  match d with
  | [] => [(k, v)]
  | (k', v') :: d' =>
      if key_eqb k k' then (k', v) :: d' else (k', v') :: dict_set k v d'
  end.

(** [d[k] = v] on a value: a dictionary takes any key, a list an index
    within its bounds (a negative one counts from the end). *)
Definition setitem (d : pyval) (k : pykey) (v : pyval) : outcome pyval :=
  match d with
  | PDict items => Ret (PDict (dict_set k v items))
  | PList items =>
      match key_norm k with
      | KInt z =>
          let n := Z.of_nat (length items) in
          if (- n <=? z) && (z <? n)
          then Ret (PList (<[Z.to_nat (if z <? 0 then z + n else z) := v]> items))
          else Raise (IndexError (lit "list assignment index out of range"))
      | _ => Raise (TypeError (lit "list indices must be integers or slices"))
      end
  | _ => Raise (TypeError (lit "object does not support item assignment"))
  end.

(** [l.append(v)] on a value *)
Definition append (l : pyval) (v : pyval) : outcome pyval :=
  match l with
  | PList items => Ret (PList (items ++ [v]))
  | _ => Raise (AttributeError (lit "object has no attribute 'append'"))
  end.

(** ** FormatMetadata *)

Module FormatMetadata.

Record t : Type := mk {
  bold_ranges : pyval;
  italic_ranges : pyval;
  heading_levels : pyval;
  lists : pyval;
  tables : pyval;
  hyperlinks : pyval;
  images : pyval;
  styles : pyval;
  file_hash : pyval;
  conversion_timestamp : pyval
}.

(** [__post_init__]: a field that is [None] gets its empty container. *)
Definition post_init (m : t) : t :=
  let fill (dflt v : pyval) := match v with PNone => dflt | _ => v end in
  mk (fill (PList []) (bold_ranges m)) (fill (PList []) (italic_ranges m))
     (fill (PDict []) (heading_levels m)) (fill (PList []) (lists m))
     (fill (PList []) (tables m)) (fill (PList []) (hyperlinks m))
     (fill (PList []) (images m)) (fill (PDict []) (styles m))
     (file_hash m) (conversion_timestamp m).

(** The field defaults of the dataclass. *)
Definition defaults : t :=
  mk PNone PNone PNone PNone PNone PNone PNone PNone (PStr []) (PStr []).

(** [FormatMetadata()] *)
Definition empty : t := post_init defaults.

Definition set_heading_levels (v : pyval) (m : t) : t :=
  mk (bold_ranges m) (italic_ranges m) v (lists m) (tables m) (hyperlinks m)
     (images m) (styles m) (file_hash m) (conversion_timestamp m).
Definition set_lists (v : pyval) (m : t) : t :=
  mk (bold_ranges m) (italic_ranges m) (heading_levels m) v (tables m)
     (hyperlinks m) (images m) (styles m) (file_hash m) (conversion_timestamp m).
Definition set_tables (v : pyval) (m : t) : t :=
  mk (bold_ranges m) (italic_ranges m) (heading_levels m) (lists m) v
     (hyperlinks m) (images m) (styles m) (file_hash m) (conversion_timestamp m).
Definition set_hyperlinks (v : pyval) (m : t) : t :=
  mk (bold_ranges m) (italic_ranges m) (heading_levels m) (lists m) (tables m)
     v (images m) (styles m) (file_hash m) (conversion_timestamp m).
Definition set_styles (v : pyval) (m : t) : t :=
  mk (bold_ranges m) (italic_ranges m) (heading_levels m) (lists m) (tables m)
     (hyperlinks m) (images m) v (file_hash m) (conversion_timestamp m).

End FormatMetadata.

(** ** The document model (python-docx) *)

(** Lengths are in English Metric Units, as the library stores them. *)
Definition Pt (points : Z) : Z := points * 12700.
Definition quarter_inch : Z := 228600.   (* [Inches(0.25)] *)

Inductive WD_ALIGN_PARAGRAPH : Type := LEFT | CENTER | RIGHT | JUSTIFY.

Module Run.

Record t : Type := mk {
  text : str;
  bold : option bool;
  italic : option bool;
  underline : option bool;
  superscript : option bool;       (* [run.font.superscript] *)
  subscript : option bool;         (* [run.font.subscript] *)
  strike : option bool;            (* [run.font.strike] *)
  font_name : option str;
  font_size : option Z;
  color : option (N * N * N);      (* [run.font.color.rgb] *)
  hyperlink : bool                 (* [run.element.xpath('.//w:hyperlink')] is not empty *)
}.

(** [paragraph.add_run(text)] makes a run with no formatting of its own. *)
Definition plain (text : str) : t :=
  mk text None None None None None None None None None false.

End Run.

(** The truth value of a tri-state property ([None], [True] or [False]). *)
Definition is_on (flag : option bool) : bool := default false flag.

Module Paragraph.

Record t : Type := mk {
  runs : list Run.t;
  style : str;
  alignment : option WD_ALIGN_PARAGRAPH;
  left_indent : option Z;
  right_indent : option Z;
  space_before : option Z;
  space_after : option Z;
  border_top_color : option (N * N * N);
  border_top_width : option Z;
  border_bottom_color : option (N * N * N);
  border_bottom_width : option Z
}.

(** [paragraph.text]: the text of its runs. *)
Definition text (p : t) : str := concat (Run.text <$> runs p).

End Paragraph.

Module Cell.
(** A cell: its text, and whether its runs are bold. *)
Record t : Type := mk { text : str; bold : bool }.
End Cell.

Module Table.
Record t : Type := mk {
  rows : list (list Cell.t);
  style : option str;
  autofit : bool
}.
End Table.

Inductive Block : Type :=
| BParagraph (p : Paragraph.t)
| BTable (t : Table.t).

Module Document.

(** The body of the document, and the font of its default paragraph style. *)
Record t : Type := mk {
  body : list Block;
  normal_font_name : option str;
  normal_font_size : option Z
}.

(** [doc.paragraphs] *)
Definition paragraphs (d : t) : list Paragraph.t :=
  omap (λ b, match b with BParagraph p => Some p | _ => None end) (body d).

(** [doc.tables] *)
Definition tables (d : t) : list Table.t :=
  omap (λ b, match b with BTable t => Some t | _ => None end) (body d).

End Document.

(** ** ConversionConfig *)

Module ConversionConfig.

(** The fields of the dataclass that hold text, integers and flags; the
    three fields that hold floating-point numbers ([line_spacing],
    [paragraph_first_line_indent], [list_indent]) are left out. *)
Record t : Type := mk {
  font_name : str;
  font_size : Z;
  heading_font : str;
  heading_colors : list (Z * str);
  heading_sizes : list (Z * Z);
  heading_spacing_before : list (Z * Z);
  heading_spacing_after : list (Z * Z);
  paragraph_spacing_after : Z;
  list_spacing : Z;
  table_style : str;
  table_autofit : bool;
  code_font : str;
  code_size : Z;
  code_background : str;
  use_builtin_styles : bool;
  custom_style_map : list (str * str)
}.

(** [ConversionConfig()] *)
Definition default : t := {|
  font_name := lit "Calibri";
  font_size := 11;
  heading_font := lit "Calibri";
  heading_colors :=
    [(1, lit "#2E75B6"); (2, lit "#C55A11"); (3, lit "#70AD47");
     (4, lit "#7030A0"); (5, lit "#264478"); (6, lit "#E7E6E6")];
  heading_sizes := [(1, 16); (2, 14); (3, 12); (4, 11); (5, 11); (6, 10)];
  heading_spacing_before := [(1, 12); (2, 10); (3, 8); (4, 6); (5, 6); (6, 4)];
  heading_spacing_after := [(1, 6); (2, 6); (3, 4); (4, 4); (5, 2); (6, 2)];
  paragraph_spacing_after := 6;
  list_spacing := 0;
  table_style := lit "Table Grid";
  table_autofit := true;
  code_font := lit "Consolas";
  code_size := 9;
  code_background := lit "#F5F5F5";
  use_builtin_styles := true;
  custom_style_map := []
|}.

(** [d.get(k)] on a dictionary with integer keys. *)
Definition lookup {V} (k : Z) (d : list (Z * V)) : option V :=
  snd <$> List.find (λ kv, fst kv =? k) d.

End ConversionConfig.

(** ** What the converter takes from its libraries

    [None] stands for the exception the call raises ([json.JSONDecodeError],
    any error of the YAML parser, [ValueError] of [int], a decoding error). *)
Class Libraries : Type := {
  str_lower : str → str;                       (* [str.lower] *)
  json_loads : str → option pyval;             (* [json.loads] *)
  yaml_safe_load : str → option pyval;         (* [yaml.safe_load] *)
  int16 : str → option Z;                      (* [int(s, 16)] *)
  hasattr_config : str → bool;                 (* [hasattr(config, key)] *)
  setattr_config :                             (* [setattr(config, key, value)] *)
    ConversionConfig.t → str → pyval → outcome ConversionConfig.t;
  decode_utf8 : bytes → option str;            (* reading a text file *)
  load_docx : bytes → outcome Document.t;      (* [Document(path)] *)
  dump_docx : Document.t → bytes               (* [doc.save(path)] *)
}.

(** ** WordToMarkdownConverter *)

Module W2M.
(** The converter object: the metadata it accumulates and the index of the
    line it is about to emit. *)
Record state : Type := mk { metadata : FormatMetadata.t; current_line : nat }.
End W2M.

Section WordToMarkdownConverter.

Context `{Libraries}.

Notation W := (ST W2M.state) (only parsing).

Definition get_metadata : W FormatMetadata.t := λ s, (Ret (W2M.metadata s), s).
Definition put_metadata (m : FormatMetadata.t) : W unit :=
  λ s, (Ret tt, W2M.mk m (W2M.current_line s)).
Definition get_current_line : W nat := λ s, (Ret (W2M.current_line s), s).
Definition put_current_line (n : nat) : W unit :=
  λ s, (Ret tt, W2M.mk (W2M.metadata s) n).

(** The formatting steps of the loop body of [_process_runs], in the order of
    the source: each step wraps what the steps before it have produced. *)
Definition run_formatting (run : Run.t) : str :=
  let text := Run.text run in
  (* Handle superscript/subscript first *)
  let text :=
    if is_on (Run.superscript run) then lit "<sup>" ++ text ++ lit "</sup>"
    else if is_on (Run.subscript run) then lit "<sub>" ++ text ++ lit "</sub>"
    else text in
  (* Handle strikethrough *)
  let text :=
    if is_on (Run.strike run) then lit "~~" ++ text ++ lit "~~" else text in
  (* Handle underline *)
  let text :=
    if is_on (Run.underline run) then lit "<u>" ++ text ++ lit "</u>" else text in
  (* Handle bold/italic combinations *)
  if is_on (Run.bold run) && is_on (Run.italic run)
  then lit "***" ++ text ++ lit "***"
  else if is_on (Run.bold run) then lit "**" ++ text ++ lit "**"
  else if is_on (Run.italic run) then lit "*" ++ text ++ lit "*"
  else text.

(** The loop of [_process_runs], from a given [result] and [char_position]. *)
Fixpoint process_runs_from (runs : list Run.t) (result : str) (char_position : nat)
  : W str :=
  match runs with
  | [] => ret result
  | run :: runs' =>
      let start_pos := char_position in
      let end_pos := (char_position + length (Run.text run))%nat in
      let text := run_formatting run in
      text <- (if Run.hyperlink run then
                 line <- get_current_line;;
                 m <- get_metadata;;
                 let hyperlink_info :=
                   PDict [(KStr (lit "start"), PInt (Z.of_nat start_pos));
                          (KStr (lit "end"), PInt (Z.of_nat end_pos));
                          (KStr (lit "line"), PInt (Z.of_nat line))] in
                 links <- lift (append (FormatMetadata.hyperlinks m) hyperlink_info);;
                 put_metadata (FormatMetadata.set_hyperlinks links m);;;
                 ret (lit "[" ++ Run.text run ++ lit "](#"
                      ++ str_lower (replace_char 32 45 (Run.text run)) ++ lit ")")
               else ret text);;
      process_runs_from runs' (result ++ text) end_pos
  end.

Definition _process_runs (runs : list Run.t) : W str :=
  process_runs_from runs [] 0.

Definition _process_table (table : Table.t) : W str :=
  match Table.rows table with
  | [] => ret []
  | _ =>
      let table_data := (λ row, (λ cell, strip (Cell.text cell)) <$> row)
                          <$> Table.rows table in
      match table_data with
      | [] | [] :: _ => ret []
      | header :: data_rows =>
          line <- get_current_line;;
          m <- get_metadata;;
          let table_info :=
            PDict [(KStr (lit "line"), PInt (Z.of_nat line));
                   (KStr (lit "rows"), PInt (Z.of_nat (length table_data)));
                   (KStr (lit "cols"), PInt (Z.of_nat (length header)));
                   (KStr (lit "data"), PList ((λ row, PList (PStr <$> row)) <$> table_data))] in
          tables <- lift (append (FormatMetadata.tables m) table_info);;
          put_metadata (FormatMetadata.set_tables tables m);;;
          let markdown_table :=
            [lit "| " ++ join (lit " | ") header ++ lit " |";
             lit "| " ++ join (lit " | ") (replicate (length header) (lit "---"))
               ++ lit " |"]
            ++ ((λ row, lit "| " ++ join (lit " | ") row ++ lit " |") <$> data_rows) in
          ret (join (lit newline) markdown_table)
      end
  end.

Definition _process_paragraph (paragraph : Paragraph.t) : W str :=
  let text := Paragraph.text paragraph in
  let style_name := Paragraph.style paragraph in
  if str_eqb (strip text) [] then ret []
  else if startswith (lit "Heading") style_name || startswith (lit "Title") style_name
  then
    let level :=
      if str_eqb style_name (lit "Title") then 1%N
      else match first_digits style_name with
           | Some d => int_of_digits d
           | None => 1%N
           end in
    line <- get_current_line;;
    m <- get_metadata;;
    levels <- lift (setitem (FormatMetadata.heading_levels m)
                      (KInt (Z.of_nat line)) (PInt (Z.of_N level)));;
    put_metadata (FormatMetadata.set_heading_levels levels m);;;
    ret (repeat_char 35 (N.to_nat level) ++ lit " " ++ text)
  else if existsb (λ list_style, contains list_style style_name)
            [lit "List"; lit "Bullet"; lit "Number"]
  then
    line <- get_current_line;;
    m <- get_metadata;;
    let list_info :=
      PDict [(KStr (lit "line"), PInt (Z.of_nat line));
             (KStr (lit "style"), PStr style_name)] in
    lists <- lift (append (FormatMetadata.lists m) list_info);;
    put_metadata (FormatMetadata.set_lists lists m);;;
    if existsb (λ bullet, contains bullet style_name) [lit "Bullet"; lit "bullet"]
    then ret (lit "- " ++ text)
    else ret (lit "1. " ++ text)
  else
    formatted_text <- _process_runs (Paragraph.runs paragraph);;
    line <- get_current_line;;
    m <- get_metadata;;
    match Paragraph.alignment paragraph with
    | Some CENTER =>
        styles <- lift (setitem (FormatMetadata.styles m)
                          (KStr (str_of_nat line)) (PStr (lit "center")));;
        put_metadata (FormatMetadata.set_styles styles m)
    | Some RIGHT =>
        styles <- lift (setitem (FormatMetadata.styles m)
                          (KStr (str_of_nat line)) (PStr (lit "right")));;
        put_metadata (FormatMetadata.set_styles styles m)
    | _ => ret tt
    end;;;
    ret formatted_text.

Fixpoint paragraphs_loop (paragraphs : list Paragraph.t) (content_lines : list str)
  : W (list str) :=
  match paragraphs with
  | [] => ret content_lines
  | paragraph :: rest =>
      line_content <- _process_paragraph paragraph;;
      if negb (str_eqb (strip line_content) []) then
        line <- get_current_line;;
        put_current_line (S line);;;
        paragraphs_loop rest (content_lines ++ [line_content])
      else paragraphs_loop rest content_lines
  end.

Fixpoint tables_loop (tables : list Table.t) (content_lines : list str)
  : W (list str) :=
  match tables with
  | [] => ret content_lines
  | table :: rest =>
      table_md <- _process_table table;;
      if negb (str_eqb table_md []) then
        line <- get_current_line;;
        put_current_line (line + count_char 10 table_md);;;
        tables_loop rest (content_lines ++ [table_md])
      else tables_loop rest content_lines
  end.

Definition _extract_content_and_metadata (doc : Document.t) : W str :=
  put_current_line 0;;;
  content_lines <- paragraphs_loop (Document.paragraphs doc) [];;
  content_lines <- tables_loop (Document.tables doc) content_lines;;
  ret (join (lit newline) content_lines).

End WordToMarkdownConverter.

(** ** MarkdownToWordConverter: patterns *)

(** [(.+?)] followed by the literal [close]: the shortest non-empty stretch
    without a line feed after which [close] stands.  Returns the group and
    what follows [close]. *)
Fixpoint lazy_group (close : str) (s : str) : option (str * str) :=
  match s with
  | [] => None
  | c :: s' =>
      if (c =? 10)%N then None
      else if startswith close s' then Some ([c], drop (length close) s')
      else '(g, rest) ← lazy_group close s'; Some (c :: g, rest)
  end.

(** [(.+?)\]\((.+?)\)]: when no closing parenthesis follows the first ["]("],
    the first group is extended to a later one. *)
Fixpoint lazy_link (s : str) : option (str * str * str) :=
  match s with
  | [] => None
  | c :: s' =>
      if (c =? 10)%N then None
      else
        let longer := '(g, url, rest) ← lazy_link s'; Some (c :: g, url, rest) in
        if startswith (lit "](") s' then
          match lazy_group (lit ")") (drop 2 s') with
          | Some (url, rest) => Some ([c], url, rest)
          | None => longer
          end
        else longer
  end.

(** A match of the combined inline pattern: group 1 (the whole match) and
    the inner groups 2 to 6, each [None] when its alternative did not take
    part. *)
Record inline_match : Type := InlineMatch {
  group1 : str;
  group2 : option str;
  group3 : option str;
  group4 : option str;
  group5 : option str;
  group6 : option str
}.

(** The pattern of [_apply_inline_formatting] tried at the start of [s]: the
    alternatives in their order. *)
Definition inline_match_at (s : str) : option inline_match :=
  let whole (rest : str) := take (length s - length rest) s in
  let triple :=
    if startswith (lit "***") s then lazy_group (lit "***") (drop 3 s) else None in
  let double :=
    if startswith (lit "**") s then lazy_group (lit "**") (drop 2 s) else None in
  let single :=
    if startswith (lit "*") s then lazy_group (lit "*") (drop 1 s) else None in
  let code :=
    if startswith (lit "`") s then lazy_group (lit "`") (drop 1 s) else None in
  let link :=
    if startswith (lit "[") s then lazy_link (drop 1 s) else None in
  match triple, double, single, code, link with
  | Some (g, rest), _, _, _, _ =>
      Some (InlineMatch (whole rest) (Some g) None None None None)
  | None, Some (g, rest), _, _, _ =>
      Some (InlineMatch (whole rest) None (Some g) None None None)
  | None, None, Some (g, rest), _, _ =>
      Some (InlineMatch (whole rest) None None (Some g) None None)
  | None, None, None, Some (g, rest), _ =>
      Some (InlineMatch (whole rest) None None None (Some g) None)
  | None, None, None, None, Some (g, _, rest) =>
      Some (InlineMatch (whole rest) None None None None (Some g))
  | None, None, None, None, None => None
  end.

(** [re.finditer(pattern, text)]: the matches from left to right without
    overlap, each with its start and end.  [skip] counts the characters of
    the last match that are still to be passed. *)
Fixpoint finditer (s : str) (pos skip : nat) : list (nat * nat * inline_match) :=
  match s with
  | [] => []
  | _ :: s' =>
      match skip with
      | S skip' => finditer s' (S pos) skip'
      | O =>
          match inline_match_at s with
          | Some m =>
              (pos, (pos + length (group1 m))%nat, m)
                :: finditer s' (S pos) (length (group1 m) - 1)
          | None => finditer s' (S pos) 0
          end
      end
  end.

(** [re.match(r'^\s*\d+\.', line)]: what follows the match, when there is
    one. *)
Definition match_number_dot (line : str) : option str :=
  let rest := drop_while isspace line in
  match take_while isdecimal rest, drop_while isdecimal rest with
  | _ :: _, 46%N :: after => Some after
  | _, _ => None
  end.

(** [re.sub(r'^\s*\d+\.\s*', '', line)] *)
Definition strip_number_dot (line : str) : str :=
  match match_number_dot line with
  | Some after => drop_while isspace after
  | None => line
  end.

(** ** MarkdownToWordConverter: building the document *)

(** [doc.add_paragraph(text, style)]: the new paragraph, which the caller
    appends to the body once it has formatted it.  An empty text gives no
    run. *)
Definition new_paragraph (text : str) (style : str) : Paragraph.t :=
  Paragraph.mk (match text with [] => [] | _ => [Run.plain text] end)
    style None None None None None None None None None.

Definition add_block (b : Block) (doc : Document.t) : Document.t :=
  Document.mk (Document.body doc ++ [b])
    (Document.normal_font_name doc) (Document.normal_font_size doc).

Definition set_run_font (name : option str) (size : option Z) (r : Run.t) : Run.t :=
  Run.mk (Run.text r) (Run.bold r) (Run.italic r) (Run.underline r)
    (Run.superscript r) (Run.subscript r) (Run.strike r)
    (match name with Some _ => name | None => Run.font_name r end)
    (match size with Some _ => size | None => Run.font_size r end)
    (Run.color r) (Run.hyperlink r).

Definition set_run_flags (bold italic underline : option bool) (r : Run.t) : Run.t :=
  Run.mk (Run.text r)
    (match bold with Some _ => bold | None => Run.bold r end)
    (match italic with Some _ => italic | None => Run.italic r end)
    (match underline with Some _ => underline | None => Run.underline r end)
    (Run.superscript r) (Run.subscript r) (Run.strike r)
    (Run.font_name r) (Run.font_size r) (Run.color r) (Run.hyperlink r).

Definition set_run_color (rgb : N * N * N) (r : Run.t) : Run.t :=
  Run.mk (Run.text r) (Run.bold r) (Run.italic r) (Run.underline r)
    (Run.superscript r) (Run.subscript r) (Run.strike r)
    (Run.font_name r) (Run.font_size r) (Some rgb) (Run.hyperlink r).

(** Changing the first run of a paragraph. *)
Definition on_first_run (f : Run.t → Run.t) (runs : list Run.t) : list Run.t :=
  match runs with
  | r :: rest => f r :: rest
  | [] => []
  end.

Section MarkdownToWordConverter.

Context `{Libraries}.
Variable config : ConversionConfig.t.

Definition _add_code_block (doc : Document.t) (code_content : str) : Document.t :=
  let p := new_paragraph code_content (lit "Normal") in
  (* font = p.runs[0].font if p.runs else p.style.font *)
  let code_font := Some (ConversionConfig.code_font config) in
  let code_size := Some (Pt (ConversionConfig.code_size config)) in
  let runs :=
    on_first_run (set_run_font code_font code_size) (Paragraph.runs p) in
  let doc :=
    match Paragraph.runs p with
    | [] => Document.mk (Document.body doc) code_font code_size
    | _ => doc
    end in
  add_block
    (BParagraph
       (Paragraph.mk runs (Paragraph.style p) (Paragraph.alignment p)
          (Some quarter_inch) (Some quarter_inch) (Some (Pt 6)) (Some (Pt 6))
          None None None None))
    doc.

(** [RGBColor(r, g, b)] accepts integers from 0 to 255. *)
Definition RGBColor (r g b : Z) : option (N * N * N) :=
  if (0 <=? r) && (r <=? 255) && (0 <=? g) && (g <=? 255)
     && (0 <=? b) && (b <=? 255)
  then Some (Z.to_N r, Z.to_N g, Z.to_N b) else None.

Definition _apply_custom_heading_format (paragraph : Paragraph.t) (level : Z)
  : Paragraph.t :=
  (* run = paragraph.runs[0] if paragraph.runs else paragraph.add_run() *)
  let runs :=
    match Paragraph.runs paragraph with
    | [] => [Run.plain []]
    | runs => runs
    end in
  let size :=
    Pt (default 12 (ConversionConfig.lookup level (ConversionConfig.heading_sizes config))) in
  let style_run (r : Run.t) :=
    set_run_flags (Some true) None None
      (set_run_font (Some (ConversionConfig.heading_font config)) (Some size) r) in
  let colour_run (r : Run.t) :=
    match ConversionConfig.lookup level (ConversionConfig.heading_colors config) with
    | Some colour =>
        let color_hex := filter (λ c, c ≠ 35%N) colour in
        match int16 (take 2 color_hex), int16 (take 2 (drop 2 color_hex)),
              int16 (take 2 (drop 4 color_hex)) with
        | Some r', Some g', Some b' =>
            match RGBColor r' g' b' with
            | Some rgb => set_run_color rgb r
            | None => r
            end
        | _, _, _ => r
        end
    | None => r
    end in
  Paragraph.mk (on_first_run (λ r, colour_run (style_run r)) runs)
    (Paragraph.style paragraph) (Paragraph.alignment paragraph)
    (Paragraph.left_indent paragraph) (Paragraph.right_indent paragraph)
    (Some (Pt (default 6 (ConversionConfig.lookup level
                            (ConversionConfig.heading_spacing_before config)))))
    (Some (Pt (default 3 (ConversionConfig.lookup level
                            (ConversionConfig.heading_spacing_after config)))))
    (Paragraph.border_top_color paragraph) (Paragraph.border_top_width paragraph)
    (Paragraph.border_bottom_color paragraph) (Paragraph.border_bottom_width paragraph).

(** [paragraph.add_run(text)] with the text of a group. *)
Definition group_run (g : option str) : Run.t := Run.plain (default [] g).

(** The run of one match, chosen by the shape of the whole match. *)
Definition inline_run (m : inline_match) : option Run.t :=
  let full_match := group1 m in
  if startswith (lit "***") full_match && endswith (lit "***") full_match then
    Some (set_run_flags (Some true) (Some true) None (group_run (group2 m)))
  else if startswith (lit "**") full_match && endswith (lit "**") full_match then
    Some (set_run_flags (Some true) None None (group_run (group3 m)))
  else if startswith (lit "*") full_match && endswith (lit "*") full_match then
    Some (set_run_flags None (Some true) None (group_run (group4 m)))
  else if startswith (lit "`") full_match && endswith (lit "`") full_match then
    Some (set_run_font (Some (ConversionConfig.code_font config))
            (Some (Pt (ConversionConfig.code_size config)))
            (group_run (group5 m)))
  else if contains (lit "[") full_match && contains (lit "](") full_match then
    Some (set_run_flags None None (Some true)
            (set_run_color (0, 0, 255)%N (group_run (group6 m))))
  else None.

Fixpoint inline_runs (text : str) (matches : list (nat * nat * inline_match))
    (current_pos : nat) : list Run.t :=
  match matches with
  | [] =>
      if (current_pos <? length text)%nat then [Run.plain (drop current_pos text)]
      else []
  | (start, stop, m) :: rest =>
      (if (current_pos <? start)%nat
       then [Run.plain (take (start - current_pos) (drop current_pos text))]
       else [])
      ++ match inline_run m with Some r => [r] | None => [] end
      ++ inline_runs text rest stop
  end.

Definition _apply_inline_formatting (paragraph : Paragraph.t) (text : str)
  : Paragraph.t :=
  Paragraph.mk (Paragraph.runs paragraph ++ inline_runs text (finditer text 0 0) 0)
    (Paragraph.style paragraph) (Paragraph.alignment paragraph)
    (Paragraph.left_indent paragraph) (Paragraph.right_indent paragraph)
    (Paragraph.space_before paragraph) (Paragraph.space_after paragraph)
    (Paragraph.border_top_color paragraph) (Paragraph.border_top_width paragraph)
    (Paragraph.border_bottom_color paragraph) (Paragraph.border_bottom_width paragraph).

(** [cells = [cell.strip() for cell in line.split('|')[1:-1]]] *)
Definition table_cells (line : str) : list str :=
  strip <$> removelast (drop 1 (split_char 124 line)).

(** The rows parsed by [_add_markdown_table]. *)
Definition table_rows (table_lines : list str) : list (list str) :=
  omap (λ line,
          if contains (lit "---") line then None
          else match table_cells line with
               | [] => None
               | cells => Some cells
               end)
       table_lines.

(** One row of the new table: [cols] cells, the first ones taking the texts
    of [row_data]; cells of the header row become bold. *)
Definition fill_row (cols : nat) (header : bool) (row_data : list str) : list Cell.t :=
  ((λ cell_data, Cell.mk cell_data header) <$> take cols row_data)
  ++ replicate (cols - length row_data) (Cell.mk [] false).

(** A table made by [doc.add_table] adjusts its columns to their content. *)
Definition new_table_autofit : bool := true.

Definition _add_markdown_table (doc : Document.t) (table_lines : list str)
  : Document.t :=
  match table_rows table_lines with
  | [] => doc
  | first :: others =>
      let cols := length first in
      add_block
        (BTable
           (Table.mk (fill_row cols true first :: (fill_row cols false <$> others))
              (Some (ConversionConfig.table_style config))
              (if ConversionConfig.table_autofit config then true
               else new_table_autofit)))
        doc
  end.

Definition _is_horizontal_rule (line : str) : bool :=
  let stripped := strip line in
  if str_eqb stripped [] then false
  else if str_eqb stripped (lit "---") || str_eqb stripped (lit "***")
          || str_eqb stripped (lit "___")
  then true
  else if (10 <=? length stripped)%nat then
    if all_char 45 stripped then true
    else if all_char 61 stripped then true
    else if all_char 9472 stripped then true
    else false
  else false.

Definition _add_horizontal_rule (doc : Document.t) : Document.t :=
  let p := new_paragraph (repeat_char 95 50) (lit "Normal") in
  add_block
    (BParagraph
       (Paragraph.mk
          (on_first_run
             (λ r, set_run_font None (Some (Pt 8)) (set_run_color (128, 128, 128)%N r))
             (Paragraph.runs p))
          (Paragraph.style p) (Some CENTER) None None (Some (Pt 3)) (Some (Pt 3))
          None None None None))
    doc.

(** [lines[i]] for an index the caller has checked. *)
Definition line_at (lines : list str) (i : nat) : str := default [] (lines !! i).

Definition _is_header_box_divider (line : str) (lines : list str) (line_num : nat)
  : bool :=
  let stripped := strip line in
  if (20 <=? length stripped)%nat && all_char 61 stripped then
    if (line_num + 2 <? length lines)%nat then
      let text_line := strip (line_at lines (line_num + 1)) in
      let closing_line := strip (line_at lines (line_num + 2)) in
      if negb (str_eqb text_line [])
         && negb (forallb (λ c, contains_char c (lit "=-_"))
                    (filter (λ c, isspace c = false) text_line))
      then
        if (20 <=? length closing_line)%nat && all_char 61 closing_line then true
        else false
      else false
    else false
  else false.

(** Returns the header text and the list of lines with the two lines after
    [line_num] blanked. *)
Definition _extract_header_box_text (lines : list str) (line_num : nat)
  : option str * list str :=
  if (line_num + 2 <? length lines)%nat then
    let header_text := strip (line_at lines (line_num + 1)) in
    (Some header_text,
     <[(line_num + 2)%nat := []]> (<[(line_num + 1)%nat := []]> lines))
  else (None, lines).

Definition _add_header_box (doc : Document.t) (header_text : str) : Document.t :=
  let p := new_paragraph header_text (lit "Normal") in
  let style_run (r : Run.t) :=
    set_run_font None (Some (Pt 14)) (set_run_flags (Some true) None None r) in
  let runs :=
    match Paragraph.runs p with
    | [] => [style_run (Run.plain header_text)]
    | runs => on_first_run style_run runs
    end in
  add_block
    (BParagraph
       (Paragraph.mk runs (Paragraph.style p) (Some CENTER) None None
          (Some (Pt 4)) (Some (Pt 4))
          (Some (0, 0, 0)%N) (Some (Pt 2)) (Some (0, 0, 0)%N) (Some (Pt 2))))
    doc.

(** [doc.add_heading(text, level)] *)
Definition add_heading (doc : Document.t) (text : str) (level : nat)
  : outcome Document.t :=
  if (9 <? level)%nat then Raise (ValueError (lit "level must be in range 0-9"))
  else
    let style :=
      match level with
      | O => lit "Title"
      | _ => lit "Heading " ++ str_of_nat level
      end in
    Ret (add_block (BParagraph (new_paragraph text style)) doc).

(** ['|' in line and line.strip().startswith('|')] *)
Definition is_table_line (line : str) : bool :=
  contains_char 124 line && startswith (lit "|") (strip line).

(** The lines after the first one that [_build_document] collects into a
    table: all of them up to the first that is not a table line. *)
Fixpoint collect_table_lines (following : list str) : list str :=
  match following with
  | next_line :: rest =>
      if is_table_line next_line then next_line :: collect_table_lines rest
      else []
  | [] => []
  end.

(** The local variables of [_build_document] that live across iterations.
    [lines] is the list object the loop iterates over. *)
Record build_state : Type := BuildState {
  doc : Document.t;
  lines : list str;
  current_list_type : option str;
  in_code_block : bool;
  code_block_content : list str
}.

Definition with_doc (d : Document.t) (st : build_state) : build_state :=
  BuildState d (lines st) (current_list_type st) (in_code_block st)
    (code_block_content st).

Definition with_list_type (t : option str) (st : build_state) : build_state :=
  BuildState (doc st) (lines st) t (in_code_block st) (code_block_content st).

(** The body of the loop of [_build_document] for the pair
    [(line_num, lines[line_num])].  Besides the new state it returns the
    value of the local variable [line_num] at the end of the body. *)
Definition build_step (line_num : nat) (st : build_state)
  : outcome (build_state * nat) :=
  let line := rstrip (line_at (lines st) line_num) in
  (* Handle code blocks *)
  if startswith (lit "```") line then
    if in_code_block st then
      Ret (BuildState
             (_add_code_block (doc st) (join (lit newline) (code_block_content st)))
             (lines st) (current_list_type st) false [], line_num)
    else
      Ret (BuildState (doc st) (lines st) (current_list_type st) true
             (code_block_content st), line_num)
  else if in_code_block st then
    Ret (BuildState (doc st) (lines st) (current_list_type st) true
           (code_block_content st ++ [line]), line_num)
  else if str_eqb (strip line) [] then
    Ret (with_doc (add_block (BParagraph (new_paragraph [] (lit "Normal"))) (doc st)) st,
         line_num)
  (* Handle horizontal rules and dividers *)
  else if _is_horizontal_rule line then
    Ret (with_doc (_add_horizontal_rule (doc st)) st, line_num)
  else
    (* Handle header boxes (equals dividers around text) *)
    let '(header_done, st) :=
      if _is_header_box_divider line (lines st) line_num then
        let '(header_text, lines') := _extract_header_box_text (lines st) line_num in
        let st := BuildState (doc st) lines' (current_list_type st)
                    (in_code_block st) (code_block_content st) in
        match header_text with
        | Some (c :: text) => (true, with_doc (_add_header_box (doc st) (c :: text)) st)
        | _ => (false, st)
        end
      else (false, st) in
    if header_done then Ret (st, line_num)
    (* Handle headings *)
    else if startswith (lit "#") line then
      let level := (length line - length (lstrip_char 35 line))%nat in
      let heading_text := strip (lstrip_char 35 line) in
      if ConversionConfig.use_builtin_styles config then
        d ← add_heading (doc st) heading_text level;
        Ret (with_doc d st, line_num)
      else
        let p := new_paragraph heading_text (lit "Normal") in
        Ret (with_doc
               (add_block
                  (BParagraph (_apply_custom_heading_format p (Z.of_nat level)))
                  (doc st))
               st, line_num)
    (* Handle lists *)
    else if existsb (λ marker, startswith marker (strip line))
              [lit "-"; lit "*"; lit "+"] then
      let list_text := strip (drop 1 (strip line)) in
      Ret (with_list_type (Some (lit "bullet"))
             (with_doc
                (add_block (BParagraph (new_paragraph list_text (lit "List Bullet")))
                   (doc st))
                st), line_num)
    else if bool_decide (is_Some (match_number_dot line)) then
      let list_text := strip_number_dot line in
      Ret (with_list_type (Some (lit "number"))
             (with_doc
                (add_block (BParagraph (new_paragraph list_text (lit "List Number")))
                   (doc st))
                st), line_num)
    (* Handle tables *)
    else if is_table_line line then
      let table_lines := line :: collect_table_lines (drop (S line_num) (lines st)) in
      if (2 <=? length table_lines)%nat then
        (* line_num += len(table_lines) - 1 *)
        Ret (with_doc (_add_markdown_table (doc st) table_lines) st,
             (line_num + (length table_lines - 1))%nat)
      else Ret (st, line_num)
    (* Handle blockquotes *)
    else if startswith (lit ">") (strip line) then
      let quote_text := strip (drop 1 (strip line)) in
      Ret (with_doc
             (add_block (BParagraph (new_paragraph quote_text (lit "Quote"))) (doc st))
             st, line_num)
    (* Regular paragraphs *)
    else
      let p := new_paragraph [] (lit "Normal") in
      Ret (with_list_type None
             (with_doc
                (add_block (BParagraph (_apply_inline_formatting p line)) (doc st))
                st), line_num).

(** [for line_num, line in enumerate(lines)]: the iterator keeps its own
    counter, so the value the body leaves in [line_num] is not used; [n] is
    the number of items still to come. *)
Fixpoint build_loop (n line_num : nat) (st : build_state) : outcome build_state :=
  match n with
  | O => Ret st
  | S n' =>
      '(st', _) ← build_step line_num st;
      build_loop n' (S line_num) st'
  end.

Definition _build_document (d : Document.t) (content : str)
    (metadata : FormatMetadata.t) : outcome Document.t :=
  let lines := split_char 10 content in
  st ← build_loop (length lines) 0 (BuildState d lines None false []);
  Ret (doc st).

End MarkdownToWordConverter.

(** ** MarkdownToWordConverter: front-matter, metadata and the conversion *)

Section Conversion.

Context `{Hashlib} `{Libraries}.

(** Returns [PNone] for Python's [None]. *)
Definition _extract_frontmatter_config (content : str) : pyval :=
  if negb (startswith (lit "---" ++ lit newline) content) then PNone
  else
    let end_marker := find (lit newline ++ lit "---" ++ lit newline) content 4 in
    if end_marker =? -1 then PNone
    else
      let yaml_content := take (Z.to_nat end_marker - 4) (drop 4 content) in
      match yaml_safe_load yaml_content with
      | Some value => value
      | None => PNone          (* [except: return None] *)
      end.

Definition _strip_frontmatter (content : str) : str :=
  if negb (startswith (lit "---" ++ lit newline) content) then content
  else
    let end_marker := find (lit newline ++ lit "---" ++ lit newline) content 4 in
    if end_marker =? -1 then content
    else drop (Z.to_nat end_marker + 5) content.

(** [for key, value in config_dict.items(): if hasattr(...): setattr(...)] *)
Fixpoint update_config_items (config : ConversionConfig.t)
    (items : list (pykey * pyval)) : outcome ConversionConfig.t :=
  match items with
  | [] => Ret config
  | (key, value) :: rest =>
      match key with
      | KStr key =>
          config ← (if hasattr_config key then setattr_config config key value
                    else Ret config);
          update_config_items config rest
      | _ => Raise (TypeError (lit "attribute name must be string"))
      end
  end.

Definition _update_config_from_dict (config : ConversionConfig.t)
    (config_dict : pyval) : outcome ConversionConfig.t :=
  match config_dict with
  | PDict items => update_config_items config items
  | _ => Raise (AttributeError (lit "object has no attribute 'items'"))
  end.

(** The keyword arguments of [FormatMetadata(...)] taken one by one. *)
Fixpoint metadata_kwargs (items : list (pykey * pyval)) (m : FormatMetadata.t)
  : outcome FormatMetadata.t :=
  match items with
  | [] => Ret m
  | (KStr key, v) :: rest =>
      let '(FormatMetadata.mk a b c d e f g h i j) := m in
      m ← (if str_eqb key (lit "bold_ranges") then Ret (FormatMetadata.mk v b c d e f g h i j)
           else if str_eqb key (lit "italic_ranges") then Ret (FormatMetadata.mk a v c d e f g h i j)
           else if str_eqb key (lit "heading_levels") then Ret (FormatMetadata.mk a b v d e f g h i j)
           else if str_eqb key (lit "lists") then Ret (FormatMetadata.mk a b c v e f g h i j)
           else if str_eqb key (lit "tables") then Ret (FormatMetadata.mk a b c d v f g h i j)
           else if str_eqb key (lit "hyperlinks") then Ret (FormatMetadata.mk a b c d e v g h i j)
           else if str_eqb key (lit "images") then Ret (FormatMetadata.mk a b c d e f v h i j)
           else if str_eqb key (lit "styles") then Ret (FormatMetadata.mk a b c d e f g v i j)
           else if str_eqb key (lit "file_hash") then Ret (FormatMetadata.mk a b c d e f g h v j)
           else if str_eqb key (lit "conversion_timestamp") then Ret (FormatMetadata.mk a b c d e f g h i v)
           else Raise (TypeError (lit "got an unexpected keyword argument")));
      metadata_kwargs rest m
  | _ :: _ => Raise (TypeError (lit "keywords must be strings"))
  end.

(** [FormatMetadata] called with the items of [metadata_dict] as its keyword
    arguments. *)
Definition FormatMetadata_from (metadata_dict : pyval) : outcome FormatMetadata.t :=
  match metadata_dict with
  | PDict items =>
      m ← metadata_kwargs items FormatMetadata.defaults;
      Ret (FormatMetadata.post_init m)
  | _ => Raise (TypeError (lit "argument after ** must be a mapping"))
  end.

(** [re.search(r'<!-- WORD_CONVERSION_METADATA\n(.*?)\n-->', content, re.DOTALL)]:
    group 1 of the match, which starts at the first opening marker and ends
    before the first closing marker after it. *)
Definition search_metadata (content : str) : option str :=
  let opener := lit "<!-- WORD_CONVERSION_METADATA" ++ lit newline in
  let closer := lit newline ++ lit "-->" in
  let i := find opener content 0 in
  if i =? -1 then None
  else
    let after := drop (Z.to_nat i + length opener) content in
    let j := find closer after 0 in
    if j =? -1 then None else Some (take (Z.to_nat j) after).

Definition _extract_metadata (content : str) : outcome FormatMetadata.t :=
  match search_metadata content with
  | Some group1 =>
      match json_loads group1 with
      | Some metadata_dict => FormatMetadata_from metadata_dict
      | None => Ret FormatMetadata.empty     (* [except json.JSONDecodeError: pass] *)
      end
  | None => Ret FormatMetadata.empty
  end.

(** The end of a match of [-->\n?$] at the start of [s]: what is left of
    the string after it. *)
Definition metadata_tail (s : str) : option str :=
  if startswith (lit "-->") s then
    match drop 3 s with
    | [] => Some []
    | 10%N :: [] => Some []
    | 10%N :: 10%N :: [] => Some [10%N]
    | _ => None
    end
  else None.

(** The first position at or after the start of [s] where [-->\n?$] matches. *)
Fixpoint find_metadata_tail (s : str) : option str :=
  match metadata_tail s with
  | Some rest => Some rest
  | None =>
      match s with
      | [] => None
      | _ :: s' => find_metadata_tail s'
      end
  end.

(** [re.sub(r'\n\n<!-- WORD_CONVERSION_METADATA.*?-->\n?$', '', content, flags=re.DOTALL)] *)
Definition _strip_metadata (content : str) : str :=
  let opener := lit newline ++ lit newline ++ lit "<!-- WORD_CONVERSION_METADATA" in
  let i := find opener content 0 in
  if i =? -1 then content
  else
    match find_metadata_tail (drop (Z.to_nat i + length opener) content) with
    | Some rest => take (Z.to_nat i) content ++ rest
    | None => content
    end.

(** [_setup_default_styles], as far as the document model goes: the font of
    the Normal style. *)
Definition _setup_default_styles (config : ConversionConfig.t) (d : Document.t)
  : Document.t :=
  Document.mk (Document.body d)
    (Some (ConversionConfig.font_name config))
    (Some (Pt (ConversionConfig.font_size config))).

(** [Document()]: the empty document of the default template. *)
Definition new_document : Document.t := Document.mk [] None None.

(** [open(md_path, 'r', encoding='utf-8').read()] *)
Definition read_text (p : Path.t) : M str :=
  data <- open_rb p;;
  match decode_utf8 data with
  | Some content => ret content
  | None => lift (Raise UnicodeDecodeError)
  end.

(** [doc.save(docx_path)] *)
Definition save (d : Document.t) (p : Path.t) : M unit :=
  λ w, (Ret tt, World (<[p := dump_docx d]> (files w)) (stdin w) (stdout w)).

(** The body of the [try] of [convert_md_to_docx] up to and including
    [_build_document]: from the text of the source to the document. *)
Definition markdown_to_document (config : ConversionConfig.t)
    (template_path : option Path.t) (content : str) : M Document.t :=
  (* Check for YAML frontmatter config *)
  let frontmatter_config := _extract_frontmatter_config content in
  updated <-
     (if truthy frontmatter_config then
        config <- lift (_update_config_from_dict config frontmatter_config);;
        ret (config, _strip_frontmatter content)
      else ret (config, content));;
  let '(config, content) := updated in
  (* Extract metadata if present *)
  metadata <- lift (_extract_metadata content);;
  let markdown_content := _strip_metadata content in
  (* Create Word document *)
  template <- match template_path with
              | Some t => ex <- path_exists t;; ret (if ex then Some t else None)
              | None => ret None
              end;;
  d <- match template with
       | Some t => data <- open_rb t;; lift (load_docx data)
       | None => ret (_setup_default_styles config new_document)
       end;;
  lift (_build_document config d markdown_content metadata).

Definition convert_md_to_docx (safety : SafetyConfig.t) (config : ConversionConfig.t)
    (template_path : option Path.t) (source_file target_file : Path.t) : M bool :=
  ex <- path_exists source_file;;
  if negb ex then
    print ([10060]%N ++ lit " Error: Source file " ++ Path.to_str source_file
           ++ lit " does not exist");;;
    ret false
  else
    (* Safety check *)
    checked <- safe_write_check safety source_file target_file;;
    let '(can_proceed, reason) := checked in
    if negb can_proceed then
      print ([10060]%N ++ lit " Safety check failed: " ++ reason);;;
      ret false
    else
      try_except
        (content <- read_text source_file;;
         d <- markdown_to_document config template_path content;;
         save d target_file;;;
         output_hash <- calculate_file_hash target_file;;
         print ([9989]%N ++ lit " Successfully converted " ++ Path.to_str source_file
                ++ [32; 8594; 32]%N ++ Path.to_str target_file);;;
         print ([128202]%N ++ lit " Output hash: " ++ take 16 output_hash
                ++ lit "...");;;
         ret true)
        (λ e,
           print ([10060]%N ++ lit " Error converting " ++ Path.to_str source_file
                  ++ lit ": " ++ str_of_exn e);;;
           ret false).

End Conversion.

(** A stand-in for the libraries, with just enough behaviour to run the
    converter on the concrete inputs used below. *)
Definition sample_libraries : Libraries := {|
  str_lower := lower;
  json_loads := λ s,
    if str_eqb s (lit "[]") then Some (PList [])
    else if str_eqb s (lit "{}") then Some (PDict [])
    else None;
  yaml_safe_load := λ s,
    if str_eqb s (lit "hello") then Some (PStr (lit "hello")) else None;
  int16 := λ _, None;
  hasattr_config := λ _, false;
  setattr_config := λ config _ _, Ret config;
  decode_utf8 := λ data,
    if forallb (λ b, Byte.to_N b <? 128)%N data then Some (Byte.to_N <$> data)
    else None;
  load_docx := λ _, Raise (ValueError (lit "not a Word file"));
  dump_docx := λ _, []
|}.

(** *** Notions used to state the properties of the translators *)

(** A pair of delimiters put around a text. *)
Record wrapper : Type := Wrap { opening : str; closing : str }.

Definition wrap (w : wrapper) (s : str) : str := opening w ++ s ++ closing w.

(** Nesting a text in a list of wrappers, the first of the list outermost. *)
Definition nest (ws : list wrapper) (s : str) : str := foldr wrap s ws.

(** The emphasis delimiters of a run: one pair at most. *)
Definition emphasis_wrappers (r : Run.t) : list wrapper :=
  if is_on (Run.bold r) && is_on (Run.italic r) then [Wrap (lit "***") (lit "***")]
  else if is_on (Run.bold r) then [Wrap (lit "**") (lit "**")]
  else if is_on (Run.italic r) then [Wrap (lit "*") (lit "*")]
  else [].

(** The other wrappers of a run, from the outermost to the innermost:
    underline, strikethrough, superscript or else subscript. *)
Definition tag_wrappers (r : Run.t) : list wrapper :=
  (if is_on (Run.underline r) then [Wrap (lit "<u>") (lit "</u>")] else [])
  ++ (if is_on (Run.strike r) then [Wrap (lit "~~") (lit "~~")] else [])
  ++ (if is_on (Run.superscript r) then [Wrap (lit "<sup>") (lit "</sup>")]
      else if is_on (Run.subscript r) then [Wrap (lit "<sub>") (lit "</sub>")]
      else []).

(** The markup of a run: emphasis outermost, then the tags. *)
Definition run_markup (r : Run.t) : str :=
  nest (emphasis_wrappers r ++ tag_wrappers r) (Run.text r).

(** A run with the given text and flags and nothing else. *)
Definition styled_run (text : str) (bold italic underline : bool) : Run.t :=
  Run.mk text (Some bold) (Some italic) (Some underline)
    None None None None None None false.

(** The same run behind a hyperlink. *)
Definition hyperlink_run (text : str) (bold italic underline : bool) : Run.t :=
  Run.mk text (Some bold) (Some italic) (Some underline)
    None None None None None None true.

(** The link that takes the place of the markup of a run with a hyperlink:
    the text of the run in brackets, and the anchor made of that text with
    hyphens for spaces, in lower case. *)
Definition link_markup `{Libraries} (r : Run.t) : str :=
  lit "[" ++ Run.text r ++ lit "](#"
  ++ str_lower (replace_char 32 45 (Run.text r)) ++ lit ")".

(** What a run adds to the text of its paragraph. *)
Definition run_output `{Libraries} (r : Run.t) : str :=
  if Run.hyperlink r then link_markup r else run_markup r.

(** The table with header row A, B and data row 1, 2, and a document that
    holds just this table. *)
Definition sample_table : Table.t :=
  Table.mk [[Cell.mk (lit "A") false; Cell.mk (lit "B") false];
            [Cell.mk (lit "1") false; Cell.mk (lit "2") false]]
    None true.

Definition sample_table_markup : str :=
  join (lit newline) [lit "| A | B |"; lit "| --- | --- |"; lit "| 1 | 2 |"].

(** A line of 25 equals signs, [Section Title], a line of 25 equals signs. *)
Definition sample_header_box : str :=
  join (lit newline) [repeat_char 61 25; lit "Section Title"; repeat_char 61 25].

(** The texts of the cells of a table, row by row. *)
Definition cell_texts (t : Table.t) : list (list str) :=
  (λ row : list Cell.t, Cell.text <$> row) <$> Table.rows t.

(** The fresh state of a [WordToMarkdownConverter]. *)
Definition fresh_converter : W2M.state := W2M.mk FormatMetadata.empty 0.

(** The bytes of an ASCII text. *)
Definition ascii_bytes (s : string) : bytes := list_byte_of_string s.

(** A Markdown source whose trailing block holds a JSON list instead of a
    record, and one that opens with a front-matter block holding a bare
    word. *)
Definition sample_bad_metadata : string :=
  ("Body" ++ newline ++ newline ++ "<!-- WORD_CONVERSION_METADATA" ++ newline
   ++ "[]" ++ newline ++ "-->" ++ newline)%string.

Definition sample_bad_frontmatter : string :=
  ("---" ++ newline ++ "hello" ++ newline ++ "---" ++ newline ++ "Body")%string.

Definition sample_source_world (text : string) : world :=
  World {[ sample_md := ascii_bytes text ]} [] [].

(** The line printed when the conversion is abandoned. *)
Definition conversion_error_line (source_file : Path.t) (e : exn) : str :=
  [10060]%N ++ lit " Error converting " ++ Path.to_str source_file
  ++ lit ": " ++ str_of_exn e.

(** *** Notions used to state further properties *)

(** Every file of [w] is still there in [w'], with the same content. *)
Definition keeps_files (w w' : world) : Prop :=
  ∀ q c, files w !! q = Some c → files w' !! q = Some c.

(** The question [confirm_overwrite] asks about a path. *)
Definition overwrite_prompt (file_path : Path.t) : str :=
  [9888; 65039]%N ++ lit "  File '" ++ Path.to_str file_path
  ++ lit "' exists. Overwrite? [y/N]: ".

(** An answer that [confirm_overwrite] takes for a yes. *)
Definition says_yes (answer : str) : bool :=
  str_eqb (strip (lower answer)) (lit "y") || str_eqb (strip (lower answer)) (lit "yes").

(** A computation that changes or removes no file outside [P]; it may add
    files. *)
Definition touches_only {A} (P : Path.t → Prop) (m : ST world A) : Prop :=
  ∀ w q c, ¬ P q → files w !! q = Some c → files (m w).2 !! q = Some c.

(** A computation that reads no line of standard input. *)
Definition asks_nothing {A} (m : ST world A) : Prop :=
  ∀ w, stdin (m w).2 = stdin w.

(** ** WordToMarkdownConverter: the conversion *)

(** [asdict(metadata)] *)
Definition asdict (m : FormatMetadata.t) : pyval :=
  PDict [(KStr (lit "bold_ranges"), FormatMetadata.bold_ranges m);
         (KStr (lit "italic_ranges"), FormatMetadata.italic_ranges m);
         (KStr (lit "heading_levels"), FormatMetadata.heading_levels m);
         (KStr (lit "lists"), FormatMetadata.lists m);
         (KStr (lit "tables"), FormatMetadata.tables m);
         (KStr (lit "hyperlinks"), FormatMetadata.hyperlinks m);
         (KStr (lit "images"), FormatMetadata.images m);
         (KStr (lit "styles"), FormatMetadata.styles m);
         (KStr (lit "file_hash"), FormatMetadata.file_hash m);
         (KStr (lit "conversion_timestamp"), FormatMetadata.conversion_timestamp m)].

(** The metadata footer and the full content written by
    [convert_docx_to_md]. *)
Definition metadata_footer (metadata_json : str) : str :=
  lit newline ++ lit newline ++ lit "<!-- WORD_CONVERSION_METADATA" ++ lit newline
  ++ metadata_json ++ lit newline ++ lit "-->" ++ lit newline.

Definition full_content (markdown_content metadata_json : str) : str :=
  markdown_content ++ metadata_footer metadata_json.

Section DocxToMarkdown.

Context `{Hashlib} `{Libraries}.

(** [json.dumps(value, indent=2)], the reading of the clock as
    [datetime.now().isoformat()], and the encoding of the text written
    ([None] stands for an encoding error). *)
Variable json_dumps : pyval → str.
Variable now_isoformat : str.
Variable encode_utf8 : str → option bytes.

(** Running a computation of the converter, or one on the world, when both
    states are at hand. *)
Definition in_converter {A} (m : ST W2M.state A) : ST (W2M.state * world) A :=
  λ s, let '(r, cs) := m s.1 in (r, (cs, s.2)).

Definition in_world {A} (m : ST world A) : ST (W2M.state * world) A :=
  λ s, let '(r, w) := m s.2 in (r, (s.1, w)).

(** [with open(target_file, 'w', encoding='utf-8') as f: f.write(text)]:
    opening empties the file, writing encodes the text. *)
Definition write_text (p : Path.t) (text : str) : M unit :=
  λ w, let w0 := World (<[p := []]> (files w)) (stdin w) (stdout w) in
       match encode_utf8 text with
       | Some data => (Ret tt, World (<[p := data]> (files w)) (stdin w) (stdout w))
       | None => (Raise (ValueError (lit "surrogates not allowed")), w0)
       end.

Definition set_file_hash (v : pyval) (m : FormatMetadata.t) : FormatMetadata.t :=
  FormatMetadata.mk (FormatMetadata.bold_ranges m) (FormatMetadata.italic_ranges m)
    (FormatMetadata.heading_levels m) (FormatMetadata.lists m)
    (FormatMetadata.tables m) (FormatMetadata.hyperlinks m)
    (FormatMetadata.images m) (FormatMetadata.styles m)
    v (FormatMetadata.conversion_timestamp m).

Definition set_conversion_timestamp (v : pyval) (m : FormatMetadata.t)
  : FormatMetadata.t :=
  FormatMetadata.mk (FormatMetadata.bold_ranges m) (FormatMetadata.italic_ranges m)
    (FormatMetadata.heading_levels m) (FormatMetadata.lists m)
    (FormatMetadata.tables m) (FormatMetadata.hyperlinks m)
    (FormatMetadata.images m) (FormatMetadata.styles m)
    (FormatMetadata.file_hash m) v.

(** [hash[:16]] of the value kept in [file_hash]. *)
Definition hash_prefix (v : pyval) : str :=
  match v with
  | PStr s => take 16 s
  | _ => []
  end.

Definition convert_docx_to_md (safety : SafetyConfig.t)
    (source_file target_file : Path.t) : ST (W2M.state * world) bool :=
  ex <- in_world (path_exists source_file);;
  if negb ex then
    in_world (print ([10060]%N ++ lit " Error: Source file "
                     ++ Path.to_str source_file ++ lit " does not exist"));;;
    ret false
  else
    (* Safety check *)
    checked <- in_world (safe_write_check safety source_file target_file);;
    let '(can_proceed, reason) := checked in
    if negb can_proceed then
      in_world (print ([10060]%N ++ lit " Safety check failed: " ++ reason));;;
      ret false
    else
      try_except
        (data <- in_world (open_rb source_file);;
         d <- lift (load_docx data);;
         markdown_content <- in_converter (_extract_content_and_metadata d);;
         (* Add file hash to metadata *)
         file_hash <- in_world (calculate_file_hash source_file);;
         m <- in_converter get_metadata;;
         let m := set_conversion_timestamp (PStr now_isoformat)
                    (set_file_hash (PStr file_hash) m) in
         in_converter (put_metadata m);;;
         (* Add metadata footer *)
         let metadata_json := json_dumps (asdict m) in
         in_world (write_text target_file (full_content markdown_content metadata_json));;;
         in_world (print ([9989]%N ++ lit " Successfully converted "
                          ++ Path.to_str source_file ++ [32; 8594; 32]%N
                          ++ Path.to_str target_file));;;
         in_world (print ([128202]%N ++ lit " File hash: "
                          ++ hash_prefix (FormatMetadata.file_hash m) ++ lit "..."));;;
         ret true)
        (λ e,
           in_world (print ([10060]%N ++ lit " Error converting "
                            ++ Path.to_str source_file ++ lit ": " ++ str_of_exn e));;;
           ret false).

End DocxToMarkdown.

(** A block without paragraph borders. *)
Definition no_border (b : Block) : Prop :=
  match b with
  | BParagraph p =>
      Paragraph.border_top_color p = None ∧ Paragraph.border_top_width p = None
      ∧ Paragraph.border_bottom_color p = None
      ∧ Paragraph.border_bottom_width p = None
  | BTable _ => True
  end.

(** The characters at which an alternative of the inline pattern can start:
    the asterisk, the backquote and the opening bracket. *)
Definition opens_markup (c : char) : bool :=
  ((c =? 42) || (c =? 96) || (c =? 91))%N.

Definition plain_text (s : str) : bool := forallb (λ c, negb (opens_markup c)) s.

(** [paragraph.add_run(s)] as the loop of [_apply_inline_formatting] uses it:
    only for a stretch that is not empty. *)
Definition text_run (s : str) : list Run.t :=
  match s with
  | [] => []
  | _ => [Run.plain s]
  end.

(** The stripped texts of the cells of a row, as [_process_table] takes
    them. *)
Definition stripped_texts (row : list Cell.t) : list str :=
  (λ cell, strip (Cell.text cell)) <$> row.

(** The same frame for a computation that also carries the converter. *)
Definition touches_only_in {S A} (P : Path.t → Prop) (m : ST (S * world) A) : Prop :=
  ∀ s w q c, ¬ P q → files w !! q = Some c → files (m (s, w)).2.2 !! q = Some c.

(** *** Concrete inputs for the further properties *)

(** The backup of the sample world, and that world with one line waiting on
    standard input. *)
Definition sample_backup : Path.t := Path.mk false [lit "report.docx.backup"].

Definition sample_answer_world (answer : string) : world :=
  World (files sample_world) [lit answer] [].

(** A target that does not exist in the sample world. *)
Definition sample_notes : Path.t := Path.mk false [lit "notes.docx"].

(** The default policy with a backup suffix that holds a path separator. *)
Definition slash_suffix_config : SafetyConfig.t :=
  SafetyConfig.mk true true true true (lit "/backup").

(** A stand-in for [json.dumps] and a library that reads its output back,
    loads every Word file as the same small document and encodes and decodes
    ASCII only. *)
Definition sample_json : str := lit "{}".

Definition sample_json_dumps (v : pyval) : str := sample_json.

Definition sample_document : Document.t :=
  Document.mk
    [BParagraph (new_paragraph (lit "Hi!") (lit "Heading 1")); BTable sample_table]
    None None.

Definition round_trip_libraries : Libraries := {|
  str_lower := lower;
  json_loads := λ s,
    if str_eqb s sample_json then Some (asdict FormatMetadata.empty) else None;
  yaml_safe_load := λ s,
    if str_eqb s (lit "font_size: 12")
    then Some (PDict [(KStr (lit "font_size"), PInt 12)]) else None;
  int16 := λ _, None;
  hasattr_config := λ _, false;
  setattr_config := λ config _ _, Ret config;
  decode_utf8 := λ data,
    if forallb (λ b, Byte.to_N b <? 128)%N data then Some (Byte.to_N <$> data)
    else None;
  load_docx := λ _, Ret sample_document;
  dump_docx := λ _, []
|}.

Definition encode_ascii (s : str) : option bytes :=
  mapM (λ c, if (c <? 128)%N then Byte.of_N c else None) s.


(** The state of the builder at the first line of a text. *)
Definition initial_build_state (content : str) : build_state :=
  BuildState new_document (split_char 10 content) None false [].

(** A Markdown target that does not exist in the sample world, and a time
    of conversion. *)
Definition sample_notes_md : Path.t := Path.mk false [lit "notes.md"].

Definition sample_time : str := lit "2024-01-01T00:00:00".
(** * Properties *)

(** ** Strings and paths *)

Lemma str_eqb_eq (a b : str) : str_eqb a b = true ↔ a = b.
Proof. unfold str_eqb. by rewrite bool_decide_eq_true. Qed.

Lemma str_eqb_neq (a b : str) : str_eqb a b = false ↔ a ≠ b.
Proof. unfold str_eqb. by rewrite bool_decide_eq_false. Qed.

Lemma lit_inj (a b : string) : lit a = lit b → a = b.
Proof.
  unfold lit. revert b. induction a as [|c a IH]; intros [|d b]; simpl; try done.
  intros [= Hc Hr]. f_equal; [|by apply IH].
  rewrite <- (ascii_N_embedding c), <- (ascii_N_embedding d). by rewrite Hc.
Qed.

Lemma digits_inj (d e : Decimal.uint) : digits d = digits e → d = e.
Proof.
  revert e. induction d; intros [] E; simpl in E; try discriminate E;
    try reflexivity; f_equal; apply IHd; congruence.
Qed.

Lemma str_of_nat_inj (n m : nat) : str_of_nat n = str_of_nat m → n = m.
Proof.
  intros E%digits_inj.
  by rewrite <- (DecimalNat.Unsigned.of_to n), <- (DecimalNat.Unsigned.of_to m), E.
Qed.

Lemma digits_no_sep (d : Decimal.uint) : contains_char 47 (digits d) = false.
Proof. induction d; simpl; auto. Qed.

(** ** Hashing *)

Section HashingProperties.

Context `{Hashlib}.

(** Feeding a file block by block gives the digest state of the whole file. *)
Lemma hash_blocks_update (h : hasher) (f : bytes) :
  hash_blocks h f = update h f.
Proof.
  funelim (hash_blocks h f).
  - destruct f; [by rewrite update_nil | done].
  - rewrite H0, <- e, update_app. by rewrite take_drop.
Qed.

Lemma calculate_file_hash_run (p : Path.t) (w : world) :
  calculate_file_hash p w = (Ret (fingerprint w p), w).
Proof.
  unfold calculate_file_hash, fingerprint, bind, path_exists, open_rb, ret, sha256_hex.
  destruct (files w !! p) as [content|] eqn:E; simpl.
  - by rewrite E, hash_blocks_update.
  - done.
Qed.

Lemma path_exists_run (p : Path.t) (w : world) :
  path_exists p w = (Ret (bool_decide (is_Some (files w !! p))), w).
Proof. reflexivity. Qed.

(** The collision predicate computes exactly the conjunction of the three
    conditions and leaves the world as it found it. *)
Lemma detect_conversion_collision_run (a b : Path.t) (w : world) :
  detect_conversion_collision a b w =
    (Ret (bool_decide (is_Some (files w !! b))
          && str_eqb (Path.stem a) (Path.stem b)
          && negb (str_eqb (fingerprint w a) (fingerprint w b))), w).
Proof.
  unfold detect_conversion_collision, bind. rewrite path_exists_run.
  destruct (bool_decide (is_Some (files w !! b))); simpl; [|done].
  destruct (str_eqb (Path.stem a) (Path.stem b)); simpl; [|done].
  by rewrite !calculate_file_hash_run.
Qed.

End HashingProperties.

(** ** Suffixes *)

Lemma rfind_char_bounds (c : char) (s : str) :
  -1 ≤ rfind_char c s < Z.of_nat (length s).
Proof.
  induction s as [|x s IH]; simpl; [lia|].
  destruct (Z.leb_spec 0 (rfind_char c s)); [lia|].
  destruct (x =? c)%N; lia.
Qed.

Lemma rfind_char_drop (c : char) (s : str) (i : nat) :
  rfind_char c s = Z.of_nat i → ∃ t, drop i s = c :: t.
Proof.
  revert i. induction s as [|x s IH]; intros i; simpl; [lia|].
  destruct (Z.leb_spec 0 (rfind_char c s)) as [Hr|Hr].
  - intros E. destruct i as [|i]; [lia|]. simpl. apply IH. lia.
  - destruct (N.eqb_spec x c) as [->|]; [|lia].
    intros E. destruct i; [|lia]. simpl. eauto.
Qed.

Lemma contains_char_app (c : char) (a b : str) :
  contains_char c (a ++ b) = contains_char c a || contains_char c b.
Proof. apply existsb_app. Qed.

Lemma contains_char_drop (c : char) (n : nat) (s : str) :
  contains_char c s = false → contains_char c (drop n s) = false.
Proof.
  intros E. rewrite <- (take_drop n s), contains_char_app in E.
  by apply orb_false_elim in E as [_ ?].
Qed.

(** The suffix is either empty or a final piece of the name that starts
    with a dot and is longer than the dot. *)
Lemma suffix_shape (p : Path.t) :
  Path.suffix p = [] ∨
  ∃ t, Path.suffix p = 46%N :: t ∧ t ≠ [] ∧
       take (length (Path.name p) - length (Path.suffix p)) (Path.name p)
         ++ Path.suffix p = Path.name p.
Proof.
  unfold Path.suffix. set (name := Path.name p).
  pose proof (rfind_char_bounds 46 name) as Hb.
  destruct (Z.ltb_spec 0 (rfind_char 46 name)) as [H0|H0]; simpl; [|by left].
  destruct (Z.ltb_spec (rfind_char 46 name) (Z.of_nat (length name) - 1)) as [H1|H1];
    [|by left].
  right. destruct (rfind_char_drop 46 name (Z.to_nat (rfind_char 46 name)))
    as [t Ht]; [lia|].
  exists t. split; [done|]. split.
  - intros ->. apply (f_equal length) in Ht. rewrite length_drop in Ht.
    simpl in Ht. lia.
  - rewrite length_drop.
    replace (length name - (length name - Z.to_nat (rfind_char 46 name)))%nat
      with (Z.to_nat (rfind_char 46 name)) by lia.
    apply take_drop.
Qed.

Lemma suffix_no_sep (p : Path.t) :
  contains_char 47 (Path.name p) = false → contains_char 47 (Path.suffix p) = false.
Proof.
  intros E. unfold Path.suffix.
  destruct (_ && _); [by apply contains_char_drop | done].
Qed.

(** Appending to the suffix appends to the name. *)
Lemma with_suffix_append (p : Path.t) (s : str) :
  names_a_file p → startswith (lit ".") s = true → (1 < length s)%nat →
  contains_char 47 s = false →
  Path.with_suffix p (Path.suffix p ++ s) =
    Ret (Path.mk (Path.root p) (removelast (Path.parts p) ++ [Path.name p ++ s])).
Proof.
  intros [Hne Hsep] Hdot Hlen Hs. unfold Path.with_suffix.
  rewrite contains_char_app, (suffix_no_sep p Hsep), Hs. cbn [orb].
  assert (startswith (lit ".") (Path.suffix p ++ s) = true) as ->.
  { destruct (suffix_shape p) as [->|(t & -> & _)]; [done|reflexivity]. }
  assert (str_eqb (Path.suffix p ++ s) [] = false) as ->.
  { apply str_eqb_neq. intros E%(f_equal length). rewrite length_app in E.
    simpl in E. lia. }
  assert (str_eqb (Path.suffix p ++ s) (lit ".") = false) as ->.
  { apply str_eqb_neq. intros E%(f_equal length). rewrite length_app in E.
    change (length (lit ".")) with 1%nat in E. lia. }
  cbn [negb andb orb]. assert (str_eqb (Path.name p) [] = false) as -> by by apply str_eqb_neq.
  do 3 f_equal.
  destruct (suffix_shape p) as [E|(t & E & _ & Hcut)].
  - rewrite E. by rewrite (proj2 (str_eqb_eq [] []) eq_refl).
  - assert (str_eqb (Path.suffix p) [] = false) as ->.
    { apply str_eqb_neq. by rewrite E. }
    rewrite (app_assoc _ (Path.suffix p)). by rewrite Hcut.
Qed.

(** ** Backups *)

Section BackupProperties.

Variable config : SafetyConfig.t.
Hypothesis default_suffix : SafetyConfig.backup_suffix config = lit ".backup".

Lemma backup_name_first (p : Path.t) :
  names_a_file p → backup_name config p None = Ret (backup_candidate p 0).
Proof.
  intros Hp. unfold backup_name, backup_candidate. rewrite default_suffix.
  apply with_suffix_append; [done|reflexivity|cbn; lia|reflexivity].
Qed.

Lemma backup_name_next (p : Path.t) (k : nat) :
  names_a_file p → backup_name config p (Some (S k)) = Ret (backup_candidate p (S k)).
Proof.
  intros Hp. unfold backup_name, backup_candidate. rewrite default_suffix.
  apply with_suffix_append; [done|reflexivity| |].
  - rewrite length_app. change (length (lit ".backup")) with 7%nat. lia.
  - rewrite !contains_char_app. unfold str_of_nat. by rewrite digits_no_sep.
Qed.

Lemma backup_candidate_inj (p : Path.t) (j k : nat) :
  backup_candidate p j = backup_candidate p k → j = k.
Proof.
  unfold backup_candidate. intros E%(f_equal Path.parts). cbn [Path.parts] in E.
  apply app_inj_tail in E as [_ E]. do 2 apply app_inv_head in E.
  destruct j, k; [done| | |].
  - apply (f_equal length) in E. rewrite length_app in E. simpl in E. lia.
  - apply (f_equal length) in E. rewrite length_app in E. simpl in E. lia.
  - by apply app_inv_head, str_of_nat_inj in E.
Qed.

(** The loop stops at the first free name, with the world untouched. *)
Lemma backup_loop_finds (p : Path.t) (w : world) (fuel k m : nat) :
  names_a_file p → (k ≤ m ≤ k + fuel)%nat →
  files w !! backup_candidate p m = None →
  (∀ j, (k ≤ j < m)%nat → is_Some (files w !! backup_candidate p j)) →
  backup_loop config fuel p (backup_candidate p k) (S k) w
    = (Ret (backup_candidate p m), w).
Proof.
  intros Hp. revert k. induction fuel as [|fuel IH]; intros k Hk Hfree Htaken.
  - assert (k = m) as -> by lia. simpl. unfold bind. rewrite path_exists_run, Hfree.
    by rewrite bool_decide_eq_false_2 by by intros [? ?].
  - simpl. unfold bind. rewrite path_exists_run.
    destruct (decide (k = m)) as [->|Hne].
    + rewrite Hfree. by rewrite bool_decide_eq_false_2 by by intros [? ?].
    + rewrite bool_decide_eq_true_2 by (apply Htaken; lia).
      unfold lift. rewrite backup_name_next by done.
      apply IH; [lia|done|]. intros j Hj. apply Htaken. lia.
Qed.

(** Among the first [n + 1] names, either all are taken or there is a first
    free one. *)
Lemma first_free_or_all_taken (p : Path.t) (w : world) (n : nat) :
  (∀ j, (j ≤ n)%nat → is_Some (files w !! backup_candidate p j)) ∨
  (∃ m, (m ≤ n)%nat ∧ files w !! backup_candidate p m = None ∧
        ∀ j, (j < m)%nat → is_Some (files w !! backup_candidate p j)).
Proof.
  induction n as [|n [IH|(m & Hm & Hfree & Hlt)]].
  - destruct (files w !! backup_candidate p 0) eqn:E.
    + left. intros j Hj. assert (j = 0)%nat as -> by lia. by rewrite E.
    + right. exists 0%nat. split; [lia|]. split; [done|]. intros j Hj. lia.
  - destruct (files w !! backup_candidate p (S n)) eqn:E.
    + left. intros j Hj. destruct (decide (j = S n)) as [->|]; [by rewrite E|].
      apply IH. lia.
    + right. exists (S n). split; [lia|]. split; [done|]. intros j Hj.
      apply IH. lia.
  - right. exists m. split; [lia|]. by split.
Qed.

(** A finite file system cannot hold all the names: there is a first free
    one, at an index no larger than the number of files. *)
Lemma first_free_exists (p : Path.t) (w : world) :
  ∃ m, (m ≤ size (files w))%nat ∧ files w !! backup_candidate p m = None ∧
       ∀ j, (j < m)%nat → is_Some (files w !! backup_candidate p j).
Proof.
  destruct (first_free_or_all_taken p w (size (files w))) as [Hall|?]; [|done].
  exfalso.
  set (names := backup_candidate p <$> seq 0 (S (size (files w)))).
  assert (NoDup names) as Hnd.
  { apply NoDup_fmap_2_strong; [|apply NoDup_seq].
    intros ? ? _ _. apply backup_candidate_inj. }
  assert (list_to_set names ⊆ dom (files w)) as Hsub.
  { intros q [j [-> Hj]]%elem_of_list_to_set%list_elem_of_fmap.
    apply elem_of_dom, Hall. apply elem_of_seq in Hj. lia. }
  apply subseteq_size in Hsub.
  rewrite size_list_to_set, size_dom in Hsub by done.
  unfold names in Hsub. rewrite length_fmap, length_seq in Hsub. lia.
Qed.

End BackupProperties.

(** ** The safety layer: claims *)

Section SafetyClaims.

Context `{Hashlib}.

(** C8. The fingerprint operation returns the empty-string sentinel for a
    path with no file (it does not raise), returns the SHA-256 hex digest of
    the whole content for an existing file, reads without changing the
    world, and depends on the bytes only: equal contents give equal
    digests. *)
Theorem calculate_file_hash_spec (p : Path.t) (w : world) :
  calculate_file_hash p w =
    (Ret (match files w !! p with
          | None => []
          | Some content => sha256_hex content
          end), w)
  ∧ ∀ (q : Path.t) (v : world),
      is_Some (files w !! p) → files v !! q = files w !! p →
      (calculate_file_hash q v).1 = (calculate_file_hash p w).1.
Proof.
  split; [apply calculate_file_hash_run|].
  intros q v _ E. rewrite !calculate_file_hash_run. unfold fingerprint.
  by rewrite E.
Qed.

(** C2. The collision predicate returns true exactly when the target
    exists, source and target have the same stem, and their fingerprints
    differ; it returns false when the target does not exist and when the two
    fingerprints are equal; it always returns, and leaves files, input and
    output untouched. *)
Theorem detect_conversion_collision_spec (a b : Path.t) (w : world) :
  ∃ r : bool,
    detect_conversion_collision a b w = (Ret r, w)
    ∧ (r = true ↔
         is_Some (files w !! b) ∧ Path.stem a = Path.stem b
         ∧ fingerprint w a ≠ fingerprint w b)
    ∧ (files w !! b = None → r = false)
    ∧ (fingerprint w a = fingerprint w b → r = false).
Proof.
  eexists. split; [apply detect_conversion_collision_run|].
  rewrite !andb_true_iff, bool_decide_eq_true, str_eqb_eq, negb_true_iff,
    str_eqb_neq.
  split; [tauto|]. split.
  - intros E. rewrite E. by rewrite bool_decide_eq_false_2 by by intros [? ?].
  - intros E. rewrite (proj2 (str_eqb_eq _ _) E). simpl. apply andb_false_r.
Qed.

(** C1. Whatever the policy flags are, when the target exists, shares its
    stem with the source and has a different fingerprint, the safety check
    fails at its first step with the collision reason: nothing is asked,
    nothing is printed and no file is written. *)
Theorem safe_write_check_collision
    (config : SafetyConfig.t) (source_file target_file : Path.t) (w : world) :
  is_Some (files w !! target_file) →
  Path.stem source_file = Path.stem target_file →
  fingerprint w source_file ≠ fingerprint w target_file →
  detect_conversion_collision source_file target_file w = (Ret true, w)
  ∧ safe_write_check config source_file target_file w =
      (Ret (false,
            lit "Collision detected: " ++ Path.to_str target_file
              ++ lit " exists with different content"), w).
Proof.
  intros Hex Hstem Hdiff.
  assert (detect_conversion_collision source_file target_file w = (Ret true, w))
    as Hc.
  { rewrite detect_conversion_collision_run. do 2 f_equal.
    rewrite bool_decide_eq_true_2 by done.
    rewrite (proj2 (str_eqb_eq _ _) Hstem).
    by rewrite (proj2 (str_eqb_neq _ _) Hdiff). }
  split; [done|]. unfold safe_write_check, bind. by rewrite Hc.
Qed.

End SafetyClaims.

(** C3. With the default suffix, the backup of an existing file [file.ext]
    is copied to the first name among [file.ext.backup], [file.ext.backup.1],
    [file.ext.backup.2], ... that no file has yet, so that every file that
    existed keeps its content; in particular the name is [file.ext.backup]
    when that is free, [file.ext.backup.1] when only that one is taken, and
    [file.ext.backup.2] when both are taken.  For a path with no file the
    result is [None], without error and without any change. *)
Theorem create_backup_spec (config : SafetyConfig.t) (p : Path.t) (w : world) :
  match files w !! p with
  | None => create_backup config p w = (Ret None, w)
  | Some content =>
      SafetyConfig.backup_suffix config = lit ".backup" →
      names_a_file p →
      ∃ k : nat,
        files w !! backup_candidate p k = None
        ∧ (∀ j, (j < k)%nat → is_Some (files w !! backup_candidate p j))
        ∧ create_backup config p w =
            (Ret (Some (backup_candidate p k)),
             World (<[backup_candidate p k := content]> (files w))
                   (stdin w) (stdout w))
        ∧ (∀ q c, files w !! q = Some c →
                  <[backup_candidate p k := content]> (files w) !! q = Some c)
        ∧ (files w !! backup_candidate p 0 = None → k = 0%nat)
        ∧ (is_Some (files w !! backup_candidate p 0) →
           files w !! backup_candidate p 1 = None → k = 1%nat)
        ∧ (is_Some (files w !! backup_candidate p 0) →
           is_Some (files w !! backup_candidate p 1) →
           files w !! backup_candidate p 2 = None → k = 2%nat)
  end.
Proof.
  destruct (files w !! p) as [content|] eqn:E.
  - intros Hsfx Hp.
    destruct (first_free_exists p w) as (k & Hk & Hfree & Htaken).
    assert (∀ m, files w !! backup_candidate p m = None → (k ≤ m)%nat) as Hleast.
    { intros m Hm. destruct (decide (k ≤ m)%nat); [done|].
      destruct (Htaken m) as [? Hc]; [lia|congruence]. }
    assert (∀ m, is_Some (files w !! backup_candidate p m) → k ≠ m) as Hne.
    { intros m [? Hm] ->. congruence. }
    exists k. split; [done|]. split; [done|]. split.
    + unfold create_backup, bind. rewrite path_exists_run, E.
      rewrite bool_decide_eq_true_2 by eauto. cbn [negb]. unfold lift.
      rewrite (backup_name_first config Hsfx p Hp).
      rewrite (backup_loop_finds config Hsfx p w _ 0 k Hp); [|lia|done|].
      * unfold try_except, copy2, ret. by rewrite E.
      * intros j Hj. apply Htaken. lia.
    + split.
      { intros q c Hq. rewrite lookup_insert_ne; [done|]. intros <-. congruence. }
      split; [intros H0%Hleast; lia|].
      split.
      * intros H0%Hne H1%Hleast. lia.
      * intros H0%Hne H1%Hne H2%Hleast. lia.
  - unfold create_backup, bind. rewrite path_exists_run, E.
    by rewrite bool_decide_eq_false_2 by by intros [? ?].
Qed.

(** *** Concrete instances *)

Lemma calculate_file_hash_spec_witness :
  (calculate_file_hash (H := dump_hashlib) sample_md sample_world).1
    = Ret (lit "2320486921")
  ∧ (calculate_file_hash (H := dump_hashlib) sample_docx
       (World {[ sample_docx := sample_md_bytes ]} [] [])).1
    = (calculate_file_hash (H := dump_hashlib) sample_md sample_world).1.
Proof.
  split.
  - rewrite (proj1 (calculate_file_hash_spec sample_md sample_world)).
    reflexivity.
  - apply (proj2 (calculate_file_hash_spec sample_md sample_world)).
    + vm_compute. eauto.
    + reflexivity.
Defined.

Lemma detect_conversion_collision_spec_witness :
  detect_conversion_collision (H := dump_hashlib) sample_md sample_docx
    sample_world = (Ret true, sample_world).
Proof.
  destruct (detect_conversion_collision_spec (H := dump_hashlib)
              sample_md sample_docx sample_world) as (r & -> & Hr & _).
  do 2 f_equal. apply Hr. split; [vm_compute; eauto|]. split; [reflexivity|].
  vm_compute. discriminate.
Defined.

Lemma safe_write_check_collision_witness :
  safe_write_check (H := dump_hashlib) SafetyConfig.default sample_md sample_docx
    sample_world
  = (Ret (false,
          lit "Collision detected: report.docx exists with different content"),
     sample_world)
  ∧ safe_write_check (H := dump_hashlib)
      (SafetyConfig.mk false false false false (lit ".backup"))
      sample_md sample_docx sample_world
    = (Ret (false,
            lit "Collision detected: report.docx exists with different content"),
       sample_world).
Proof.
  split.
  - apply (safe_write_check_collision (H := dump_hashlib) SafetyConfig.default
             sample_md sample_docx sample_world).
    + vm_compute. eauto.
    + reflexivity.
    + vm_compute. discriminate.
  - apply (safe_write_check_collision (H := dump_hashlib)
             (SafetyConfig.mk false false false false (lit ".backup"))
             sample_md sample_docx sample_world).
    + vm_compute. eauto.
    + reflexivity.
    + vm_compute. discriminate.
Defined.

Lemma create_backup_spec_witness :
  ∃ k : nat,
    create_backup SafetyConfig.default sample_docx sample_world =
      (Ret (Some (backup_candidate sample_docx k)),
       World (<[backup_candidate sample_docx k := sample_docx_bytes]>
                (files sample_world)) [] [])
    ∧ backup_candidate sample_docx k
        = Path.mk false [lit "report.docx.backup.1"].
Proof.
  destruct (create_backup_spec SafetyConfig.default sample_docx sample_world
              eq_refl) as (k & _ & _ & Hrun & _ & _ & Hk & _).
  - split; [discriminate | reflexivity].
  - exists k. split; [exact Hrun|].
    rewrite Hk; [reflexivity | vm_compute; eauto | reflexivity].
Defined.

(** ** Word to Markdown: inline formatting *)

Section RunProperties.

Context `{Libraries}.

(** The formatting steps of the source build the nesting from the inside:
    the step applied last is the outermost. *)
Lemma run_formatting_markup (r : Run.t) : run_formatting r = run_markup r.
Proof.
  unfold run_formatting, run_markup, emphasis_wrappers, tag_wrappers.
  destruct (is_on (Run.bold r)), (is_on (Run.italic r)),
    (is_on (Run.underline r)), (is_on (Run.strike r)),
    (is_on (Run.superscript r)), (is_on (Run.subscript r)); reflexivity.
Qed.

(** The loop of [_process_runs] on any runs.  Each run adds its own piece to
    the text, whatever the runs before and after it are; the converter must
    be able to record a link when there is one. *)
Lemma process_runs_from_output (runs : list Run.t) (result : str) (pos : nat)
    (s : W2M.state) :
  (Exists (λ r, Run.hyperlink r = true) runs →
   ∃ links, FormatMetadata.hyperlinks (W2M.metadata s) = PList links) →
  ∃ s', process_runs_from runs result pos s
          = (Ret (result ++ concat (run_output <$> runs)), s')
        ∧ (Forall (λ r, Run.hyperlink r = false) runs → s' = s).
Proof.
  revert result pos s.
  induction runs as [|r runs IH]; intros result pos s Hlinks.
  - exists s. cbn. by rewrite app_nil_r.
  - cbn [process_runs_from fmap list_fmap concat]. unfold run_output at 1.
    destruct (Run.hyperlink r) eqn:Hr.
    + destruct Hlinks as [links Hlinks]; [by left|].
      unfold bind at 1. unfold bind at 1. unfold get_current_line at 1.
      unfold bind at 1. unfold get_metadata at 1.
      unfold bind at 1. unfold lift at 1. rewrite Hlinks. cbn [append].
      unfold bind at 1. unfold put_metadata at 1. unfold ret at 1.
      fold (link_markup r).
      match goal with
      | |- context [process_runs_from runs ?res ?p ?st] =>
          destruct (IH res p st) as (s' & Hrun & _)
      end.
      * intros _. cbn. by eexists.
      * exists s'. split.
        -- rewrite Hrun. by rewrite app_assoc.
        -- intros Hall. apply Forall_cons in Hall as [Hall _]. congruence.
    + unfold bind at 1. unfold ret at 1.
      destruct (IH (result ++ run_formatting r) (pos + length (Run.text r))%nat s)
        as (s' & Hrun & Hsame).
      * intros Hex. apply Hlinks. by right.
      * exists s'. split.
        -- rewrite Hrun, run_formatting_markup. by rewrite app_assoc.
        -- intros Hall. apply Forall_cons in Hall as [_ Hall]. by apply Hsame.
Qed.

End RunProperties.

(** ** Word to Markdown: claims *)

Section WordToMarkdownClaims.

Context `{Libraries}.

(** C6 (as amended). Every run of a plain paragraph adds its own piece to
    the text, whatever the other runs are.  For a run that is not rewritten
    as a link the delimiters nest in this fixed order, from the outside to
    the inside: bold/italic delimiters outermost, then the underline tags,
    then strikethrough, then the superscript or subscript tags innermost.
    A run with a hyperlink adds its link instead, without these delimiters.
    The output is a function of the runs alone (the converter only has to
    be able to record a link when there is one), and without links the
    converter state is left as it was. *)
Theorem process_runs_nesting (runs : list Run.t) (s : W2M.state) :
  (Exists (λ r, Run.hyperlink r = true) runs →
   ∃ links, FormatMetadata.hyperlinks (W2M.metadata s) = PList links) →
  ∃ s',
    _process_runs runs s
      = (Ret (concat
                ((λ r, if Run.hyperlink r then link_markup r
                       else nest (emphasis_wrappers r ++ tag_wrappers r)
                              (Run.text r))
                   <$> runs)), s')
    ∧ (Forall (λ r, Run.hyperlink r = false) runs → s' = s).
Proof.
  intros Hlinks. unfold _process_runs.
  destruct (process_runs_from_output runs [] 0 s Hlinks) as (s' & Hrun & Hsame).
  exists s'. split; [|done]. exact Hrun.
Qed.

(** C7 (as amended). A run that is not rewritten as a link and has both bold
    and italic set is emitted with one pair of triple asterisks around its
    text (the text carries its underline, strikethrough and
    superscript/subscript tags, if any), wherever it stands in its
    paragraph and whatever the runs before and after it are; with bold alone
    the pair is double asterisks, with italic alone single asterisks.  No
    second pair of asterisks is added. *)
Theorem process_runs_emphasis (before after : list Run.t) (r : Run.t)
    (s : W2M.state) :
  Run.hyperlink r = false →
  (Exists (λ r', Run.hyperlink r' = true) (before ++ after) →
   ∃ links, FormatMetadata.hyperlinks (W2M.metadata s) = PList links) →
  let inner := nest (tag_wrappers r) (Run.text r) in
  (is_on (Run.underline r) = false → is_on (Run.strike r) = false →
   is_on (Run.superscript r) = false → is_on (Run.subscript r) = false →
   inner = Run.text r)
  ∧ ∃ s',
      _process_runs (before ++ r :: after) s =
        (Ret (concat (run_output <$> before)
              ++ (if is_on (Run.bold r) && is_on (Run.italic r)
                  then lit "***" ++ inner ++ lit "***"
                  else if is_on (Run.bold r) then lit "**" ++ inner ++ lit "**"
                  else if is_on (Run.italic r) then lit "*" ++ inner ++ lit "*"
                  else inner)
              ++ concat (run_output <$> after)), s').
Proof.
  intros Hplain Hlinks inner. split.
  - unfold inner, tag_wrappers. by intros -> -> -> ->.
  - unfold _process_runs.
    destruct (process_runs_from_output (before ++ r :: after) [] 0 s)
      as (s' & Hrun & _).
    { intros Hex. apply Hlinks. apply Exists_app in Hex as [Hex|Hex].
      - apply Exists_app. by left.
      - apply Exists_cons in Hex as [Hex|Hex]; [congruence|].
        apply Exists_app. by right. }
    exists s'. rewrite Hrun, fmap_app, fmap_cons, concat_app. cbn [concat app].
    do 3 f_equal. unfold run_output. rewrite Hplain.
    unfold inner, run_markup, emphasis_wrappers.
    destruct (is_on (Run.bold r)), (is_on (Run.italic r)); reflexivity.
Qed.

End WordToMarkdownClaims.

(** C6, as first stated: a bold and underlined run would come out as
    [<u>**text**</u>].  It comes out as [**<u>text</u>**]. *)
Lemma process_runs_nesting_counterexample :
  (_process_runs (H := sample_libraries)
     [styled_run (lit "text") true false true] fresh_converter).1
    = Ret (lit "**<u>text</u>**")
  ∧ (_process_runs (H := sample_libraries)
       [styled_run (lit "text") true false true] fresh_converter).1
    ≠ Ret (lit "<u>**text**</u>").
Proof. split; [reflexivity | discriminate]. Qed.

(** A link, then a run with bold, italic and underline, then a plain run. *)
Lemma process_runs_nesting_witness :
  (_process_runs (H := sample_libraries)
     [hyperlink_run (lit "see") false false false;
      styled_run (lit "a") true true true;
      styled_run (lit "b") false false false]
     fresh_converter).1
  = Ret (lit "[see](#see)***<u>a</u>***b").
Proof.
  destruct (process_runs_nesting (H := sample_libraries)
              [hyperlink_run (lit "see") false false false;
               styled_run (lit "a") true true true;
               styled_run (lit "b") false false false]
              fresh_converter) as (s' & -> & _).
  - intros _. exists []. reflexivity.
  - reflexivity.
Defined.

(** C7, as first stated: every run with bold and italic set would come out
    in triple asterisks.  A run with a hyperlink comes out as its link,
    without any asterisk, whatever its flags. *)
Lemma process_runs_emphasis_counterexample :
  (_process_runs (H := sample_libraries)
     [hyperlink_run (lit "text") true true false] fresh_converter).1
    = Ret (lit "[text](#text)")
  ∧ (_process_runs (H := sample_libraries)
       [hyperlink_run (lit "text") true true false] fresh_converter).1
    ≠ Ret (lit "***text***").
Proof. split; [reflexivity | discriminate]. Qed.

(** A run with bold and italic between a link and a plain run. *)
Lemma process_runs_emphasis_witness :
  (_process_runs (H := sample_libraries)
     ([hyperlink_run (lit "see") false false false]
      ++ styled_run (lit "text") true true false
      :: [styled_run (lit "!") false false false])
     fresh_converter).1
  = Ret (lit "[see](#see)***text***!").
Proof.
  destruct (process_runs_emphasis (H := sample_libraries)
              [hyperlink_run (lit "see") false false false]
              [styled_run (lit "!") false false false]
              (styled_run (lit "text") true true false) fresh_converter eq_refl)
    as [_ [s' ->]].
  - intros _. exists []. reflexivity.
  - reflexivity.
Defined.

(** ** Markdown to Word: the builder *)

Section BuilderProperties.

Context `{Libraries}.
Variable config : ConversionConfig.t.

(** A line that opens a header box is a horizontal rule first: the loop of
    [_build_document] tests for the rule before it tests for the box, so the
    box is never built. *)
Lemma header_box_divider_is_rule (line : str) (lines : list str) (line_num : nat) :
  _is_header_box_divider line lines line_num = true →
  _is_horizontal_rule line = true.
Proof.
  unfold _is_header_box_divider, _is_horizontal_rule.
  set (stripped := strip line).
  destruct (Nat.leb_spec 20 (length stripped)) as [Hlen|]; [|done].
  destruct (all_char 61 stripped) eqn:Heq; [|done]. intros _.
  assert (str_eqb stripped [] = false) as ->.
  { apply str_eqb_neq. intros E. rewrite E in Hlen. simpl in Hlen. lia. }
  destruct (_ || _); [done|].
  destruct (Nat.leb_spec 10 (length stripped)); [|lia].
  by destruct (all_char 45 stripped).
Qed.

(** Whatever the step does with its local [line_num], the loop goes on with
    the next index. *)
Lemma build_loop_step (n line_num : nat) (st st' : build_state) (local : nat) :
  build_step config line_num st = Ret (st', local) →
  build_loop config (S n) line_num st = build_loop config n (S line_num) st'.
Proof. intros E. simpl. by rewrite E. Qed.

(** C4. The table with header A, B and data row 1, 2 is emitted as the three
    lines [| A | B |], [| --- | --- |], [| 1 | 2 |].  Read back, these three
    lines give two tables, not one: the table of 2 rows and 2 columns with
    the original texts, and then a second table of one row holding 1, 2,
    built when the loop reaches the separator line it was meant to skip. *)
Theorem table_lines_read_back_as_two_tables (m : FormatMetadata.t) :
  (_extract_content_and_metadata
     (Document.mk [BTable sample_table] None None) fresh_converter).1
    = Ret sample_table_markup
  ∧ ∃ d : Document.t,
      _build_document config new_document sample_table_markup m = Ret d
      ∧ cell_texts <$> Document.tables d
        = [ [[lit "A"; lit "B"]; [lit "1"; lit "2"]];
            [[lit "1"; lit "2"]] ]
      ∧ length (Document.tables d) = 2%nat.
Proof.
  split; [by vm_compute|].
  eexists. split; [by vm_compute|]. by vm_compute.
Qed.

(** C5. A line of 25 equals signs, then [Section Title], then 25 more equals
    signs give three paragraphs: a divider, a plain paragraph with the
    title, and a second divider.  None of them has a border or a bold run,
    and no line is consumed by another. *)
Theorem header_box_lines_give_three_paragraphs (m : FormatMetadata.t) :
  ∃ d : Document.t,
    _build_document config new_document sample_header_box m = Ret d
    ∧ Document.body d = BParagraph <$> Document.paragraphs d
    ∧ Paragraph.text <$> Document.paragraphs d
      = [repeat_char 95 50; lit "Section Title"; repeat_char 95 50]
    ∧ Paragraph.alignment <$> Document.paragraphs d = [Some CENTER; None; Some CENTER]
    ∧ Forall (λ p, Paragraph.border_top_width p = None
                   ∧ Paragraph.border_bottom_width p = None
                   ∧ Forall (λ r, Run.bold r = None) (Paragraph.runs p))
        (Document.paragraphs d).
Proof.
  eexists. split; [by vm_compute|].
  split; [by vm_compute|]. split; [by vm_compute|]. split; [by vm_compute|].
  vm_compute. repeat constructor.
Qed.

(** C10. The document built from a body does not depend on the metadata
    record handed to the builder. *)
Theorem build_document_ignores_metadata
    (d : Document.t) (content : str) (m1 m2 : FormatMetadata.t) :
  _build_document config d content m1 = _build_document config d content m2.
Proof. reflexivity. Qed.

End BuilderProperties.

(** ** Markdown to Word: front-matter and metadata *)

Section ConversionProperties.

Context `{Hashlib} `{Libraries}.

(** What the converter does tolerate: no metadata block, or a block whose
    payload is not JSON, gives the empty record. *)
Lemma extract_metadata_tolerates (content : str) :
  match search_metadata content with
  | None => True
  | Some payload => json_loads payload = None
  end →
  _extract_metadata content = Ret FormatMetadata.empty.
Proof.
  unfold _extract_metadata. destruct (search_metadata content); [|done].
  by intros ->.
Qed.

(** A front-matter block that is not closed, or that the YAML parser
    rejects, counts as absent. *)
Lemma extract_frontmatter_tolerates (content : str) :
  find (lit newline ++ lit "---" ++ lit newline) content 4 = -1
  ∨ yaml_safe_load
      (take (Z.to_nat (find (lit newline ++ lit "---" ++ lit newline) content 4) - 4)
         (drop 4 content)) = None →
  _extract_frontmatter_config content = PNone.
Proof.
  unfold _extract_frontmatter_config. intros [E|E].
  - rewrite E. by destruct (negb _).
  - rewrite E. destruct (negb _); [done|]. by destruct (_ =? _).
Qed.

(** In those cases the conversion goes on to the builder, with the content
    as it was read and the empty record. *)
Lemma markdown_to_document_proceeds (config : ConversionConfig.t) (content : str)
    (w : world) :
  _extract_frontmatter_config content = PNone →
  _extract_metadata content = Ret FormatMetadata.empty →
  markdown_to_document config None content w =
    (_build_document config (_setup_default_styles config new_document)
       (_strip_metadata content) FormatMetadata.empty, w).
Proof.
  intros Hfm Hmeta. unfold markdown_to_document. rewrite Hfm. cbn [truthy].
  unfold bind, ret, lift. by rewrite Hmeta.
Qed.

(** A block whose payload is JSON but not an object stops the conversion:
    the constructor of the record raises, and only the decoding error is
    caught. *)
Lemma markdown_to_document_bad_metadata (config : ConversionConfig.t)
    (template_path : option Path.t) (content payload : str) (v : pyval) (w : world) :
  truthy (_extract_frontmatter_config content) = false →
  search_metadata content = Some payload →
  json_loads payload = Some v →
  (∀ items, v ≠ PDict items) →
  markdown_to_document config template_path content w =
    (Raise (TypeError (lit "argument after ** must be a mapping")), w).
Proof.
  intros Hfm Hs Hj Hv. unfold markdown_to_document. rewrite Hfm.
  unfold bind, ret, lift, _extract_metadata. rewrite Hs, Hj.
  destruct v; try reflexivity. by destruct (Hv items).
Qed.

(** A front-matter block that the YAML parser reads as something other than
    a mapping stops the conversion as well. *)
Lemma markdown_to_document_bad_frontmatter (config : ConversionConfig.t)
    (template_path : option Path.t) (content : str) (w : world) :
  truthy (_extract_frontmatter_config content) = true →
  (∀ items, _extract_frontmatter_config content ≠ PDict items) →
  markdown_to_document config template_path content w =
    (Raise (AttributeError (lit "object has no attribute 'items'")), w).
Proof.
  intros Hfm Hv. unfold markdown_to_document. rewrite Hfm.
  unfold bind, ret, lift.
  destruct (_extract_frontmatter_config content); try reflexivity.
  by destruct (Hv items).
Qed.

Lemma safe_write_check_new_target (safety : SafetyConfig.t)
    (source_file target_file : Path.t) (w : world) :
  files w !! target_file = None →
  safe_write_check safety source_file target_file w
    = (Ret (true, lit "Safe to proceed"), w).
Proof.
  intros E. unfold safe_write_check, bind.
  rewrite detect_conversion_collision_run, E.
  rewrite bool_decide_eq_false_2 by by intros [? ?]. cbn [andb].
  rewrite path_exists_run, E.
  by rewrite bool_decide_eq_false_2 by by intros [? ?].
Qed.

(** An exception in the body of the [try] makes the conversion print the
    error and return [False]; no file is written. *)
Lemma convert_md_to_docx_abandoned (safety : SafetyConfig.t)
    (config : ConversionConfig.t) (template_path : option Path.t)
    (source_file target_file : Path.t) (w : world) (data : bytes) (content : str)
    (e : exn) :
  files w !! source_file = Some data →
  files w !! target_file = None →
  decode_utf8 data = Some content →
  markdown_to_document config template_path content w = (Raise e, w) →
  convert_md_to_docx safety config template_path source_file target_file w =
    (Ret false,
     World (files w) (stdin w) (stdout w ++ [conversion_error_line source_file e])).
Proof.
  intros Hsrc Htgt Hdec Hraise. unfold convert_md_to_docx.
  unfold bind at 1. rewrite path_exists_run, Hsrc.
  rewrite bool_decide_eq_true_2 by eauto. cbn [negb].
  unfold bind at 1. rewrite safe_write_check_new_target by done. cbn [negb].
  unfold try_except, read_text, bind, open_rb. rewrite Hsrc, Hdec.
  unfold ret at 1. by rewrite Hraise.
Qed.

(** C9. A trailing metadata block whose payload is valid JSON but not an
    object, and a front-matter block that reads as something other than a
    mapping, are both fatal: the conversion prints an error, returns
    [False] and writes nothing. *)
Theorem ill_shaped_block_aborts_conversion (safety : SafetyConfig.t)
    (config : ConversionConfig.t) (template_path : option Path.t)
    (source_file target_file : Path.t) (w : world) (data : bytes) (content : str) :
  files w !! source_file = Some data →
  files w !! target_file = None →
  decode_utf8 data = Some content →
  (truthy (_extract_frontmatter_config content) = false
   ∧ ∃ payload v, search_metadata content = Some payload
                  ∧ json_loads payload = Some v ∧ ∀ items, v ≠ PDict items)
  ∨ (truthy (_extract_frontmatter_config content) = true
     ∧ ∀ items, _extract_frontmatter_config content ≠ PDict items) →
  ∃ e : exn,
    convert_md_to_docx safety config template_path source_file target_file w =
      (Ret false,
       World (files w) (stdin w)
         (stdout w ++ [conversion_error_line source_file e])).
Proof.
  intros Hsrc Htgt Hdec [(Hfm & payload & v & Hs & Hj & Hv)|[Hfm Hv]];
    eexists; eapply convert_md_to_docx_abandoned; eauto.
  - by eapply markdown_to_document_bad_metadata.
  - by apply markdown_to_document_bad_frontmatter.
Qed.

End ConversionProperties.

Lemma ill_shaped_block_aborts_conversion_witness :
  (∃ e, convert_md_to_docx (H := dump_hashlib) (H0 := sample_libraries)
          SafetyConfig.default ConversionConfig.default None
          sample_md sample_docx (sample_source_world sample_bad_metadata)
        = (Ret false,
           World (files (sample_source_world sample_bad_metadata)) []
             [conversion_error_line sample_md e]))
  ∧ (∃ e, convert_md_to_docx (H := dump_hashlib) (H0 := sample_libraries)
            SafetyConfig.default ConversionConfig.default None
            sample_md sample_docx (sample_source_world sample_bad_frontmatter)
          = (Ret false,
             World (files (sample_source_world sample_bad_frontmatter)) []
               [conversion_error_line sample_md e])).
Proof.
  split.
  - destruct (ill_shaped_block_aborts_conversion (H := dump_hashlib)
                (H0 := sample_libraries) SafetyConfig.default
                ConversionConfig.default None sample_md sample_docx
                (sample_source_world sample_bad_metadata)
                (ascii_bytes sample_bad_metadata) (lit sample_bad_metadata))
      as [e He]; [reflexivity | reflexivity | reflexivity | | by exists e].
    left. split; [reflexivity|].
    exists (lit "[]"), (PList []).
    split; [reflexivity|]. split; [reflexivity | discriminate].
  - destruct (ill_shaped_block_aborts_conversion (H := dump_hashlib)
                (H0 := sample_libraries) SafetyConfig.default
                ConversionConfig.default None sample_md sample_docx
                (sample_source_world sample_bad_frontmatter)
                (ascii_bytes sample_bad_frontmatter) (lit sample_bad_frontmatter))
      as [e He]; [reflexivity | reflexivity | reflexivity | | by exists e].
    right. split; [reflexivity | discriminate].
Defined.

(** * Further properties *)

(** ** The safety layer: what it writes, what it reads *)

Section SafetyInvariants.

Context `{Hashlib}.
Variable config : SafetyConfig.t.

Lemma keeps_files_refl (w : world) : keeps_files w w.
Proof. by intros q c. Qed.

Lemma keeps_files_fresh (w : world) (q : Path.t) (content : bytes)
    (input' output' : list str) :
  files w !! q = None →
  keeps_files w (World (<[q := content]> (files w)) input' output').
Proof.
  intros Hq p c Hp. cbn. rewrite lookup_insert_ne; [done|]. intros <-. congruence.
Qed.

(** The loop of [create_backup] only looks: it leaves the world alone, and
    a name it returns is free. *)
Lemma backup_loop_fresh (fuel : nat) (p bp : Path.t) (counter : nat) (w : world) :
  ∃ r, backup_loop config fuel p bp counter w = (r, w)
       ∧ ∀ q, r = Ret q → files w !! q = None.
Proof.
  revert bp counter. induction fuel as [|fuel IH]; intros bp counter;
    simpl; unfold bind; rewrite path_exists_run;
    destruct (files w !! bp) as [c|] eqn:E.
  - rewrite bool_decide_eq_true_2 by eauto.
    eexists. split; [reflexivity|]. discriminate.
  - rewrite bool_decide_eq_false_2 by by intros [? ?].
    eexists. split; [reflexivity|]. by intros q [= <-].
  - rewrite bool_decide_eq_true_2 by eauto. unfold lift.
    destruct (backup_name config p (Some counter)) as [bp'|e|].
    + apply IH.
    + eexists. split; [reflexivity|]. discriminate.
    + eexists. split; [reflexivity|]. discriminate.
  - rewrite bool_decide_eq_false_2 by by intros [? ?].
    eexists. split; [reflexivity|]. by intros q [= <-].
Qed.

(** [create_backup] either changes nothing or adds one file, under a name
    that was free, with the content of the file it backs up. *)
Lemma create_backup_effect (p : Path.t) (w : world) :
  ∃ r w', create_backup config p w = (r, w')
    ∧ stdin w' = stdin w ∧ stdout w' = stdout w
    ∧ (files w' = files w
       ∨ ∃ q content, files w !! p = Some content ∧ files w !! q = None
                      ∧ r = Ret (Some q)
                      ∧ files w' = <[q := content]> (files w)).
Proof.
  unfold create_backup, bind. rewrite path_exists_run.
  destruct (files w !! p) as [content|] eqn:E.
  - rewrite bool_decide_eq_true_2 by eauto. cbn [negb]. unfold lift.
    destruct (backup_name config p None) as [bp|e|].
    + destruct (backup_loop_fresh (S (size (files w))) p bp 1 w)
        as (r & -> & Hfresh).
      destruct r as [q|e|].
      * unfold try_except, copy2, ret. rewrite E. cbn.
        eexists _, _. split; [reflexivity|]. do 2 (split; [reflexivity|]).
        right. exists q, content. by rewrite (Hfresh q eq_refl).
      * eexists _, _. split; [reflexivity|]. do 2 (split; [reflexivity|]). by left.
      * eexists _, _. split; [reflexivity|]. do 2 (split; [reflexivity|]). by left.
    + eexists _, _. split; [reflexivity|]. do 2 (split; [reflexivity|]). by left.
    + eexists _, _. split; [reflexivity|]. do 2 (split; [reflexivity|]). by left.
  - rewrite bool_decide_eq_false_2 by by intros [? ?]. cbn [negb].
    eexists _, _. split; [reflexivity|]. do 2 (split; [reflexivity|]). by left.
Qed.

Lemma create_backup_keeps_files (p : Path.t) (w : world) :
  keeps_files w (create_backup config p w).2
  ∧ stdin (create_backup config p w).2 = stdin w.
Proof.
  destruct (create_backup_effect p w) as (r & w' & -> & Hin & _ & Hfiles). cbn.
  split; [|done]. destruct Hfiles as [E|(q & c & _ & Hq & _ & E)].
  - intros x cx. by rewrite E.
  - intros x cx Hx. rewrite E, lookup_insert_ne; [done|]. intros <-. congruence.
Qed.

End SafetyInvariants.

(** ** Frame rules for the world *)

Section Frames.

Context {A B : Type} (P : Path.t → Prop).

Lemma touches_only_ret (a : A) : touches_only P (ret a).
Proof. by intros w q c. Qed.

Lemma touches_only_lift (o : outcome A) : touches_only P (lift o).
Proof. by intros w q c. Qed.

Lemma touches_only_bind (m : ST world A) (f : A → ST world B) :
  touches_only P m → (∀ a, touches_only P (f a)) → touches_only P (bind m f).
Proof.
  intros Hm Hf w q c Hq Hc. unfold bind. specialize (Hm w q c Hq Hc).
  destruct (m w) as [[a|e|] w']; cbn in *; [|done|done].
  by apply Hf.
Qed.

Lemma touches_only_try_except (m : ST world A) (h : exn → ST world A) :
  touches_only P m → (∀ e, touches_only P (h e)) → touches_only P (try_except m h).
Proof.
  intros Hm Hh w q c Hq Hc. unfold try_except. specialize (Hm w q c Hq Hc).
  destruct (m w) as [[a|e|] w']; cbn in *; [done| |done].
  by apply Hh.
Qed.

Lemma asks_nothing_ret (a : A) : asks_nothing (ret a).
Proof. by intros w. Qed.

Lemma asks_nothing_lift (o : outcome A) : asks_nothing (lift o).
Proof. by intros w. Qed.

Lemma asks_nothing_bind (m : ST world A) (f : A → ST world B) :
  asks_nothing m → (∀ a, asks_nothing (f a)) → asks_nothing (bind m f).
Proof.
  intros Hm Hf w. unfold bind. specialize (Hm w).
  destruct (m w) as [[a|e|] w']; cbn in *; [|done|done].
  by rewrite Hf.
Qed.

Lemma asks_nothing_try_except (m : ST world A) (h : exn → ST world A) :
  asks_nothing m → (∀ e, asks_nothing (h e)) → asks_nothing (try_except m h).
Proof.
  intros Hm Hh w. unfold try_except. specialize (Hm w).
  destruct (m w) as [[a|e|] w']; cbn in *; [done| |done].
  by rewrite Hh.
Qed.

End Frames.

Section FramesOfPrimitives.

Context (P : Path.t → Prop).

Lemma touches_only_path_exists (p : Path.t) : touches_only P (path_exists p).
Proof. by intros w q c. Qed.

Lemma touches_only_open_rb (p : Path.t) : touches_only P (open_rb p).
Proof. intros w q c _ Hc. unfold open_rb. by destruct (files w !! p). Qed.

Lemma touches_only_print (line : str) : touches_only P (print line).
Proof. by intros w q c. Qed.

Lemma touches_only_input (prompt : str) : touches_only P (input prompt).
Proof. intros w q c _ Hc. unfold input. by destruct (stdin w). Qed.

Lemma asks_nothing_path_exists (p : Path.t) : asks_nothing (path_exists p).
Proof. by intros w. Qed.

Lemma asks_nothing_open_rb (p : Path.t) : asks_nothing (open_rb p).
Proof. intros w. unfold open_rb. by destruct (files w !! p). Qed.

Lemma asks_nothing_print (line : str) : asks_nothing (print line).
Proof. by intros w. Qed.

End FramesOfPrimitives.

Section FramesOfSafety.

Context `{Hashlib} (P : Path.t → Prop).
Variable config : SafetyConfig.t.

Lemma touches_only_calculate_file_hash (p : Path.t) :
  touches_only P (calculate_file_hash p).
Proof. intros w q c _ Hc. by rewrite calculate_file_hash_run. Qed.

Lemma asks_nothing_calculate_file_hash (p : Path.t) :
  asks_nothing (calculate_file_hash p).
Proof. intros w. by rewrite calculate_file_hash_run. Qed.

Lemma touches_only_detect (a b : Path.t) :
  touches_only P (detect_conversion_collision a b).
Proof. intros w q c _ Hc. by rewrite detect_conversion_collision_run. Qed.

Lemma asks_nothing_detect (a b : Path.t) :
  asks_nothing (detect_conversion_collision a b).
Proof. intros w. by rewrite detect_conversion_collision_run. Qed.

Lemma touches_only_create_backup (p : Path.t) :
  touches_only P (create_backup config p).
Proof.
  intros w q c _ Hc. by apply (create_backup_keeps_files config p w).
Qed.

Lemma asks_nothing_create_backup (p : Path.t) :
  asks_nothing (create_backup config p).
Proof. intros w. apply (create_backup_keeps_files config p w). Qed.

Lemma touches_only_confirm_overwrite (p : Path.t) :
  touches_only P (confirm_overwrite config p).
Proof.
  unfold confirm_overwrite. destruct (negb _); [apply touches_only_ret|].
  apply touches_only_bind; [apply touches_only_input|].
  intros a. apply touches_only_ret.
Qed.

Lemma touches_only_safe_write_check (source_file target_file : Path.t) :
  touches_only P (safe_write_check config source_file target_file).
Proof.
  unfold safe_write_check.
  apply touches_only_bind; [apply touches_only_detect|]. intros [|];
    [apply touches_only_ret|].
  apply touches_only_bind; [apply touches_only_path_exists|]. intros [|];
    [|apply touches_only_ret].
  apply touches_only_bind.
  { destruct (SafetyConfig.prevent_overwrite config);
      [apply touches_only_confirm_overwrite | apply touches_only_ret]. }
  intros [|]; cbn [negb]; [|apply touches_only_ret].
  apply touches_only_bind; [|intros; apply touches_only_ret].
  destruct (SafetyConfig.create_backup config); [|apply touches_only_ret].
  apply touches_only_bind; [apply touches_only_create_backup|].
  intros [b|]; [apply touches_only_print | apply touches_only_ret].
Qed.

Lemma asks_nothing_safe_write_check (source_file target_file : Path.t) :
  SafetyConfig.require_confirmation config = false
  ∨ SafetyConfig.prevent_overwrite config = false →
  asks_nothing (safe_write_check config source_file target_file).
Proof.
  intros Hquiet. unfold safe_write_check.
  apply asks_nothing_bind; [apply asks_nothing_detect|]. intros [|];
    [apply asks_nothing_ret|].
  apply asks_nothing_bind; [apply asks_nothing_path_exists|]. intros [|];
    [|apply asks_nothing_ret].
  apply asks_nothing_bind.
  { destruct (SafetyConfig.prevent_overwrite config) eqn:Hp;
      [|apply asks_nothing_ret].
    unfold confirm_overwrite. destruct Hquiet as [->|?]; [|done].
    apply asks_nothing_ret. }
  intros [|]; cbn [negb]; [|apply asks_nothing_ret].
  apply asks_nothing_bind; [|intros; apply asks_nothing_ret].
  destruct (SafetyConfig.create_backup config); [|apply asks_nothing_ret].
  apply asks_nothing_bind; [apply asks_nothing_create_backup|].
  intros [b|]; [apply asks_nothing_print | apply asks_nothing_ret].
Qed.

End FramesOfSafety.

(** ** The safety check, case by case *)

Section SafetyCases.

Context `{Hashlib}.
Variable config : SafetyConfig.t.

Lemma no_collision (source_file target_file : Path.t) (w : world) :
  Path.stem source_file ≠ Path.stem target_file
  ∨ fingerprint w source_file = fingerprint w target_file →
  detect_conversion_collision source_file target_file w = (Ret false, w).
Proof.
  intros Hno. rewrite detect_conversion_collision_run. do 2 f_equal.
  destruct Hno as [Hstem|Hfp].
  - rewrite (proj2 (str_eqb_neq _ _) Hstem). by rewrite andb_false_r.
  - rewrite (proj2 (str_eqb_eq _ _) Hfp). apply andb_false_r.
Qed.

(** The first free backup name is the one [create_backup] uses. *)
Lemma create_backup_first_free (p : Path.t) (w : world) (content : bytes) :
  SafetyConfig.backup_suffix config = lit ".backup" →
  names_a_file p →
  files w !! p = Some content →
  ∃ k : nat,
    files w !! backup_candidate p k = None
    ∧ (∀ j, (j < k)%nat → is_Some (files w !! backup_candidate p j))
    ∧ create_backup config p w =
        (Ret (Some (backup_candidate p k)),
         World (<[backup_candidate p k := content]> (files w)) (stdin w) (stdout w)).
Proof.
  intros Hsfx Hp E.
  destruct (first_free_exists p w) as (k & Hk & Hfree & Htaken).
  exists k. split; [done|]. split; [done|].
  unfold create_backup, bind. rewrite path_exists_run, E.
  rewrite bool_decide_eq_true_2 by eauto. cbn [negb]. unfold lift.
  rewrite (backup_name_first config Hsfx p Hp).
  rewrite (backup_loop_finds config Hsfx p w _ 0 k Hp); [|lia|done|].
  - unfold try_except, copy2, ret. by rewrite E.
  - intros j Hj. apply Htaken. lia.
Qed.

(** X1. The safety check never changes or removes a file, whatever the
    policy and the answers: every file that existed before it still has its
    content after it. *)
Theorem safe_write_check_never_overwrites
    (source_file target_file q : Path.t) (w : world) (c : bytes) :
  files w !! q = Some c →
  files (safe_write_check config source_file target_file w).2 !! q = Some c.
Proof.
  apply (touches_only_safe_write_check (λ _, False) config); tauto.
Qed.

(** X2. When confirmation is switched off (the [--force] flag), or when
    overwrite prevention is off, the safety check reads nothing from
    standard input. *)
Theorem safe_write_check_forced_asks_nothing
    (source_file target_file : Path.t) (w : world) :
  SafetyConfig.require_confirmation config = false
  ∨ SafetyConfig.prevent_overwrite config = false →
  stdin (safe_write_check config source_file target_file w).2 = stdin w.
Proof. intros Hq. by apply asks_nothing_safe_write_check. Qed.

(** X3. A target that does not exist yet is approved at once, whatever the
    policy: nothing is asked, printed or written. *)
Theorem safe_write_check_fresh_target
    (source_file target_file : Path.t) (w : world) :
  files w !! target_file = None →
  safe_write_check config source_file target_file w
    = (Ret (true, lit "Safe to proceed"), w).
Proof. apply safe_write_check_new_target. Qed.

(** X4. An existing target that is no collision, under a policy that asks
    for confirmation: with no line to read the check raises [EOFError] (it
    is not taken for a yes); with an answer other than [y] or [yes] (in any
    case, with spaces around) it fails with the cancellation reason.  In
    both cases the question has been printed and no file has changed. *)
Theorem safe_write_check_not_confirmed
    (source_file target_file : Path.t) (w : world) :
  is_Some (files w !! target_file) →
  Path.stem source_file ≠ Path.stem target_file
  ∨ fingerprint w source_file = fingerprint w target_file →
  SafetyConfig.prevent_overwrite config = true →
  SafetyConfig.require_confirmation config = true →
  match stdin w with
  | [] =>
      safe_write_check config source_file target_file w
        = (Raise EOFError,
           World (files w) [] (stdout w ++ [overwrite_prompt target_file]))
  | answer :: rest =>
      says_yes answer = false →
      safe_write_check config source_file target_file w
        = (Ret (false, lit "User cancelled overwrite"),
           World (files w) rest (stdout w ++ [overwrite_prompt target_file]))
  end.
Proof.
  intros Hex Hno Hprev Hconf.
  destruct (stdin w) as [|answer rest] eqn:Hin; [|intros Hans];
    unfold safe_write_check; unfold bind at 1; rewrite (no_collision _ _ _ Hno);
    unfold bind at 1; rewrite path_exists_run, bool_decide_eq_true_2 by done;
    rewrite Hprev; unfold confirm_overwrite; rewrite Hconf; cbn [negb];
    unfold bind, input; rewrite Hin; fold (overwrite_prompt target_file);
    [reflexivity|].
  unfold says_yes in Hans. unfold ret at 1. by rewrite Hans.
Qed.

(** X5. An existing target that is no collision, confirmed with [y] or
    [yes], under the default backup suffix: the check succeeds after copying
    the target to its first free backup name, and says so.  The target
    itself is left as it is. *)
Theorem safe_write_check_confirmed_with_backup
    (source_file target_file : Path.t) (w : world) (content : bytes)
    (answer : str) (rest : list str) :
  files w !! target_file = Some content →
  names_a_file target_file →
  Path.stem source_file ≠ Path.stem target_file
  ∨ fingerprint w source_file = fingerprint w target_file →
  SafetyConfig.prevent_overwrite config = true →
  SafetyConfig.require_confirmation config = true →
  SafetyConfig.create_backup config = true →
  SafetyConfig.backup_suffix config = lit ".backup" →
  stdin w = answer :: rest →
  says_yes answer = true →
  ∃ k : nat,
    files w !! backup_candidate target_file k = None
    ∧ (∀ j, (j < k)%nat → is_Some (files w !! backup_candidate target_file j))
    ∧ safe_write_check config source_file target_file w
      = (Ret (true, lit "Safe to proceed"),
         World (<[backup_candidate target_file k := content]> (files w)) rest
           (stdout w ++ [overwrite_prompt target_file;
                         [9989]%N ++ lit " Backup created: "
                           ++ Path.to_str (backup_candidate target_file k)])).
Proof.
  intros Hex Hname Hno Hprev Hconf Hbackup Hsfx Hin Hans.
  set (w1 := World (files w) rest (stdout w ++ [overwrite_prompt target_file])).
  destruct (create_backup_first_free target_file w1 content Hsfx Hname Hex)
    as (k & Hfree & Htaken & Hrun).
  exists k. split; [done|]. split; [done|].
  unfold safe_write_check. unfold bind at 1. rewrite (no_collision _ _ _ Hno).
  unfold bind at 1. rewrite path_exists_run, bool_decide_eq_true_2 by eauto.
  rewrite Hprev, Hbackup. unfold confirm_overwrite. rewrite Hconf. cbn [negb].
  unfold bind at 1. unfold bind at 1. unfold input. rewrite Hin.
  fold (overwrite_prompt target_file). fold w1.
  unfold says_yes in Hans. unfold ret at 1. rewrite Hans. cbn [negb].
  unfold bind at 1. unfold bind at 1. rewrite Hrun.
  unfold print, ret. cbn. by rewrite <- app_assoc.
Qed.

(** X6. A backup suffix that holds a path separator makes [create_backup]
    raise [ValueError] for every existing file; the failure is not turned
    into a warning, and nothing is copied. *)
Theorem create_backup_bad_suffix (p : Path.t) (w : world) :
  contains_char 47 (SafetyConfig.backup_suffix config) = true →
  is_Some (files w !! p) →
  create_backup config p w = (Raise (ValueError (lit "Invalid suffix")), w).
Proof.
  intros Hsep Hex. unfold create_backup, bind.
  rewrite path_exists_run, bool_decide_eq_true_2 by done. cbn [negb].
  unfold lift, backup_name, Path.with_suffix.
  by rewrite !contains_char_app, Hsep, orb_true_r.
Qed.

End SafetyCases.

(** ** Searching in strings *)

Lemma startswith_nil_r (p : str) : startswith p [] = true → p = [].
Proof. by destruct p. Qed.

Lemma startswith_app_r (p s t : str) :
  startswith p s = true → startswith p (s ++ t) = true.
Proof.
  revert s. induction p as [|a p IH]; intros [|b s]; simpl; try done.
  intros [-> Hp]%andb_true_iff. by rewrite IH.
Qed.

Lemma startswith_self_app (p t : str) : startswith p (p ++ t) = true.
Proof. induction p as [|a p IH]; simpl; [done|]. by rewrite N.eqb_refl. Qed.

(** On a text long enough, what follows the text does not matter. *)
Lemma startswith_app_long (p s t : str) :
  (length p ≤ length s)%nat → startswith p (s ++ t) = startswith p s.
Proof.
  revert s. induction p as [|a p IH]; intros [|b s] Hlen; simpl in *;
    try done; [lia|].
  rewrite IH by lia. done.
Qed.

Lemma startswith_split (p q s : str) :
  startswith (p ++ q) s = startswith p s && startswith q (drop (length p) s).
Proof.
  revert s. induction p as [|a p IH]; intros s; simpl.
  - by rewrite drop_0.
  - destruct s as [|b s]; simpl.
    + done.
    + rewrite IH. by rewrite andb_assoc.
Qed.

(** [find_from] returns the first place where the needle stands. *)
Lemma find_from_first (needle s : str) (pos i : nat) :
  startswith needle (drop i s) = true →
  (∀ j, (j < i)%nat → startswith needle (drop j s) = false) →
  find_from needle s pos = Z.of_nat (pos + i).
Proof.
  revert s pos. induction i as [|i IH]; intros s pos Hat Hbefore.
  - rewrite drop_0 in Hat. destruct s; simpl in *; rewrite Hat; f_equal; lia.
  - pose proof (Hbefore 0%nat ltac:(lia)) as H0. rewrite drop_0 in H0.
    destruct s as [|c s].
    + rewrite drop_nil in Hat. congruence.
    + simpl. rewrite H0. rewrite (IH s (S pos)).
      * f_equal. lia.
      * done.
      * intros j Hj. apply (Hbefore (S j)). lia.
Qed.

Lemma find_from_absent (needle s : str) (pos : nat) :
  find_from needle s pos = -1 ↔ ∀ j, startswith needle (drop j s) = false.
Proof.
  revert pos. induction s as [|c s IH]; intros pos; simpl.
  - destruct (startswith needle []) eqn:E.
    + split; [lia|]. intros Hall. specialize (Hall 0%nat). simpl in Hall. congruence.
    + split; [|done]. intros _ j. by rewrite drop_nil.
  - destruct (startswith needle (c :: s)) eqn:E.
    + split; [lia|]. intros Hall. specialize (Hall 0%nat). simpl in Hall. congruence.
    + rewrite IH. split.
      * intros Hall [|j]; [done|]. apply Hall.
      * intros Hall j. apply (Hall (S j)).
Qed.

Lemma find_from_bounds (needle s : str) (pos : nat) :
  find_from needle s pos = -1 ∨ Z.of_nat pos ≤ find_from needle s pos.
Proof.
  revert pos. induction s as [|c s IH]; intros pos; simpl.
  - destruct (startswith needle []); lia.
  - destruct (startswith needle (c :: s)); [lia|].
    destruct (IH (S pos)); lia.
Qed.

Lemma contains_false (needle s : str) :
  contains needle s = false ↔ ∀ j, startswith needle (drop j s) = false.
Proof.
  unfold contains, find. simpl. rewrite drop_0, <- (find_from_absent needle s 0).
  destruct (find_from_bounds needle s 0) as [->|?]; [done|].
  split; [|by intros ->]. intros ?%Z.leb_gt. lia.
Qed.

(** A needle that stands at [i] in [s ++ t] and ends within [s] stands at
    [i] in [s]. *)
Lemma startswith_drop_app (p s t : str) (i : nat) :
  (i + length p ≤ length s)%nat →
  startswith p (drop i (s ++ t)) = startswith p (drop i s).
Proof.
  intros Hlen. rewrite drop_app_le by lia.
  apply startswith_app_long. rewrite length_drop. lia.
Qed.

(** ** The metadata footer *)

(** Replaces the literals of the goal and of the hypotheses by their
    characters. *)
Ltac eval_lit :=
  repeat match goal with
         | |- context [lit ?s] =>
             let v := eval vm_compute in (lit s) in change (lit s) with v
         | H : context [lit ?s] |- _ =>
             let v := eval vm_compute in (lit s) in change (lit s) with v in H
         end.

(** A needle without line feed that does not stand in [s] does not stand
    across the end of [s] and a line feed either. *)
Lemma startswith_over_newline (p s rest : str) :
  Forall (λ c, c ≠ 10%N) p →
  startswith p s = false →
  startswith p (s ++ 10%N :: rest) = false.
Proof.
  intros Hp. revert s. induction Hp as [|a p Ha Hp IH]; intros s; [done|].
  destruct s as [|b s].
  - intros _. cbn [app startswith]. by rewrite (proj2 (N.eqb_neq a 10) Ha).
  - change ((b :: s) ++ 10%N :: rest) with (b :: (s ++ 10%N :: rest)).
    cbn [startswith]. destruct (a =? b)%N; [|done]. cbn [andb]. apply IH.
Qed.

Lemma absent_before_newline (p s rest : str) (j : nat) :
  p ≠ [] → Forall (λ c, c ≠ 10%N) p →
  contains p s = false →
  (j ≤ length s)%nat →
  startswith p (drop j (s ++ 10%N :: rest)) = false.
Proof.
  intros Hne Hp Habs Hj. rewrite drop_app_le by done.
  apply startswith_over_newline; [done|]. by apply contains_false.
Qed.

(** The same for a needle that begins with a line feed and has no other:
    it does not stand across the end of a text that does not hold it,
    when that text is followed by the needle's own line feed. *)
Lemma startswith_newline_needle (p s rest : str) :
  Forall (λ c, c ≠ 10%N) p →
  s ≠ [] →
  startswith (10%N :: p) s = false →
  startswith (10%N :: p) (s ++ 10%N :: rest) = false.
Proof.
  intros Hp Hs. destruct s as [|b s]; [done|].
  change ((b :: s) ++ 10%N :: rest) with (b :: (s ++ 10%N :: rest)).
  cbn [startswith]. destruct (10 =? b)%N; [|done].
  cbn [andb]. by apply startswith_over_newline.
Qed.

Lemma metadata_tail_short (s r : str) :
  metadata_tail s = Some r →
  (length s ≤ 5)%nat ∧ startswith (lit "-->") s = true.
Proof.
  unfold metadata_tail. destruct (startswith (lit "-->") s) eqn:E; [|done].
  intros Hm. split; [|done].
  assert (length (drop 3 s) ≤ 2)%nat as Hlen.
  { destruct (drop 3 s) as [|a [|b [|c t]]]; [simpl; lia..|].
    exfalso. repeat case_match; discriminate. }
  rewrite length_drop in Hlen. lia.
Qed.

Lemma find_metadata_tail_end (x : str) :
  find_metadata_tail (x ++ lit "-->" ++ lit newline) = Some [].
Proof.
  induction x as [|c x IH]; [reflexivity|].
  change ((c :: x) ++ lit "-->" ++ lit newline)
    with (c :: (x ++ lit "-->" ++ lit newline)).
  cbn [find_metadata_tail].
  destruct (metadata_tail (c :: x ++ lit "-->" ++ lit newline)) as [r|] eqn:E;
    [|exact IH].
  exfalso. apply metadata_tail_short in E as [Hlen Hstart].
  cbn [length] in Hlen. rewrite !length_app in Hlen.
  change (length (lit "-->")) with 3%nat in Hlen.
  change (length (lit newline)) with 1%nat in Hlen.
  destruct x as [|? ?]; [|simpl in Hlen; lia].
  eval_lit. cbn in Hstart. by rewrite andb_false_r in Hstart.
Qed.

Section FooterProperties.

Context `{Libraries}.

Lemma strip_metadata_full_content_eq (markdown_content metadata_json : str) :
  contains (lit "<!-- WORD_CONVERSION_METADATA") markdown_content = false →
  _strip_metadata (full_content markdown_content metadata_json) = markdown_content.
Proof.
  intros Habs. unfold _strip_metadata, full_content, metadata_footer.
  set (marker := lit "<!-- WORD_CONVERSION_METADATA").
  set (opener := lit newline ++ lit newline ++ marker).
  set (rest := lit newline ++ metadata_json ++ lit newline ++ lit "-->" ++ lit newline).
  assert (markdown_content ++ lit newline ++ lit newline ++ marker ++ rest
          = markdown_content ++ opener ++ rest) as ->.
  { unfold opener. by rewrite <- !app_assoc. }
  assert (find opener (markdown_content ++ opener ++ rest) 0
          = Z.of_nat (length markdown_content)) as ->.
  { unfold find. cbn [Nat.ltb Nat.leb]. rewrite drop_0.
    rewrite (find_from_first _ _ 0 (length markdown_content)); [done| |].
    - rewrite drop_app_length. apply startswith_self_app.
    - intros j Hj. unfold opener.
      change (lit newline ++ lit newline ++ marker) with ((lit newline ++ lit newline) ++ marker).
      rewrite startswith_split. apply andb_false_iff. right.
      change (length (lit newline ++ lit newline)) with 2%nat. rewrite drop_drop.
      change ((lit newline ++ lit newline) ++ marker) with (10%N :: 10%N :: marker).
      destruct (decide (j + 2 ≤ length markdown_content)%nat).
      + apply absent_before_newline; [done|by vm_compute; repeat constructor|done|done].
      + assert (j + 2 = S (length markdown_content))%nat as -> by lia.
        change (markdown_content ++ (10%N :: 10%N :: marker) ++ rest)
          with (markdown_content ++ [10%N] ++ (10%N :: marker ++ rest)).
        rewrite app_assoc, drop_app_length'; [done|].
        rewrite length_app. simpl. lia. }
  destruct (Z.eqb_spec (Z.of_nat (length markdown_content)) (-1)); [lia|].
  rewrite Nat2Z.id, <- length_app, app_assoc, drop_app_length.
  unfold rest.
  assert (lit newline ++ metadata_json ++ lit newline ++ lit "-->" ++ lit newline
          = (lit newline ++ metadata_json ++ lit newline) ++ lit "-->" ++ lit newline)
    as -> by by rewrite <- !app_assoc.
  rewrite find_metadata_tail_end.
  rewrite <- app_assoc, take_app_length. apply app_nil_r.
Qed.


(** X7. Stripping the footer that [convert_docx_to_md] appends gives back
    the Markdown it was appended to, whatever the JSON payload is, as long
    as the Markdown does not itself hold the opening marker. *)
Theorem strip_metadata_full_content (markdown_content metadata_json : str) :
  contains (lit "<!-- WORD_CONVERSION_METADATA") markdown_content = false →
  _strip_metadata (full_content markdown_content metadata_json) = markdown_content.
Proof. apply strip_metadata_full_content_eq. Qed.

End FooterProperties.

Section FooterReading.

Context `{Libraries}.




End FooterReading.

Section FooterPipeline.

Context `{Hashlib} `{Libraries}.




End FooterPipeline.

(** ** Stripping white space *)

Lemma lstrip_nil_iff (s : str) : lstrip s = [] ↔ forallb isspace s = true.
Proof.
  induction s as [|c s IH]; simpl; [done|].
  destruct (isspace c); simpl; [done|]. split; discriminate.
Qed.

Lemma lstrip_app (x y : str) :
  lstrip (x ++ y) = if forallb isspace x then lstrip y else lstrip x ++ y.
Proof.
  induction x as [|c x IH]; simpl; [done|].
  destruct (isspace c); simpl; [done|done].
Qed.

Lemma lstrip_nonspace (c : char) (s : str) :
  isspace c = false → lstrip (c :: s) = c :: s.
Proof. intros E. simpl. by rewrite E. Qed.

Lemma forallb_rev {A} (f : A → bool) (l : list A) :
  forallb f (rev l) = forallb f l.
Proof.
  induction l as [|a l IH]; simpl; [done|].
  rewrite forallb_app, IH. simpl. rewrite andb_true_r. apply andb_comm.
Qed.

Lemma rstrip_nil_iff (s : str) : rstrip s = [] ↔ forallb isspace s = true.
Proof.
  unfold rstrip. rewrite <- (forallb_rev isspace s), <- lstrip_nil_iff.
  split; [|by intros ->]. intros E%(f_equal (@rev N)).
  by rewrite rev_involutive in E.
Qed.

Lemma rstrip_app (a b : str) :
  rstrip (a ++ b) = if forallb isspace b then rstrip a else a ++ rstrip b.
Proof.
  unfold rstrip. rewrite rev_app_distr, lstrip_app, forallb_rev.
  destruct (forallb isspace b); [done|].
  by rewrite rev_app_distr, rev_involutive.
Qed.

Lemma rstrip_cons (c : char) (s : str) :
  rstrip (c :: s) =
    if forallb isspace s then (if isspace c then [] else [c]) else c :: rstrip s.
Proof.
  change (c :: s) with ([c] ++ s). rewrite rstrip_app.
  destruct (forallb isspace s); [|done].
  unfold rstrip. simpl. by destruct (isspace c).
Qed.

Lemma forallb_lstrip (s : str) :
  forallb isspace s = false → forallb isspace (lstrip s) = false.
Proof.
  induction s as [|c s IH]; simpl; [done|].
  destruct (isspace c) eqn:E; simpl; [done|]. by rewrite E.
Qed.

Lemma lstrip_idem (s : str) : lstrip (lstrip s) = lstrip s.
Proof.
  induction s as [|c s IH]; simpl; [done|].
  destruct (isspace c) eqn:E; [done|]. simpl. by rewrite E.
Qed.

Lemma rstrip_idem (s : str) : rstrip (rstrip s) = rstrip s.
Proof. unfold rstrip. by rewrite rev_involutive, lstrip_idem. Qed.

Lemma lstrip_rstrip (s : str) : lstrip (rstrip s) = rstrip (lstrip s).
Proof.
  induction s as [|c s IH]; [done|].
  rewrite rstrip_cons. cbn [lstrip].
  destruct (isspace c) eqn:Ec.
  - destruct (forallb isspace s) eqn:Es.
    + symmetry. apply rstrip_nil_iff.
      apply lstrip_nil_iff in Es as Hl. by rewrite Hl.
    + cbn [lstrip]. by rewrite Ec.
  - rewrite rstrip_cons.
    destruct (forallb isspace s); cbn [lstrip]; by rewrite Ec.
Qed.

Lemma strip_idem (s : str) : strip (strip s) = strip s.
Proof.
  unfold strip. by rewrite lstrip_rstrip, lstrip_idem, rstrip_idem.
Qed.

Lemma strip_rstrip (s : str) : strip (rstrip s) = strip s.
Proof. unfold strip. by rewrite lstrip_rstrip, rstrip_idem. Qed.

Lemma strip_fixed_nonspace (c : char) (s : str) :
  isspace c = false → strip (c :: s) = c :: rstrip s ∨ (strip (c :: s) = [c] ∧ forallb isspace s = true).
Proof.
  intros E. unfold strip. rewrite lstrip_nonspace by done. rewrite rstrip_cons, E.
  destruct (forallb isspace s) eqn:Es; [right|left]; [|done].
  done.
Qed.

(** A text that begins with a character that is no white space keeps its
    beginning when stripped on the right. *)
Lemma rstrip_keeps_head (a b : str) :
  rstrip a = a → rstrip (a ++ b) = a ++ rstrip b.
Proof.
  intros Ha. rewrite rstrip_app. destruct (forallb isspace b) eqn:Eb; [|done].
  apply rstrip_nil_iff in Eb. by rewrite Eb, app_nil_r.
Qed.

Lemma rstrip_replicate_nonspace (c : char) (n : nat) :
  isspace c = false → rstrip (replicate n c) = replicate n c.
Proof.
  intros E. induction n as [|n IH]; [done|].
  cbn [replicate]. rewrite rstrip_cons, IH, E.
  destruct (forallb isspace (replicate n c)) eqn:Es; [|done].
  destruct n; [done|]. simpl in Es. by rewrite E in Es.
Qed.

(** ** The builder, step by step *)

Section BuilderSteps.

Context `{Libraries}.
Variable config : ConversionConfig.t.

Lemma body_add_block (b : Block) (d : Document.t) :
  Document.body (add_block b d) = Document.body d ++ [b].
Proof. reflexivity. Qed.

Lemma add_markdown_table_appends (d : Document.t) (table_lines : list str) :
  ∃ added, Document.body (_add_markdown_table config d table_lines)
             = Document.body d ++ added
           ∧ (length added ≤ 1)%nat ∧ Forall no_border added.
Proof.
  unfold _add_markdown_table. destruct (table_rows table_lines).
  - exists []. rewrite app_nil_r. repeat split; [simpl; lia | constructor].
  - eexists [_]. split; [reflexivity|]. split; [simpl; lia|]. by repeat constructor.
Qed.

Lemma appends_one (d d' : Document.t) (b : Block) :
  Document.body d' = Document.body d ++ [b] → no_border b →
  ∃ added, Document.body d' = Document.body d ++ added
           ∧ (length added ≤ 1)%nat ∧ Forall no_border added.
Proof.
  intros Hbody Hb. exists [b]. split; [done|]. split; [simpl; lia|].
  by constructor.
Qed.

Lemma appends_none (d : Document.t) :
  ∃ added, Document.body d = Document.body d ++ added
           ∧ (length added ≤ 1)%nat ∧ Forall no_border added.
Proof.
  exists []. rewrite app_nil_r. split; [done|]. split; [simpl; lia|].
  constructor.
Qed.

Lemma add_code_block_appends (d : Document.t) (code_content : str) :
  ∃ b, Document.body (_add_code_block config d code_content)
         = Document.body d ++ [b] ∧ no_border b.
Proof.
  unfold _add_code_block.
  destruct (Paragraph.runs (new_paragraph code_content (lit "Normal")));
    rewrite body_add_block; (eexists; split; [reflexivity|]); by repeat split.
Qed.

(** One step of the loop leaves the list of lines alone and adds at most
    one block, never a bordered paragraph. *)
Lemma build_step_appends (line_num local : nat) (st st' : build_state) :
  build_step config line_num st = Ret (st', local) →
  lines st' = lines st
  ∧ ∃ added, Document.body (doc st') = Document.body (doc st) ++ added
             ∧ (length added ≤ 1)%nat ∧ Forall no_border added.
Proof.
  unfold build_step. set (line := rstrip (line_at (lines st) line_num)).
  destruct (startswith (lit "```") line).
  { destruct (in_code_block st); intros [= <- <-]; (split; [done|]);
      [|apply appends_none].
    cbn [doc].
    destruct (add_code_block_appends (doc st)
                (join (lit newline) (code_block_content st))) as (b & Hb & Hn).
    by eapply appends_one. }
  destruct (in_code_block st).
  { intros [= <- <-]. split; [done|]. apply appends_none. }
  destruct (str_eqb (strip line) []).
  { intros [= <- <-]. split; [done|].
    eapply appends_one; [apply body_add_block|]. by repeat split. }
  destruct (_is_horizontal_rule line) eqn:Hrule.
  { intros [= <- <-]. split; [done|].
    eapply appends_one; [apply body_add_block|]. by repeat split. }
  destruct (_is_header_box_divider line (lines st) line_num) eqn:Hbox.
  { apply header_box_divider_is_rule in Hbox. congruence. }
  cbv zeta beta iota.
  destruct (startswith (lit "#") line).
  { destruct (ConversionConfig.use_builtin_styles config).
    - unfold add_heading. destruct (9 <? _)%nat; [done|].
      intros [= <- <-]. split; [done|].
      eapply appends_one; [apply body_add_block|]. by repeat split.
    - intros [= <- <-]. split; [done|].
      eapply appends_one; [apply body_add_block|]. by repeat split. }
  destruct (existsb _ _).
  { intros [= <- <-]. split; [done|].
    eapply appends_one; [apply body_add_block|]. by repeat split. }
  destruct (bool_decide _).
  { intros [= <- <-]. split; [done|].
    eapply appends_one; [apply body_add_block|]. by repeat split. }
  destruct (is_table_line line).
  { destruct (2 <=? _)%nat; intros [= <- <-]; (split; [done|]);
      [|apply appends_none].
    apply add_markdown_table_appends. }
  destruct (startswith (lit ">") (strip line)).
  { intros [= <- <-]. split; [done|].
    eapply appends_one; [apply body_add_block|]. by repeat split. }
  intros [= <- <-]. split; [done|].
  eapply appends_one; [apply body_add_block|]. by repeat split.
Qed.



Lemma build_loop_appends (n line_num : nat) (st st' : build_state) :
  build_loop config n line_num st = Ret st' →
  lines st' = lines st
  ∧ ∃ added, Document.body (doc st') = Document.body (doc st) ++ added
             ∧ (length added ≤ n)%nat ∧ Forall no_border added.
Proof.
  revert line_num st. induction n as [|n IH]; intros line_num st; simpl.
  - intros [= <-]. split; [done|]. exists []. rewrite app_nil_r.
    split; [done|]. split; [done|]. constructor.
  - destruct (build_step config line_num st) as [[st1 local]|e|] eqn:Hstep;
      cbn; [|done|done].
    intros Hloop. apply build_step_appends in Hstep as (Hl1 & a1 & Hb1 & Hn1 & Hf1).
    apply IH in Hloop as (Hl2 & a2 & Hb2 & Hn2 & Hf2).
    split; [congruence|]. exists (a1 ++ a2).
    rewrite Hb2, Hb1, <- app_assoc. split; [done|].
    rewrite length_app. split; [lia|]. by apply Forall_app.
Qed.

End BuilderSteps.

(** ** Headings *)

Lemma lstrip_char_replicate (c : char) (n : nat) (s : str) :
  lstrip_char c (replicate n c ++ s) = lstrip_char c s.
Proof. induction n as [|n IH]; simpl; [done|]. by rewrite N.eqb_refl. Qed.

Lemma lstrip_char_head (c : char) (s : str) :
  head s ≠ Some c → lstrip_char c s = s.
Proof.
  destruct s as [|a s]; [done|]. simpl. intros Hne.
  destruct (N.eqb_spec a c); [by subst|done].
Qed.

Lemma head_rstrip (s : str) (c : char) :
  head (rstrip s) = Some c → head s = Some c.
Proof.
  destruct s as [|a s]; [done|]. rewrite rstrip_cons.
  repeat case_match; simpl; congruence.
Qed.

Lemma rstrip_nonspace_cons (c : char) (s : str) :
  isspace c = false → ∃ t, rstrip (c :: s) = c :: t.
Proof. intros E. rewrite rstrip_cons, E. case_match; by eexists. Qed.

Lemma strip_rstrip_nonspace (c : char) (s : str) :
  isspace c = false → strip (rstrip (c :: s)) = rstrip (c :: s).
Proof. intros E. rewrite strip_rstrip. unfold strip. simpl. by rewrite E. Qed.

Lemma hash_line_not_rule (t : str) :
  strip (35%N :: t) = 35%N :: t → _is_horizontal_rule (35%N :: t) = false.
Proof.
  unfold _is_horizontal_rule. intros ->. eval_lit.
  rewrite !(proj2 (str_eqb_neq _ _)) by discriminate. cbn [orb].
  by destruct (10 <=? _)%nat.
Qed.

Section Headings.

Context `{Libraries}.
Variable config : ConversionConfig.t.

Lemma build_step_heading_line (line_num n : nat) (text : str) (st : build_state) :
  in_code_block st = false →
  ConversionConfig.use_builtin_styles config = true →
  (0 < n)%nat →
  head text ≠ Some 35%N →
  lines st !! line_num = Some (replicate n 35%N ++ text) →
  build_step config line_num st =
    if (9 <? n)%nat then Raise (ValueError (lit "level must be in range 0-9"))
    else Ret (with_doc
                (add_block
                   (BParagraph
                      (new_paragraph (strip text) (lit "Heading " ++ str_of_nat n)))
                   (doc st))
                st, line_num).
Proof.
  intros Hcode Hstyles Hn Htext Hline.
  unfold build_step, line_at. rewrite Hline, Hcode, Hstyles.
  cbn [default from_option id].
  destruct n as [|n]; [lia|]. cbn [replicate app].
  assert (isspace 35 = false) as Hsp by done.
  pose proof (strip_rstrip_nonspace 35 (replicate n 35%N ++ text) Hsp) as Hstrip.
  assert (rstrip (35%N :: replicate n 35%N ++ text)
          = replicate (S n) 35%N ++ rstrip text) as Hrs.
  { change (35%N :: replicate n 35%N ++ text) with (replicate (S n) 35%N ++ text).
    apply rstrip_keeps_head. by apply rstrip_replicate_nonspace. }
  destruct (rstrip_nonspace_cons 35 (replicate n 35%N ++ text) Hsp) as [t Ht].
  rewrite Ht in Hstrip |- *. rewrite Hstrip.
  change (startswith (lit "```") (35%N :: t)) with false.
  rewrite (proj2 (str_eqb_neq (35%N :: t) [])) by done.
  rewrite (hash_line_not_rule t Hstrip).
  destruct (_is_header_box_divider (35%N :: t) (lines st) line_num) eqn:Hbox.
  { apply header_box_divider_is_rule in Hbox.
    by rewrite (hash_line_not_rule t Hstrip) in Hbox. }
  cbv zeta beta iota.
  change (startswith (lit "#") (35%N :: t)) with true. cbv iota.
  rewrite <- Ht, Hrs, lstrip_char_replicate.
  rewrite lstrip_char_head by (intros Hh; by apply head_rstrip in Hh).
  rewrite strip_rstrip, length_app, Nat.add_sub.
  rewrite length_replicate. unfold add_heading.
  by destruct (9 <? S n)%nat.
Qed.

(** X10.  Outside a code block, a line made of [n] number signs followed by
    a text that does not start with one is a heading of level [n]: with the
    built-in styles it becomes a paragraph of style "Heading n" holding the
    stripped text when [n] is at most 9, and a [ValueError] that ends the
    build when [n] is 10 or more. *)
Theorem build_step_heading (line_num n : nat) (text : str) (st : build_state) :
  in_code_block st = false →
  ConversionConfig.use_builtin_styles config = true →
  (0 < n)%nat →
  head text ≠ Some 35%N →
  lines st !! line_num = Some (replicate n 35%N ++ text) →
  build_step config line_num st =
    if (9 <? n)%nat then Raise (ValueError (lit "level must be in range 0-9"))
    else Ret (with_doc
                (add_block
                   (BParagraph
                      (new_paragraph (strip text) (lit "Heading " ++ str_of_nat n)))
                   (doc st))
                st, line_num).
Proof. apply build_step_heading_line. Qed.

End Headings.

(** ** Code fences *)

Section CodeFences.

Context `{Libraries}.
Variable config : ConversionConfig.t.

(** Inside a code block a line that is not a fence is only collected. *)
Lemma build_step_collects (line_num : nat) (st : build_state) :
  in_code_block st = true →
  startswith (lit "```") (rstrip (line_at (lines st) line_num)) = false →
  build_step config line_num st =
    Ret (BuildState (doc st) (lines st) (current_list_type st) true
           (code_block_content st ++ [rstrip (line_at (lines st) line_num)]),
         line_num).
Proof. intros Hcode Hfence. unfold build_step. by rewrite Hfence, Hcode. Qed.

Lemma build_loop_collects (n line_num : nat) (st : build_state) :
  in_code_block st = true →
  (∀ j, (line_num ≤ j < line_num + n)%nat →
        startswith (lit "```") (rstrip (line_at (lines st) j)) = false) →
  ∃ st', build_loop config n line_num st = Ret st' ∧ doc st' = doc st
         ∧ in_code_block st' = true.
Proof.
  revert line_num st. induction n as [|n IH]; intros line_num st Hcode Hfences.
  - by exists st.
  - cbn [build_loop]. rewrite build_step_collects by (try apply Hfences; done || lia).
    cbn. 
    destruct (IH (S line_num)
                (BuildState (doc st) (lines st) (current_list_type st) true
                   (code_block_content st ++ [rstrip (line_at (lines st) line_num)])))
      as (st' & Hloop & Hdoc & Hin); [done| |by exists st'].
    intros j Hj. cbn [lines]. apply Hfences. lia.
Qed.

(** X11.  A code fence that is never closed swallows the rest of the text:
    when the first line opens a fence and no later line starts with three
    backquotes, the document is returned as it was given, without the fence
    and without any of the lines after it. *)
Theorem build_document_unclosed_fence (d : Document.t) (content : str)
    (metadata : FormatMetadata.t) (first : str) (rest : list str) :
  split_char 10 content = first :: rest →
  startswith (lit "```") (rstrip first) = true →
  Forall (λ line, startswith (lit "```") (rstrip line) = false) rest →
  _build_document config d content metadata = Ret d.
Proof.
  intros Hsplit Hfirst Hrest. unfold _build_document. rewrite Hsplit.
  cbn [length build_loop]. unfold build_step at 1.
  cbn [lines in_code_block line_at lookup list_lookup default from_option id].
  rewrite Hfirst. cbn [mbind outcome_bind doc current_list_type code_block_content].
  destruct (build_loop_collects (length rest) 1
              (BuildState d (first :: rest) None true [])) as (st' & -> & Hdoc & _);
    [done| |by cbn; rewrite Hdoc].
  intros j Hj. cbn [lines]. destruct j as [|j]; [lia|].
  unfold line_at. cbn [lookup list_lookup].
  destruct (rest !! j) as [line|] eqn:Hj'.
  - rewrite Forall_lookup in Hrest. by apply (Hrest j).
  - done.
Qed.

End CodeFences.

(** ** The whole build *)

Section WholeBuild.

Context `{Libraries}.
Variable config : ConversionConfig.t.


(** X13.  Building only appends: the blocks the document had come first and
    unchanged, at most one block is added for each line of the text, and no
    added paragraph carries a border (so no header box is ever built). *)
Theorem build_document_appends (d d' : Document.t) (content : str)
    (metadata : FormatMetadata.t) :
  _build_document config d content metadata = Ret d' →
  ∃ added, Document.body d' = Document.body d ++ added
           ∧ (length added ≤ length (split_char 10 content))%nat
           ∧ Forall no_border added.
Proof.
  unfold _build_document.
  destruct (build_loop config _ 0 _) as [st'| |] eqn:Hloop; [|done..].
  intros [= <-]. by apply build_loop_appends in Hloop as [_ Hadded].
Qed.

End WholeBuild.

(** ** Lines of a list *)

Lemma lstrip_decompose (s : str) :
  ∃ ws, s = ws ++ lstrip s ∧ forallb isspace ws = true.
Proof.
  induction s as [|c s (ws & Hs & Hws)]; [by exists []|].
  simpl. destruct (isspace c) eqn:Ec.
  - exists (c :: ws). simpl. rewrite Ec, Hws. split; [by f_equal|done].
  - by exists [].
Qed.

(** A line with text is its leading white space followed by the stripped
    line, once the trailing white space is gone. *)
Lemma rstrip_decompose (s : str) :
  strip s ≠ [] → ∃ ws, rstrip s = ws ++ strip s ∧ forallb isspace ws = true.
Proof.
  intros Hne. destruct (lstrip_decompose s) as (ws & Hs & Hws).
  exists ws. split; [|done]. rewrite Hs at 1. rewrite rstrip_app.
  destruct (forallb isspace (lstrip s)) eqn:Eb; [|done].
  apply rstrip_nil_iff in Eb. by destruct Hne.
Qed.

Lemma startswith_after_space (x : char) (p ws : str) (c : char) (t : str) :
  isspace x = false → x ≠ c → forallb isspace ws = true →
  startswith (x :: p) (ws ++ c :: t) = false.
Proof.
  intros Hx Hc Hws. destruct ws as [|w ws]; simpl.
  - by rewrite (proj2 (N.eqb_neq x c)).
  - simpl in Hws. apply andb_true_iff in Hws as [Hw _].
    rewrite (proj2 (N.eqb_neq x w)); [done|]. intros ->. congruence.
Qed.

Lemma is_horizontal_rule_rstrip (line : str) :
  _is_horizontal_rule (rstrip line) = _is_horizontal_rule line.
Proof. unfold _is_horizontal_rule. by rewrite strip_rstrip. Qed.

Section Lists.

Context `{Libraries}.
Variable config : ConversionConfig.t.

Lemma build_step_bullet_line (line_num : nat) (line : str) (c : char) (t : str)
    (st : build_state) :
  in_code_block st = false →
  lines st !! line_num = Some line →
  strip line = c :: t →
  c ∈ [45%N; 42%N; 43%N] →
  _is_horizontal_rule line = false →
  build_step config line_num st =
    Ret (with_list_type (Some (lit "bullet"))
           (with_doc
              (add_block (BParagraph (new_paragraph (strip t) (lit "List Bullet")))
                 (doc st))
              st), line_num).
Proof.
  intros Hcode Hline Hstrip Hc Hrule.
  unfold build_step, line_at. rewrite Hline, Hcode.
  cbn [default from_option id].
  destruct (rstrip_decompose line) as (ws & Hrs & Hws); [by rewrite Hstrip|].
  rewrite Hstrip in Hrs.
  assert (c ≠ 96%N ∧ c ≠ 35%N) as [Hquote Hhash].
  { set_unfold in Hc. destruct Hc as [->|[->|[->|[]]]]; by split. }
  rewrite is_horizontal_rule_rstrip, Hrule, strip_rstrip, Hstrip.
  rewrite (proj2 (str_eqb_neq (c :: t) [])) by done.
  rewrite Hrs. eval_lit.
  rewrite !startswith_after_space by done.
  rewrite <- Hrs.
  destruct (_is_header_box_divider (rstrip line) (lines st) line_num) eqn:Hbox.
  { apply header_box_divider_is_rule in Hbox.
    by rewrite is_horizontal_rule_rstrip, Hrule in Hbox. }
  cbv zeta beta iota.
  assert (existsb (λ marker, startswith marker (c :: t))
            [[45%N]; [42%N]; [43%N]] = true) as ->.
  { set_unfold in Hc. destruct Hc as [->|[->|[->|[]]]]; done. }
  done.
Qed.

(** X14.  Outside a code block, every line whose first character after the
    leading white space is a hyphen, an asterisk or a plus sign, and which is
    not a horizontal rule, becomes a paragraph of style "List Bullet".  Its
    text is the rest of the line, stripped and taken as it stands: no inline
    formatting is applied to it, and a line that starts with an emphasis
    marker is read as a list item. *)
Theorem build_step_bullet (line_num : nat) (line : str) (c : char) (t : str)
    (st : build_state) :
  in_code_block st = false →
  lines st !! line_num = Some line →
  strip line = c :: t →
  c ∈ [45%N; 42%N; 43%N] →
  _is_horizontal_rule line = false →
  build_step config line_num st =
    Ret (with_list_type (Some (lit "bullet"))
           (with_doc
              (add_block (BParagraph (new_paragraph (strip t) (lit "List Bullet")))
                 (doc st))
              st), line_num).
Proof. apply build_step_bullet_line. Qed.

End Lists.

(** ** Inline formatting *)

Lemma inline_match_at_plain (c : char) (s : str) :
  opens_markup c = false → inline_match_at (c :: s) = None.
Proof.
  unfold opens_markup. intros Hc.
  apply orb_false_elim in Hc as [Hc Hbr]. apply orb_false_elim in Hc as [Hst Hbq].
  unfold inline_match_at. eval_lit. cbn [startswith].
  rewrite (N.eqb_sym 42), (N.eqb_sym 96), (N.eqb_sym 91), Hst, Hbq, Hbr.
  reflexivity.
Qed.

(** No match starts within a stretch of plain text. *)
Lemma finditer_plain_prefix (pre s : str) (pos : nat) :
  plain_text pre = true →
  finditer (pre ++ s) pos 0 = finditer s (pos + length pre) 0.
Proof.
  revert pos. induction pre as [|c pre IH]; intros pos Hplain.
  - simpl. by rewrite Nat.add_0_r.
  - simpl in Hplain. apply andb_true_iff in Hplain as [Hc Hpre].
    apply negb_true_iff in Hc.
    cbn [app finditer]. rewrite inline_match_at_plain by done.
    rewrite IH by done. f_equal. simpl. lia.
Qed.

Lemma finditer_plain (s : str) (pos : nat) :
  plain_text s = true → finditer s pos 0 = [].
Proof.
  intros Hplain. rewrite <- (app_nil_r s), finditer_plain_prefix by done.
  reflexivity.
Qed.

(** The characters of a match are passed over. *)
Lemma finditer_skip (a b : str) (pos : nat) :
  finditer (a ++ b) pos (length a) = finditer b (pos + length a) 0.
Proof.
  revert pos. induction a as [|c a IH]; intros pos.
  - simpl. by rewrite Nat.add_0_r.
  - cbn [app length finditer]. rewrite IH. f_equal. lia.
Qed.

(** The lazy group stops at the first closing marker: a text free of the
    marker's first character is the group. *)
Lemma lazy_group_exact (x : char) (close t post : str) :
  t ≠ [] →
  contains_char 10 t = false →
  contains_char x t = false →
  lazy_group (x :: close) (t ++ (x :: close) ++ post) = Some (t, post).
Proof.
  induction t as [|c t IH]; [done|]. intros _ Hnl Hx.
  unfold contains_char in *. cbn [existsb] in Hnl, Hx.
  apply orb_false_elim in Hnl as [Hc Hnl]. apply orb_false_elim in Hx as [Hcx Hx].
  rewrite <- app_comm_cons. cbn [lazy_group]. rewrite (N.eqb_sym c 10), Hc.
  destruct t as [|c' t].
  - rewrite app_nil_l, (startswith_self_app (x :: close) post).
    by rewrite drop_app_length.
  - pose proof Hx as Hx'. cbn [existsb] in Hx'.
    apply orb_false_elim in Hx' as [Hc'x _].
    assert (∀ r, startswith (x :: close) ((c' :: t) ++ r) = false) as ->.
    { intros r. simpl. by rewrite Hc'x. }
    by rewrite IH.
Qed.

Section InlineFormatting.

Context `{Libraries}.
Variable config : ConversionConfig.t.

(** X15.  A text without asterisk, backquote and opening bracket is taken
    over as it stands: the paragraph gets one run with the whole text and no
    formatting, and no run at all when the text is empty. *)
Theorem apply_inline_formatting_plain (paragraph : Paragraph.t) (text : str) :
  plain_text text = true →
  Paragraph.runs (_apply_inline_formatting config paragraph text)
    = Paragraph.runs paragraph ++ text_run text.
Proof.
  intros Hplain. unfold _apply_inline_formatting. cbn [Paragraph.runs].
  rewrite finditer_plain by done. cbn [inline_runs].
  destruct text as [|c text]; reflexivity.
Qed.

End InlineFormatting.

Lemma startswith_cons (a b : char) (p s : str) :
  startswith (a :: p) (b :: s) = (a =? b)%N && startswith p s.
Proof. reflexivity. Qed.

Lemma startswith_absent_head (x : char) (p t r : str) :
  t ≠ [] → contains_char x t = false → startswith (x :: p) (t ++ r) = false.
Proof.
  destruct t as [|c t]; [done|]. intros _ Hx. unfold contains_char in Hx.
  cbn [existsb] in Hx. apply orb_false_elim in Hx as [Hx _].
  rewrite <- app_comm_cons, startswith_cons. by rewrite Hx.
Qed.

Lemma whole_match (M post : str) :
  take (length (M ++ post) - length post) (M ++ post) = M.
Proof.
  rewrite length_app, Nat.add_sub. by rewrite take_app_length.
Qed.

Lemma inline_match_at_emphasis (k : nat) (t post : str) :
  (1 ≤ k ≤ 3)%nat → t ≠ [] →
  contains_char 10 t = false → contains_char 42 t = false →
  inline_match_at (replicate k 42%N ++ t ++ replicate k 42%N ++ post) =
    Some (InlineMatch (replicate k 42%N ++ t ++ replicate k 42%N)
            (if (k =? 3)%nat then Some t else None)
            (if (k =? 2)%nat then Some t else None)
            (if (k =? 1)%nat then Some t else None) None None).
Proof.
  intros Hk Ht Hnl Hstar.
  pose proof (lazy_group_exact 42 [] t post Ht Hnl Hstar) as H1.
  pose proof (lazy_group_exact 42 [42%N] t post Ht Hnl Hstar) as H2.
  pose proof (lazy_group_exact 42 [42%N; 42%N] t post Ht Hnl Hstar) as H3.
  pose proof (whole_match (replicate k 42%N ++ t ++ replicate k 42%N) post) as Hw.
  cbn [app] in H1, H2, H3.
  destruct k as [|[|[|[|k]]]]; [lia| | | |lia];
    cbn [replicate Nat.eqb app] in Hw |- *;
    rewrite <- app_assoc in Hw; cbn [app] in Hw;
    unfold inline_match_at; cbv zeta beta; eval_lit;
    rewrite !startswith_cons, ?N.eqb_refl;
    rewrite ?startswith_absent_head by done; cbn [andb startswith skipn]; rewrite ?drop_0.
  - by rewrite H1, Hw.
  - by rewrite H2, Hw.
  - by rewrite H3, Hw.
Qed.

Lemma endswith_app (p a : str) : endswith p (a ++ p) = true.
Proof. unfold endswith. rewrite rev_app_distr. apply startswith_self_app. Qed.

Lemma finditer_match (s post : str) (m : inline_match) (pos : nat) :
  s ≠ [] → inline_match_at (s ++ post) = Some m → group1 m = s →
  plain_text post = true →
  finditer (s ++ post) pos 0 = [(pos, (pos + length s)%nat, m)].
Proof.
  intros Hs Hm Hg Hpost. destruct s as [|c s]; [done|].
  rewrite <- app_comm_cons in Hm |- *. cbn [finditer]. rewrite Hm, Hg.
  cbn [length]. rewrite Nat.sub_succ, Nat.sub_0_r, finditer_skip.
  by rewrite finditer_plain.
Qed.

Lemma text_run_take (pre rest : str) :
  (if (0 <? length pre)%nat
   then [Run.plain (take (length pre - 0) (drop 0 (pre ++ rest)))] else [])
  = text_run pre.
Proof.
  destruct pre as [|c pre]; [done|].
  cbn [length Nat.ltb Nat.leb]. rewrite Nat.sub_0_r, drop_0.
  change (S (length pre)) with (length (c :: pre)). by rewrite take_app_length.
Qed.

Lemma text_run_drop (a post : str) :
  (if (length a <? length (a ++ post))%nat
   then [Run.plain (drop (length a) (a ++ post))] else [])
  = text_run post.
Proof.
  rewrite drop_app_length, length_app. destruct post as [|c post].
  - simpl. rewrite Nat.add_0_r, Nat.ltb_irrefl. done.
  - rewrite (proj2 (Nat.ltb_lt _ _)); [done|]. simpl. lia.
Qed.

Section InlineEmphasis.

Context `{Libraries}.
Variable config : ConversionConfig.t.

Lemma inline_run_emphasis (k : nat) (t : str) :
  (1 ≤ k ≤ 3)%nat → t ≠ [] → contains_char 42 t = false →
  inline_run config
    (InlineMatch (replicate k 42%N ++ t ++ replicate k 42%N)
       (if (k =? 3)%nat then Some t else None)
       (if (k =? 2)%nat then Some t else None)
       (if (k =? 1)%nat then Some t else None) None None)
  = Some (set_run_flags (if (2 <=? k)%nat then Some true else None)
            (if Nat.odd k then Some true else None) None (Run.plain t)).
Proof.
  intros Hk Ht Hstar. unfold inline_run. cbn [group1 group2 group3 group4].
  eval_lit.
  destruct k as [|[|[|[|k]]]]; [lia| | | |lia];
    cbn [replicate Nat.eqb Nat.leb Nat.odd Nat.even negb].
  - rewrite (app_assoc [42%N] t), (endswith_app [42%N]), <- (app_assoc _ t).
    cbn [app]. rewrite !startswith_cons, N.eqb_refl.
    rewrite !startswith_absent_head by done. by cbn [andb startswith].
  - rewrite (app_assoc [42%N; 42%N] t), (endswith_app [42%N; 42%N]),
      <- (app_assoc _ t).
    cbn [app]. rewrite !startswith_cons, N.eqb_refl.
    rewrite !startswith_absent_head by done. by cbn [andb startswith].
  - rewrite (app_assoc [42%N; 42%N; 42%N] t), (endswith_app [42%N; 42%N; 42%N]),
      <- (app_assoc _ t).
    cbn [app]. rewrite !startswith_cons, N.eqb_refl.
    by cbn [andb startswith].
Qed.

Lemma inline_runs_emphasis (k : nat) (pre t post : str) :
  (1 ≤ k ≤ 3)%nat → plain_text pre = true → plain_text post = true →
  t ≠ [] → contains_char 10 t = false → contains_char 42 t = false →
  let text := pre ++ (replicate k 42%N ++ t ++ replicate k 42%N) ++ post in
  inline_runs config text (finditer text 0 0) 0
  = text_run pre
    ++ [set_run_flags (if (2 <=? k)%nat then Some true else None)
          (if Nat.odd k then Some true else None) None (Run.plain t)]
    ++ text_run post.
Proof.
  intros Hk Hpre Hpost Ht Hnl Hstar text. unfold text.
  rewrite finditer_plain_prefix by done.
  pose proof (inline_match_at_emphasis k t post Hk Ht Hnl Hstar) as Hm.
  replace (replicate k 42%N ++ t ++ replicate k 42%N ++ post)
    with ((replicate k 42%N ++ t ++ replicate k 42%N) ++ post) in Hm
    by (by rewrite <- !app_assoc).
  erewrite finditer_match; [|by destruct k; [lia|]|exact Hm|done|done].
  cbn [inline_runs]. rewrite inline_run_emphasis by done.
  rewrite Nat.add_0_l, text_run_take. f_equal. f_equal.
  rewrite (app_assoc pre _ post), <- length_app. apply text_run_drop.
Qed.

(** X16.  What [_process_runs] writes for a bold, italic or bold and italic
    run is read back by [_apply_inline_formatting] as one run with the same
    text, bold and italic: when the run has no other formatting, its text is
    not empty and holds neither asterisk nor line feed, and the text before
    and after it on the line is plain, the paragraph gets the plain text
    before, the run, and the plain text after. *)
Theorem inline_formatting_reads_emphasis (paragraph : Paragraph.t)
    (pre post : str) (r : Run.t) :
  plain_text pre = true → plain_text post = true →
  Run.text r ≠ [] →
  contains_char 10 (Run.text r) = false →
  contains_char 42 (Run.text r) = false →
  is_on (Run.underline r) = false → is_on (Run.strike r) = false →
  is_on (Run.superscript r) = false → is_on (Run.subscript r) = false →
  is_on (Run.bold r) || is_on (Run.italic r) = true →
  Paragraph.runs
    (_apply_inline_formatting config paragraph (pre ++ run_formatting r ++ post))
  = Paragraph.runs paragraph ++ text_run pre
    ++ [set_run_flags (if is_on (Run.bold r) then Some true else None)
          (if is_on (Run.italic r) then Some true else None) None
          (Run.plain (Run.text r))]
    ++ text_run post.
Proof.
  intros Hpre Hpost Ht Hnl Hstar Hu Hs Hsup Hsub Hbi.
  unfold _apply_inline_formatting, run_formatting. cbn [Paragraph.runs].
  rewrite Hu, Hs, Hsup, Hsub. f_equal.
  destruct (is_on (Run.bold r)), (is_on (Run.italic r)); [| | |done];
    cbn [andb].
  - by apply (inline_runs_emphasis 3 pre (Run.text r) post); [lia|..].
  - by apply (inline_runs_emphasis 2 pre (Run.text r) post); [lia|..].
  - by apply (inline_runs_emphasis 1 pre (Run.text r) post); [lia|..].
Qed.

End InlineEmphasis.


(** ** Tables *)

Lemma split_char_no_sep (x : char) (l : str) :
  contains_char x l = false → split_char x l = [l].
Proof.
  unfold contains_char. induction l as [|c l IH]; [done|].
  cbn [existsb split_char]. intros Hx. apply orb_false_elim in Hx as [Hc Hl].
  rewrite (N.eqb_sym c x), Hc, IH by done. reflexivity.
Qed.

Lemma split_char_app (x : char) (l rest : str) :
  contains_char x l = false →
  split_char x (l ++ x :: rest) = l :: split_char x rest.
Proof.
  unfold contains_char. induction l as [|c l IH].
  - intros _. cbn [app split_char]. by rewrite N.eqb_refl.
  - cbn [existsb]. intros Hx. apply orb_false_elim in Hx as [Hc Hl].
    rewrite <- app_comm_cons. cbn [split_char].
    rewrite (N.eqb_sym c x), Hc, IH by done. reflexivity.
Qed.

(** Splitting what was joined gives the pieces back. *)
Lemma split_char_join (x : char) (ls : list str) :
  ls ≠ [] → Forall (λ l, contains_char x l = false) ls →
  split_char x (join [x] ls) = ls.
Proof.
  induction ls as [|l ls IH]; [done|]. intros _ Hls.
  apply Forall_cons in Hls as [Hl Hls]. destruct ls as [|l' ls].
  - by apply split_char_no_sep.
  - change (join [x] (l :: l' :: ls)) with (l ++ x :: join [x] (l' :: ls)).
    rewrite split_char_app by done. f_equal. by apply IH.
Qed.

Lemma startswith_over_sep (y : char) (p s rest : str) :
  Forall (λ c, c ≠ y) p →
  startswith p s = false →
  startswith p (s ++ y :: rest) = false.
Proof.
  intros Hp. revert s. induction Hp as [|a p Ha Hp IH]; intros s; [done|].
  destruct s as [|b s].
  - intros _. cbn [app startswith]. by rewrite (proj2 (N.eqb_neq a y) Ha).
  - rewrite <- app_comm_cons.
    cbn [startswith]. destruct (a =? b)%N; [|done]. cbn [andb]. apply IH.
Qed.

(** A needle free of a character stands in neither part of a text cut at
    that character, or it does not stand in the text. *)
Lemma contains_app_sep (y : char) (p a b : str) :
  Forall (λ c, c ≠ y) p →
  contains p a = false → contains p b = false →
  contains p (a ++ y :: b) = false.
Proof.
  intros Hp Ha Hb. apply contains_false. intros j.
  destruct (decide (j ≤ length a)%nat) as [Hj|Hj].
  - rewrite drop_app_le by done. apply startswith_over_sep; [done|].
    by apply contains_false.
  - rewrite drop_app_ge by lia.
    destruct (j - length a)%nat as [|i] eqn:Hi; [lia|].
    cbn [skipn]. by apply (proj1 (contains_false p b)).
Qed.

(** The cells of a row as they stand between the bars. *)
Lemma row_line_shape (row : list str) :
  row ≠ [] →
  lit "| " ++ join (lit " | ") row ++ lit " |"
  = 124%N :: concat ((λ c, 32%N :: c ++ [32%N; 124%N]) <$> row).
Proof.
  eval_lit. intros Hrow. cbn [app]. f_equal.
  induction row as [|c row IH]; [done|]. destruct row as [|c' row].
  - cbn [join fmap list_fmap concat]. by rewrite app_nil_r.
  - change (join [32%N; 124%N; 32%N] (c :: c' :: row))
      with (c ++ [32%N; 124%N; 32%N] ++ join [32%N; 124%N; 32%N] (c' :: row)).
    rewrite fmap_cons. cbn [concat]. rewrite <- IH by done.
    cbn [app]. rewrite <- !app_assoc. reflexivity.
Qed.

Lemma strip_padded (c : str) : strip (32%N :: c ++ [32%N]) = strip c.
Proof.
  unfold strip. cbn [lstrip]. change (isspace 32) with true. cbv iota.
  rewrite lstrip_app. destruct (forallb isspace c) eqn:Ec.
  - apply lstrip_nil_iff in Ec as Hc. by rewrite Hc.
  - rewrite rstrip_app. cbn [forallb]. change (isspace 32) with true.
    cbn [andb]. reflexivity.
Qed.

Lemma split_row_cells (row : list str) :
  Forall (λ c, contains_char 124 c = false) row →
  split_char 124 (concat ((λ c, 32%N :: c ++ [32%N; 124%N]) <$> row))
  = ((λ c, 32%N :: c ++ [32%N]) <$> row) ++ [[]].
Proof.
  induction 1 as [|c row Hc _ IH]; [done|].
  rewrite !fmap_cons. cbn [concat].
  assert (∀ r, (32%N :: c ++ [32%N; 124%N]) ++ r
               = (32%N :: c ++ [32%N]) ++ 124%N :: r) as ->.
  { intros r. cbn [app]. by rewrite <- !app_assoc. }
  rewrite split_char_app, IH; [done|].
  change (32%N :: c ++ [32%N]) with ([32%N] ++ c ++ [32%N]).
  by rewrite !contains_char_app, Hc.
Qed.

Lemma table_cells_row (row : list str) :
  row ≠ [] → Forall (λ c, contains_char 124 c = false) row →
  table_cells (lit "| " ++ join (lit " | ") row ++ lit " |") = strip <$> row.
Proof.
  intros Hrow Hbar. rewrite row_line_shape by done. unfold table_cells.
  cbn [split_char]. rewrite N.eqb_refl, split_row_cells by done.
  cbn [skipn]. rewrite drop_0, removelast_last, <- list_fmap_compose.
  apply list_fmap_ext. intros _ c _. apply strip_padded.
Qed.

Lemma contains_nil_r (p : str) : p ≠ [] → contains p [] = false.
Proof. by destruct p. Qed.

Lemma contains_true (p s : str) (j : nat) :
  startswith p (drop j s) = true → contains p s = true.
Proof.
  intros Hj. destruct (contains p s) eqn:E; [done|].
  rewrite contains_false in E. by rewrite E in Hj.
Qed.

Lemma row_line_no_rule (row : list str) :
  row ≠ [] → Forall (λ c, contains (lit "---") c = false) row →
  contains (lit "---") (lit "| " ++ join (lit " | ") row ++ lit " |") = false.
Proof.
  intros Hrow Hcells. rewrite row_line_shape by done. clear Hrow.
  assert (Forall (λ c, c ≠ 124%N) (lit "---")) as Hbar by (by repeat constructor).
  assert (Forall (λ c, c ≠ 32%N) (lit "---")) as Hsp by (by repeat constructor).
  apply (contains_app_sep 124 _ []); [done|done|].
  induction Hcells as [|c row Hc _ IH]; [done|].
  rewrite fmap_cons. cbn [concat].
  assert (∀ r, (32%N :: c ++ [32%N; 124%N]) ++ r
               = [] ++ 32%N :: (c ++ 32%N :: ([] ++ 124%N :: r))) as ->.
  { intros r. cbn [app]. by rewrite <- !app_assoc. }
  apply contains_app_sep; [done|done|].
  apply contains_app_sep; [done|done|].
  by apply contains_app_sep.
Qed.

Lemma rule_line_is_rule (n : nat) :
  contains (lit "---")
    (lit "| " ++ join (lit " | ") (replicate (S n) (lit "---")) ++ lit " |") = true.
Proof.
  apply (contains_true _ _ 2). eval_lit. cbn [app skipn replicate].
  destruct n; reflexivity.
Qed.

Lemma row_line_no_newline (row : list str) :
  Forall (λ c, contains_char 10 c = false) row →
  contains_char 10 (lit "| " ++ join (lit " | ") row ++ lit " |") = false.
Proof.
  intros Hrow. rewrite !contains_char_app.
  assert (contains_char 10 (join (lit " | ") row) = false) as ->; [|done].
  induction Hrow as [|c row Hc _ IH]; [done|]. destruct row as [|c' row]; [done|].
  change (join (lit " | ") (c :: c' :: row))
    with (c ++ lit " | " ++ join (lit " | ") (c' :: row)).
  by rewrite !contains_char_app, Hc, IH.
Qed.

Lemma table_rows_lines (header : list str) (data : list (list str)) :
  Forall (λ row, row ≠ []
                 ∧ Forall (λ c, contains_char 124 c = false
                                ∧ contains (lit "---") c = false) row)
    (header :: data) →
  table_rows
    ([lit "| " ++ join (lit " | ") header ++ lit " |";
      lit "| " ++ join (lit " | ") (replicate (length header) (lit "---"))
        ++ lit " |"]
     ++ ((λ row, lit "| " ++ join (lit " | ") row ++ lit " |") <$> data))
  = ((λ row : list str, strip <$> row) <$> header :: data).
Proof.
  intros Hrows.
  assert (∀ row, row ≠ [] →
            Forall (λ c, contains_char 124 c = false
                         ∧ contains (lit "---") c = false) row →
            (if contains (lit "---") (lit "| " ++ join (lit " | ") row ++ lit " |")
             then None
             else match table_cells (lit "| " ++ join (lit " | ") row ++ lit " |") with
                  | [] => None
                  | cells => Some cells
                  end) = Some (strip <$> row)) as Hline.
  { intros row Hne Hrow. apply Forall_and in Hrow as [Hbar Hrule].
    rewrite row_line_no_rule, table_cells_row by done.
    by destruct row. }
  apply Forall_cons in Hrows as [[Hne Hheader] Hdata].
  unfold table_rows. cbn [app omap list_omap].
  rewrite Hline by done.
  destruct header as [|h header]; [done|]. cbn [length].
  rewrite rule_line_is_rule. rewrite (fmap_cons _ (h :: header)).
  apply (f_equal (cons _)).
  induction Hdata as [|row data [Hr Hrow] _ IH]; [done|].
  rewrite !fmap_cons. cbn [omap list_omap]. rewrite Hline by done.
  by f_equal.
Qed.

Section TableRoundTrip.

Context `{Libraries}.
Variable config : ConversionConfig.t.

Lemma process_table_output (table : Table.t) (s s' : W2M.state) (md : str)
    (header : list Cell.t) (rows : list (list Cell.t)) :
  Table.rows table = header :: rows → header ≠ [] →
  _process_table table s = (Ret md, s') →
  md = join (lit newline)
         ([lit "| " ++ join (lit " | ") (stripped_texts header) ++ lit " |";
           lit "| "
             ++ join (lit " | ")
                  (replicate (length (stripped_texts header)) (lit "---"))
             ++ lit " |"]
          ++ ((λ row, lit "| " ++ join (lit " | ") row ++ lit " |")
                <$> (stripped_texts <$> rows))).
Proof.
  intros Hrows Hne. unfold _process_table. rewrite Hrows.
  destruct header as [|c header]; [done|].
  rewrite fmap_cons. cbv beta. rewrite fmap_cons. cbv iota.
  unfold bind, get_current_line, get_metadata, lift, put_metadata, ret.
  destruct (append _ _); [|done..].
  by intros [= <- _].
Qed.

Lemma strip_stripped_texts (row : list Cell.t) :
  strip <$> stripped_texts row = stripped_texts row.
Proof.
  unfold stripped_texts. rewrite <- list_fmap_compose.
  apply list_fmap_ext. intros _ c _. apply strip_idem.
Qed.

(** X17.  A table written by [_process_table] is read back by
    [_add_markdown_table] cell for cell: when no row is empty and no
    stripped cell text holds a vertical bar, a line feed or three hyphens in
    a row, the lines of the Markdown table give a table with the same rows
    of stripped texts, the first row marked as header. *)
Theorem process_table_read_back (table : Table.t) (s s' : W2M.state)
    (md : str) (d : Document.t) (header : list Cell.t) (rows : list (list Cell.t)) :
  Table.rows table = header :: rows →
  Forall (λ row, row ≠ []
                 ∧ Forall (λ c, contains_char 124 c = false
                                ∧ contains_char 10 c = false
                                ∧ contains (lit "---") c = false)
                      (stripped_texts row))
    (header :: rows) →
  _process_table table s = (Ret md, s') →
  _add_markdown_table config d (split_char 10 md)
  = add_block
      (BTable
         (Table.mk
            (fill_row (length header) true (stripped_texts header)
               :: ((λ row, fill_row (length header) false (stripped_texts row))
                     <$> rows))
            (Some (ConversionConfig.table_style config)) true))
      d.
Proof.
  intros Hrows Hcells Hrun.
  pose proof Hcells as Hheader. apply Forall_cons in Hheader as [[Hne Hh] Hdata].
  rewrite (process_table_output table s s' md header rows Hrows Hne Hrun).
  change (lit newline) with [10%N].
  assert (∀ row, Forall (λ c, contains_char 124 c = false
                              ∧ contains_char 10 c = false
                              ∧ contains (lit "---") c = false) row →
            contains_char 10 (lit "| " ++ join (lit " | ") row ++ lit " |") = false)
    as Hnl.
  { intros row Hrow. apply row_line_no_newline.
    eapply Forall_impl; [exact Hrow|]. by intros c (_ & ? & _). }
  rewrite split_char_join; [|done|].
  2:{ repeat apply Forall_cons_2.
      - by apply Hnl.
      - apply row_line_no_newline. by apply Forall_replicate.
      - apply Forall_fmap, Forall_fmap.
        eapply Forall_impl; [exact Hdata|]. intros row [_ Hrow]. by apply Hnl. }
  unfold _add_markdown_table.
  rewrite (table_rows_lines (stripped_texts header) (stripped_texts <$> rows)).
  2:{ rewrite <- fmap_cons. apply Forall_fmap.
      eapply Forall_impl; [exact Hcells|]. intros row [Hr Hrow]. split.
      - by destruct row.
      - eapply Forall_impl; [exact Hrow|]. by intros c (? & _ & ?). }
  rewrite fmap_cons, strip_stripped_texts.
  assert (length (stripped_texts header) = length header) as ->
    by apply length_fmap.
  assert (fill_row (length header) false
            <$> ((λ row : list str, strip <$> row) <$> (stripped_texts <$> rows))
          = (λ row, fill_row (length header) false (stripped_texts row)) <$> rows)
    as ->.
  { rewrite <- !list_fmap_compose. apply list_fmap_ext. intros _ row _. cbn.
    by rewrite strip_stripped_texts. }
  by destruct (ConversionConfig.table_autofit config).
Qed.

End TableRoundTrip.


(** ** Front matter *)

Section FrontMatter.

Context `{Libraries}.

(** The closing line of the front matter is found where it was written,
    when the YAML text holds no line that starts with three hyphens. *)
Lemma find_frontmatter_end (yaml_content body : str) :
  contains (lit newline ++ lit "---") yaml_content = false →
  find (lit newline ++ lit "---" ++ lit newline)
    (lit "---" ++ lit newline ++ yaml_content
     ++ lit newline ++ lit "---" ++ lit newline ++ body) 4
  = Z.of_nat (4 + length yaml_content).
Proof.
  intros Hy. unfold find. eval_lit. cbn [app length].
  rewrite (proj2 (Nat.ltb_ge _ _)) by (rewrite length_app; simpl; lia).
  cbn [skipn]. rewrite drop_0.
  apply find_from_first.
  - rewrite (drop_app_length yaml_content). reflexivity.
  - intros j Hj. rewrite drop_app_le by lia.
    change [10%N; 45%N; 45%N; 45%N; 10%N] with ([10%N; 45%N; 45%N; 45%N] ++ [10%N]).
    rewrite startswith_split.
    rewrite (startswith_newline_needle [45%N; 45%N; 45%N] (drop j yaml_content));
      [done|by repeat constructor| |].
    + intros Hnil. apply (f_equal length) in Hnil.
      rewrite length_drop in Hnil. simpl in Hnil. lia.
    + by apply (proj1 (contains_false _ _) Hy).
Qed.

(** X18.  Front matter is read back as it was written.  For a text that
    opens with a line of three hyphens, a YAML text without any line
    starting with three hyphens, and a closing line of three hyphens, the
    configuration is what the YAML parser makes of exactly that YAML text
    ([None] when it fails), and stripping leaves exactly what follows the
    closing line. *)
Theorem frontmatter_read_back (yaml_content body : str) :
  contains (lit newline ++ lit "---") yaml_content = false →
  let content := lit "---" ++ lit newline ++ yaml_content
                 ++ lit newline ++ lit "---" ++ lit newline ++ body in
  _extract_frontmatter_config content = default PNone (yaml_safe_load yaml_content)
  ∧ _strip_frontmatter content = body.
Proof.
  intros Hy content.
  pose proof (find_frontmatter_end yaml_content body Hy) as Hfind.
  fold content in Hfind.
  assert (startswith (lit "---" ++ lit newline) content = true) as Hstart.
  { unfold content. rewrite (app_assoc (lit "---")). apply startswith_self_app. }
  assert (drop 4 content
          = yaml_content ++ lit newline ++ lit "---" ++ lit newline ++ body) as Hdrop.
  { unfold content. by eval_lit. }
  unfold _extract_frontmatter_config, _strip_frontmatter.
  rewrite Hstart, Hfind. cbn [negb].
  rewrite (proj2 (Z.eqb_neq _ _)) by lia.
  rewrite Nat2Z.id. split.
  - rewrite Hdrop, Nat.add_comm, Nat.add_sub, take_app_length.
    by destruct (yaml_safe_load yaml_content).
  - replace (4 + length yaml_content + 5)%nat
      with (4 + (length yaml_content + 5))%nat by lia.
    rewrite <- drop_drop, Hdrop, <- drop_drop, drop_app_length. by eval_lit.
Qed.

End FrontMatter.


(** ** Paragraphs written and read back *)

Section ParagraphRoundTrip.

Context `{Libraries}.
Variable config : ConversionConfig.t.





End ParagraphRoundTrip.


(** ** The conversion to Word as a whole *)

Section ConversionFrames.

Context `{Hashlib} `{Libraries}.

Lemma touches_only_save (d : Document.t) (p : Path.t) :
  touches_only (λ q, q = p) (save d p).
Proof.
  intros w q c Hq Hc. cbn. rewrite lookup_insert_ne; [done|]. by intros ->.
Qed.

Lemma touches_only_read_text (P : Path.t → Prop) (p : Path.t) :
  touches_only P (read_text p).
Proof.
  unfold read_text. apply touches_only_bind; [apply touches_only_open_rb|].
  intros data. destruct (decode_utf8 data);
    [apply touches_only_ret|apply touches_only_lift].
Qed.

Lemma touches_only_markdown_to_document (P : Path.t → Prop)
    (config : ConversionConfig.t) (template_path : option Path.t) (content : str) :
  touches_only P (markdown_to_document config template_path content).
Proof.
  unfold markdown_to_document.
  apply touches_only_bind.
  { destruct (truthy _); [|apply touches_only_ret].
    apply touches_only_bind; [apply touches_only_lift|].
    intros a. apply touches_only_ret. }
  intros [config' content'].
  apply touches_only_bind; [apply touches_only_lift|]. intros metadata.
  apply touches_only_bind.
  { destruct template_path as [t|]; [|apply touches_only_ret].
    apply touches_only_bind; [apply touches_only_path_exists|].
    intros ex. apply touches_only_ret. }
  intros template. apply touches_only_bind; [|intros d; apply touches_only_lift].
  destruct template as [t|]; [|apply touches_only_ret].
  apply touches_only_bind; [apply touches_only_open_rb|].
  intros data. apply touches_only_lift.
Qed.

(** X21.  The conversion to Word changes no file but its target: whatever
    the policy, the template and the outcome, every other file that existed
    is still there afterwards with the content it had. *)
Theorem convert_md_to_docx_keeps_other_files (safety : SafetyConfig.t)
    (config : ConversionConfig.t) (template_path : option Path.t)
    (source_file target_file : Path.t) (w : world) (q : Path.t) (c : bytes) :
  q ≠ target_file →
  files w !! q = Some c →
  files (convert_md_to_docx safety config template_path source_file target_file w).2
    !! q = Some c.
Proof.
  intros Hq. revert w q c Hq.
  change (touches_only (λ q, q = target_file)
            (convert_md_to_docx safety config template_path source_file target_file)).
  unfold convert_md_to_docx.
  apply touches_only_bind; [apply touches_only_path_exists|]. intros ex.
  destruct (negb ex).
  { apply touches_only_bind; [apply touches_only_print|].
    intros _. apply touches_only_ret. }
  apply touches_only_bind; [apply touches_only_safe_write_check|].
  intros [can_proceed reason]. destruct (negb can_proceed).
  { apply touches_only_bind; [apply touches_only_print|].
    intros _. apply touches_only_ret. }
  apply touches_only_try_except.
  - apply touches_only_bind; [apply touches_only_read_text|]. intros content.
    apply touches_only_bind; [apply touches_only_markdown_to_document|]. intros d.
    apply touches_only_bind; [apply touches_only_save|]. intros _.
    apply touches_only_bind; [apply touches_only_calculate_file_hash|]. intros h.
    apply touches_only_bind; [apply touches_only_print|]. intros _.
    apply touches_only_bind; [apply touches_only_print|]. intros _.
    apply touches_only_ret.
  - intros e. apply touches_only_bind; [apply touches_only_print|].
    intros _. apply touches_only_ret.
Qed.

(** X22.  An existing file with the stem of the source and other content
    stands in the way of the conversion, whatever the policy: a file with
    the target's name blocks it.  The conversion prints the reason and
    returns [False]; no file is changed and nothing is asked. *)
Theorem convert_md_to_docx_collision (safety : SafetyConfig.t)
    (config : ConversionConfig.t) (template_path : option Path.t)
    (source_file target_file : Path.t) (w : world) :
  is_Some (files w !! source_file) →
  is_Some (files w !! target_file) →
  Path.stem source_file = Path.stem target_file →
  fingerprint w source_file ≠ fingerprint w target_file →
  convert_md_to_docx safety config template_path source_file target_file w =
    (Ret false,
     World (files w) (stdin w)
       (stdout w
        ++ [[10060]%N ++ lit " Safety check failed: "
            ++ lit "Collision detected: " ++ Path.to_str target_file
            ++ lit " exists with different content"])).
Proof.
  intros Hsrc Htgt Hstem Hdiff. unfold convert_md_to_docx.
  unfold bind at 1. rewrite path_exists_run.
  rewrite bool_decide_eq_true_2 by done. cbn [negb].
  unfold bind at 1. unfold safe_write_check. unfold bind at 1.
  rewrite detect_conversion_collision_run.
  rewrite bool_decide_eq_true_2 by done.
  rewrite (proj2 (str_eqb_eq _ _) Hstem), (proj2 (str_eqb_neq _ _) Hdiff).
  cbn [andb negb]. unfold ret at 1. cbn [negb]. reflexivity.
Qed.

(** X23.  A conversion that goes through writes the target and nothing
    else: when the source can be read and decoded, the target does not exist
    yet and the text builds a document, the result is [True], the target
    holds the saved document, and the two lines printed name the files and
    the first 16 characters of the hash of what was written. *)
Theorem convert_md_to_docx_written (safety : SafetyConfig.t)
    (config : ConversionConfig.t) (template_path : option Path.t)
    (source_file target_file : Path.t) (w : world) (data : bytes) (content : str)
    (d : Document.t) :
  files w !! source_file = Some data →
  files w !! target_file = None →
  decode_utf8 data = Some content →
  markdown_to_document config template_path content w = (Ret d, w) →
  convert_md_to_docx safety config template_path source_file target_file w =
    (Ret true,
     World (<[target_file := dump_docx d]> (files w)) (stdin w)
       (stdout w
        ++ [[9989]%N ++ lit " Successfully converted " ++ Path.to_str source_file
            ++ [32; 8594; 32]%N ++ Path.to_str target_file;
            [128202]%N ++ lit " Output hash: "
            ++ take 16 (sha256_hex (dump_docx d)) ++ lit "..."])).
Proof.
  intros Hsrc Htgt Hdec Hbuild. unfold convert_md_to_docx.
  unfold bind at 1. rewrite path_exists_run, Hsrc.
  rewrite bool_decide_eq_true_2 by eauto. cbn [negb].
  unfold bind at 1. rewrite safe_write_check_new_target by done. cbn [negb].
  unfold try_except, read_text, bind, open_rb. rewrite Hsrc, Hdec.
  unfold ret at 1. rewrite Hbuild. unfold save.
  rewrite calculate_file_hash_run. unfold fingerprint. cbn [files].
  rewrite lookup_insert, decide_True by done.
  unfold print, ret. cbn [files stdin stdout].
  by rewrite <- app_assoc.
Qed.

End ConversionFrames.


(** ** The conversion to Markdown as a whole *)

Section FramesWithConverter.

Context {S A B : Type} (P : Path.t → Prop).

Lemma touches_only_in_ret (a : A) : touches_only_in (S := S) P (ret a).
Proof. by intros s w q c. Qed.

Lemma touches_only_in_lift (o : outcome A) : touches_only_in (S := S) P (lift o).
Proof. by intros s w q c. Qed.

Lemma touches_only_in_bind (m : ST (S * world) A) (f : A → ST (S * world) B) :
  touches_only_in P m → (∀ a, touches_only_in P (f a)) →
  touches_only_in P (bind m f).
Proof.
  intros Hm Hf s w q c Hq Hc. unfold bind. specialize (Hm s w q c Hq Hc).
  destruct (m (s, w)) as [[a|e|] [s' w']]; cbn in *; [|done|done].
  by apply Hf.
Qed.

Lemma touches_only_in_try_except (m : ST (S * world) A)
    (h : exn → ST (S * world) A) :
  touches_only_in P m → (∀ e, touches_only_in P (h e)) →
  touches_only_in P (try_except m h).
Proof.
  intros Hm Hh s w q c Hq Hc. unfold try_except. specialize (Hm s w q c Hq Hc).
  destruct (m (s, w)) as [[a|e|] [s' w']]; cbn in *; [done| |done].
  by apply Hh.
Qed.

End FramesWithConverter.

Lemma touches_only_in_world {A} (P : Path.t → Prop) (m : ST world A) :
  touches_only P m → touches_only_in (S := W2M.state) P (in_world m).
Proof.
  intros Hm s w q c Hq Hc. unfold in_world. cbn [fst snd].
  specialize (Hm w q c Hq Hc). by destruct (m w) as [r w'].
Qed.

Lemma touches_only_in_converter {A} (P : Path.t → Prop) (m : ST W2M.state A) :
  touches_only_in P (in_converter m).
Proof.
  intros s w q c Hq Hc. unfold in_converter. cbn [fst snd].
  by destruct (m s) as [r s'].
Qed.

Section DocxToMarkdownProperties.

Context `{Hashlib} `{Libraries}.
Variable json_dumps : pyval → str.
Variable now_isoformat : str.
Variable encode_utf8 : str → option bytes.

Lemma touches_only_write_text (p : Path.t) (text : str) :
  touches_only (λ q, q = p) (write_text encode_utf8 p text).
Proof.
  intros w q c Hq Hc. unfold write_text.
  destruct (encode_utf8 text); cbn; rewrite lookup_insert_ne; try done;
    by intros ->.
Qed.

(** X24.  The conversion to Markdown changes no file but its target,
    whatever the policy and the outcome. *)
Theorem convert_docx_to_md_keeps_other_files (safety : SafetyConfig.t)
    (source_file target_file : Path.t) (cs : W2M.state) (w : world)
    (q : Path.t) (c : bytes) :
  q ≠ target_file →
  files w !! q = Some c →
  files (convert_docx_to_md json_dumps now_isoformat encode_utf8 safety
           source_file target_file (cs, w)).2.2 !! q = Some c.
Proof.
  intros Hq. revert cs w q c Hq.
  change (touches_only_in (λ q, q = target_file)
            (convert_docx_to_md json_dumps now_isoformat encode_utf8 safety
               source_file target_file)).
  unfold convert_docx_to_md.
  apply touches_only_in_bind;
    [apply touches_only_in_world, touches_only_path_exists|]. intros ex.
  destruct (negb ex).
  { apply touches_only_in_bind;
      [apply touches_only_in_world, touches_only_print|].
    intros _. apply touches_only_in_ret. }
  apply touches_only_in_bind;
    [apply touches_only_in_world, touches_only_safe_write_check|].
  intros [can_proceed reason]. destruct (negb can_proceed).
  { apply touches_only_in_bind;
      [apply touches_only_in_world, touches_only_print|].
    intros _. apply touches_only_in_ret. }
  apply touches_only_in_try_except.
  - apply touches_only_in_bind;
      [apply touches_only_in_world, touches_only_open_rb|]. intros data.
    apply touches_only_in_bind; [apply touches_only_in_lift|]. intros d.
    apply touches_only_in_bind; [apply touches_only_in_converter|]. intros md.
    apply touches_only_in_bind;
      [apply touches_only_in_world, touches_only_calculate_file_hash|]. intros h.
    apply touches_only_in_bind; [apply touches_only_in_converter|]. intros m.
    apply touches_only_in_bind; [apply touches_only_in_converter|]. intros _.
    apply touches_only_in_bind;
      [apply touches_only_in_world, touches_only_write_text|]. intros _.
    apply touches_only_in_bind;
      [apply touches_only_in_world, touches_only_print|]. intros _.
    apply touches_only_in_bind;
      [apply touches_only_in_world, touches_only_print|]. intros _.
    apply touches_only_in_ret.
  - intros e. apply touches_only_in_bind;
      [apply touches_only_in_world, touches_only_print|].
    intros _. apply touches_only_in_ret.
Qed.

(** X25.  A conversion to Markdown that goes through writes the text and
    its footer to the target: when the source can be read as a document, the
    target does not exist yet and the full text can be encoded, the result
    is [True]; the converter keeps the metadata it has built, with the hash
    of the source and the time of the conversion added; and the target holds
    the Markdown text followed by the footer with that metadata. *)
Theorem convert_docx_to_md_written (safety : SafetyConfig.t)
    (source_file target_file : Path.t) (cs cs' : W2M.state) (w : world)
    (data out : bytes) (d : Document.t) (markdown_content : str) :
  files w !! source_file = Some data →
  files w !! target_file = None →
  load_docx data = Ret d →
  _extract_content_and_metadata d cs = (Ret markdown_content, cs') →
  let m := set_conversion_timestamp (PStr now_isoformat)
             (set_file_hash (PStr (sha256_hex data)) (W2M.metadata cs')) in
  encode_utf8 (full_content markdown_content (json_dumps (asdict m))) = Some out →
  convert_docx_to_md json_dumps now_isoformat encode_utf8 safety
    source_file target_file (cs, w)
  = (Ret true,
     (W2M.mk m (W2M.current_line cs'),
      World (<[target_file := out]> (files w)) (stdin w)
        (stdout w
         ++ [[9989]%N ++ lit " Successfully converted " ++ Path.to_str source_file
             ++ [32; 8594; 32]%N ++ Path.to_str target_file;
             [128202]%N ++ lit " File hash: " ++ take 16 (sha256_hex data)
             ++ lit "..."]))).
Proof.
  intros Hsrc Htgt Hload Hrun m Henc. unfold convert_docx_to_md.
  unfold bind at 1. unfold in_world at 1. cbn [fst snd].
  rewrite path_exists_run, Hsrc.
  rewrite bool_decide_eq_true_2 by eauto. cbn [negb].
  unfold bind at 1. unfold in_world at 1. cbn [fst snd].
  rewrite safe_write_check_new_target by done. cbn [negb].
  unfold try_except, bind, in_world, in_converter, lift, open_rb.
  cbn [fst snd]. rewrite Hsrc, Hload. cbn [fst snd]. rewrite Hrun.
  cbn [fst snd].
  rewrite calculate_file_hash_run. unfold fingerprint. rewrite Hsrc.
  unfold get_metadata, put_metadata, write_text.
  cbn [fst snd W2M.metadata W2M.current_line].
  fold m. rewrite Henc. unfold print, ret. cbn [files stdin stdout fst snd].
  by rewrite <- app_assoc.
Qed.

End DocxToMarkdownProperties.


(** ** Concrete instances of the further properties *)

Lemma safe_write_check_never_overwrites_witness :
  files (safe_write_check (H := dump_hashlib) SafetyConfig.default
           sample_md sample_backup (sample_answer_world "yes")).2
    !! sample_docx = Some sample_docx_bytes.
Proof.
  apply (safe_write_check_never_overwrites (H := dump_hashlib)
           SafetyConfig.default sample_md sample_backup sample_docx
           (sample_answer_world "yes") sample_docx_bytes).
  reflexivity.
Defined.

Lemma safe_write_check_forced_asks_nothing_witness :
  stdin (safe_write_check (H := dump_hashlib)
           (SafetyConfig.mk false true true true (lit ".backup"))
           sample_md sample_backup (sample_answer_world "no")).2
  = [lit "no"].
Proof.
  apply (safe_write_check_forced_asks_nothing (H := dump_hashlib)
           (SafetyConfig.mk false true true true (lit ".backup"))
           sample_md sample_backup (sample_answer_world "no")).
  left. reflexivity.
Defined.

Lemma safe_write_check_fresh_target_witness :
  safe_write_check (H := dump_hashlib) SafetyConfig.default
    sample_md sample_notes sample_world
  = (Ret (true, lit "Safe to proceed"), sample_world).
Proof.
  apply (safe_write_check_fresh_target (H := dump_hashlib) SafetyConfig.default
           sample_md sample_notes sample_world).
  reflexivity.
Defined.

Lemma safe_write_check_not_confirmed_witness :
  safe_write_check (H := dump_hashlib) SafetyConfig.default
    sample_md sample_backup sample_world
  = (Raise EOFError,
     World (files sample_world) [] [overwrite_prompt sample_backup])
  ∧ safe_write_check (H := dump_hashlib) SafetyConfig.default
      sample_md sample_backup (sample_answer_world "no")
    = (Ret (false, lit "User cancelled overwrite"),
       World (files sample_world) [] [overwrite_prompt sample_backup]).
Proof.
  split.
  - apply (safe_write_check_not_confirmed (H := dump_hashlib)
             SafetyConfig.default sample_md sample_backup sample_world).
    + vm_compute. eauto.
    + left. vm_compute. discriminate.
    + reflexivity.
    + reflexivity.
  - apply (safe_write_check_not_confirmed (H := dump_hashlib)
             SafetyConfig.default sample_md sample_backup
             (sample_answer_world "no")).
    + vm_compute. eauto.
    + left. vm_compute. discriminate.
    + reflexivity.
    + reflexivity.
    + reflexivity.
Defined.

Lemma safe_write_check_confirmed_with_backup_witness :
  ∃ k : nat,
    safe_write_check (H := dump_hashlib) SafetyConfig.default
      sample_md sample_backup (sample_answer_world "Yes ")
    = (Ret (true, lit "Safe to proceed"),
       World (<[backup_candidate sample_backup k := sample_docx_bytes]>
                (files sample_world)) []
         [overwrite_prompt sample_backup;
          [9989]%N ++ lit " Backup created: "
            ++ Path.to_str (backup_candidate sample_backup k)]).
Proof.
  destruct (safe_write_check_confirmed_with_backup (H := dump_hashlib)
              SafetyConfig.default sample_md sample_backup
              (sample_answer_world "Yes ") sample_docx_bytes (lit "Yes ") [])
    as (k & _ & _ & Hrun).
  - reflexivity.
  - split; [vm_compute; discriminate | reflexivity].
  - left. vm_compute. discriminate.
  - reflexivity.
  - reflexivity.
  - reflexivity.
  - reflexivity.
  - reflexivity.
  - reflexivity.
  - exists k. exact Hrun.
Defined.

Lemma create_backup_bad_suffix_witness :
  create_backup slash_suffix_config sample_docx sample_world
  = (Raise (ValueError (lit "Invalid suffix")), sample_world).
Proof.
  apply (create_backup_bad_suffix slash_suffix_config sample_docx sample_world).
  - reflexivity.
  - vm_compute. eauto.
Defined.

Lemma strip_metadata_full_content_witness :
  _strip_metadata (full_content (lit "# Hi!") (lit "{}")) = lit "# Hi!".
Proof.
  apply (strip_metadata_full_content (lit "# Hi!") (lit "{}")). reflexivity.
Defined.




Lemma build_step_heading_witness :
  build_step (H := sample_libraries) ConversionConfig.default 0
    (initial_build_state (lit "## Title "))
  = Ret (with_doc
           (add_block
              (BParagraph (new_paragraph (lit "Title") (lit "Heading 2")))
              new_document)
           (initial_build_state (lit "## Title ")), 0%nat)
  ∧ build_step (H := sample_libraries) ConversionConfig.default 0
      (initial_build_state (lit "########## deep"))
    = Raise (ValueError (lit "level must be in range 0-9")).
Proof.
  split.
  - rewrite (build_step_heading (H := sample_libraries) ConversionConfig.default
               0 2 (lit " Title ") (initial_build_state (lit "## Title ")));
      [reflexivity | reflexivity | reflexivity | lia | discriminate | reflexivity].
  - rewrite (build_step_heading (H := sample_libraries) ConversionConfig.default
               0 10 (lit " deep") (initial_build_state (lit "########## deep")));
      [reflexivity | reflexivity | reflexivity | lia | discriminate | reflexivity].
Defined.

Lemma build_document_unclosed_fence_witness :
  _build_document (H := sample_libraries) ConversionConfig.default new_document
    (lit "```" ++ lit newline ++ lit "code" ++ lit newline ++ lit "# Title")
    FormatMetadata.empty
  = Ret new_document.
Proof.
  apply (build_document_unclosed_fence (H := sample_libraries)
           ConversionConfig.default new_document _ FormatMetadata.empty
           (lit "```") [lit "code"; lit "# Title"]).
  - reflexivity.
  - reflexivity.
  - repeat constructor.
Defined.


Lemma build_document_appends_witness :
  ∃ added,
    [BParagraph (new_paragraph (lit "x") (lit "Normal"));
     BParagraph (new_paragraph (lit "Hi!") (lit "Heading 1"))]
    = [BParagraph (new_paragraph (lit "x") (lit "Normal"))] ++ added
    ∧ (length added ≤ length (split_char 10 (lit "# Hi!")))%nat
    ∧ Forall no_border added.
Proof.
  apply (build_document_appends (H := sample_libraries) ConversionConfig.default
           (Document.mk [BParagraph (new_paragraph (lit "x") (lit "Normal"))]
              None None)
           (Document.mk
              [BParagraph (new_paragraph (lit "x") (lit "Normal"));
               BParagraph (new_paragraph (lit "Hi!") (lit "Heading 1"))]
              None None)
           (lit "# Hi!") FormatMetadata.empty).
  reflexivity.
Defined.

Lemma build_step_bullet_witness :
  build_step (H := sample_libraries) ConversionConfig.default 0
    (initial_build_state (lit "**Bold** start"))
  = Ret (with_list_type (Some (lit "bullet"))
           (with_doc
              (add_block
                 (BParagraph
                    (new_paragraph (lit "*Bold** start") (lit "List Bullet")))
                 new_document)
              (initial_build_state (lit "**Bold** start"))), 0%nat).
Proof.
  rewrite (build_step_bullet (H := sample_libraries) ConversionConfig.default
             0 (lit "**Bold** start") 42 (lit "*Bold** start")
             (initial_build_state (lit "**Bold** start")));
    [reflexivity | reflexivity | reflexivity | reflexivity | | reflexivity].
  set_solver.
Defined.

Lemma apply_inline_formatting_plain_witness :
  Paragraph.runs
    (_apply_inline_formatting ConversionConfig.default
       (new_paragraph [] (lit "Normal")) (lit "plain text"))
  = [Run.plain (lit "plain text")].
Proof.
  apply (apply_inline_formatting_plain ConversionConfig.default
           (new_paragraph [] (lit "Normal")) (lit "plain text")).
  reflexivity.
Defined.

Lemma inline_formatting_reads_emphasis_witness :
  Paragraph.runs
    (_apply_inline_formatting ConversionConfig.default
       (new_paragraph [] (lit "Normal")) (lit "a **bold** c"))
  = [Run.plain (lit "a ");
     set_run_flags (Some true) None None (Run.plain (lit "bold"));
     Run.plain (lit " c")].
Proof.
  apply (inline_formatting_reads_emphasis ConversionConfig.default
           (new_paragraph [] (lit "Normal")) (lit "a ") (lit " c")
           (styled_run (lit "bold") true false false));
    try reflexivity.
  discriminate.
Defined.


Lemma process_table_read_back_witness :
  _add_markdown_table ConversionConfig.default new_document
    (split_char 10 sample_table_markup)
  = add_block
      (BTable
         (Table.mk
            [[Cell.mk (lit "A") true; Cell.mk (lit "B") true];
             [Cell.mk (lit "1") false; Cell.mk (lit "2") false]]
            (Some (lit "Table Grid")) true))
      new_document.
Proof.
  apply (process_table_read_back ConversionConfig.default
           sample_table fresh_converter
           (W2M.mk
              (FormatMetadata.set_tables
                 (PList
                    [PDict [(KStr (lit "line"), PInt 0);
                            (KStr (lit "rows"), PInt 2);
                            (KStr (lit "cols"), PInt 2);
                            (KStr (lit "data"),
                             PList [PList [PStr (lit "A"); PStr (lit "B")];
                                    PList [PStr (lit "1"); PStr (lit "2")]])]])
                 FormatMetadata.empty) 0)
           sample_table_markup new_document
           [Cell.mk (lit "A") false; Cell.mk (lit "B") false]
           [[Cell.mk (lit "1") false; Cell.mk (lit "2") false]]).
  - reflexivity.
  - repeat constructor; discriminate.
  - reflexivity.
Defined.

Lemma frontmatter_read_back_witness :
  _extract_frontmatter_config (H0 := round_trip_libraries)
    (lit "---" ++ lit newline ++ lit "font_size: 12"
     ++ lit newline ++ lit "---" ++ lit newline ++ lit "# Hi!")
  = PDict [(KStr (lit "font_size"), PInt 12)]
  ∧ _strip_frontmatter
      (lit "---" ++ lit newline ++ lit "font_size: 12"
       ++ lit newline ++ lit "---" ++ lit newline ++ lit "# Hi!")
    = lit "# Hi!".
Proof.
  exact (frontmatter_read_back (H := round_trip_libraries)
           (lit "font_size: 12") (lit "# Hi!") eq_refl).
Defined.



Lemma convert_md_to_docx_keeps_other_files_witness :
  files (convert_md_to_docx (H := dump_hashlib) (H0 := sample_libraries)
           SafetyConfig.default ConversionConfig.default None
           sample_md sample_notes sample_world).2
    !! sample_docx = Some sample_docx_bytes.
Proof.
  apply (convert_md_to_docx_keeps_other_files (H := dump_hashlib)
           (H0 := sample_libraries) SafetyConfig.default ConversionConfig.default
           None sample_md sample_notes sample_world sample_docx sample_docx_bytes).
  - intros E. vm_compute in E. discriminate.
  - reflexivity.
Defined.

Lemma convert_md_to_docx_collision_witness :
  convert_md_to_docx (H := dump_hashlib) (H0 := sample_libraries)
    (SafetyConfig.mk false false false false (lit ".backup"))
    ConversionConfig.default None sample_md sample_docx sample_world
  = (Ret false,
     World (files sample_world) []
       [[10060]%N
        ++ lit " Safety check failed: Collision detected: report.docx exists with different content"]).
Proof.
  rewrite (convert_md_to_docx_collision (H := dump_hashlib)
             (H0 := sample_libraries)
             (SafetyConfig.mk false false false false (lit ".backup"))
             ConversionConfig.default None sample_md sample_docx sample_world).
  - reflexivity.
  - vm_compute. eauto.
  - vm_compute. eauto.
  - reflexivity.
  - vm_compute. discriminate.
Defined.

Lemma convert_md_to_docx_written_witness :
  (convert_md_to_docx (H := dump_hashlib) (H0 := sample_libraries)
     SafetyConfig.default ConversionConfig.default None
     sample_md sample_notes sample_world).1 = Ret true
  ∧ files (convert_md_to_docx (H := dump_hashlib) (H0 := sample_libraries)
             SafetyConfig.default ConversionConfig.default None
             sample_md sample_notes sample_world).2
      !! sample_notes = Some [].
Proof.
  rewrite (convert_md_to_docx_written (H := dump_hashlib) (H0 := sample_libraries)
             SafetyConfig.default ConversionConfig.default None
             sample_md sample_notes sample_world sample_md_bytes (lit "# Hi!")
             (Document.mk
                [BParagraph (new_paragraph (lit "Hi!") (lit "Heading 1"))]
                (Some (lit "Calibri")) (Some (Pt 11)))).
  - split; reflexivity.
  - reflexivity.
  - reflexivity.
  - reflexivity.
  - reflexivity.
Defined.

Lemma convert_docx_to_md_keeps_other_files_witness :
  files (convert_docx_to_md (H := dump_hashlib) (H0 := round_trip_libraries)
           sample_json_dumps sample_time encode_ascii SafetyConfig.default
           sample_docx sample_notes_md (fresh_converter, sample_world)).2.2
    !! sample_md = Some sample_md_bytes.
Proof.
  apply (convert_docx_to_md_keeps_other_files (H := dump_hashlib)
           (H0 := round_trip_libraries) sample_json_dumps sample_time
           encode_ascii SafetyConfig.default sample_docx sample_notes_md
           fresh_converter sample_world sample_md sample_md_bytes).
  - intros E. vm_compute in E. discriminate.
  - reflexivity.
Defined.

Lemma convert_docx_to_md_written_witness :
  (convert_docx_to_md (H := dump_hashlib) (H0 := round_trip_libraries)
     sample_json_dumps sample_time encode_ascii SafetyConfig.default
     sample_docx sample_notes_md (fresh_converter, sample_world)).1 = Ret true
  ∧ is_Some
      (files (convert_docx_to_md (H := dump_hashlib) (H0 := round_trip_libraries)
                sample_json_dumps sample_time encode_ascii SafetyConfig.default
                sample_docx sample_notes_md (fresh_converter, sample_world)).2.2
         !! sample_notes_md).
Proof.
  erewrite (convert_docx_to_md_written (H := dump_hashlib)
              (H0 := round_trip_libraries) sample_json_dumps sample_time
              encode_ascii SafetyConfig.default sample_docx sample_notes_md
              fresh_converter _ sample_world sample_docx_bytes _ sample_document).
  - split; [reflexivity|]. cbn [snd files]. rewrite lookup_insert, decide_True by done.
    eauto.
  - reflexivity.
  - reflexivity.
  - reflexivity.
  - reflexivity.
  - reflexivity.
Defined.
